(** * MarketDash: the indicator pipeline of [app.py]

    A shallow embedding of the numeric core of [app.py]: the five indicator
    functions [calculate_sma], [calculate_ema], [calculate_rsi],
    [calculate_bollinger_bands], [calculate_macd] and the orchestrator
    [process_stock_data].

    Modelling conventions.
    - Python integers are [Z]; list lengths, indices, slices and [range]
      follow Python's rules, including negative indices.
    - Python floats are idealised as exact rationals [Q]; a division whose
      divisor is zero raises [ZeroDivisionError], as in Python.
    - [None] inside an indicator series is [None : option Q].
    - A function that can raise returns a [result]; loops are folds in the
      [result] monad, one iteration of the model per iteration of the code.
    - A decoded JSON document is a [pyval]: a string or a dictionary
      ([gmap]) from strings to documents.
    - The builtins [float], [int] and numpy's square root are parameters
      of the development. *)

From Stdlib Require Import ZArith QArith Qabs Lia Lqa Ascii String OrderedTypeEx.
From stdpp Require Import base option list list_numbers gmap strings sorting.

Set Warnings "-register-all".
Local Open Scope Z_scope.

(** ** Exceptions and the result monad *)

Inductive exn : Set :=
  | KeyError
  | ValueError
  | TypeError
  | AttributeError
  | IndexError
  | ZeroDivisionError.

Inductive result (A : Type) : Type :=
  | Ok (a : A)
  | Raise (e : exn).
Arguments Ok {A} a.
Arguments Raise {A} e.

#[global] Instance result_ret : MRet result := @Ok.
#[global] Instance result_bind : MBind result :=
  λ A B f m, match m with Ok a => f a | Raise e => Raise e end.

(** [for i in it: s = body(s, i)] *)
Fixpoint py_for {S : Type} (it : list Z) (body : S → Z → result S) (s : S)
  : result S :=
  match it with
  | [] => Ok s
  | i :: it' => s' ← body s i; py_for it' body s'
  end.

(** [[f(i) for i in it]] *)
Fixpoint py_comp {A : Type} (f : Z → result A) (it : list Z)
  : result (list A) :=
  match it with
  | [] => Ok []
  | i :: it' => x ← f i; xs ← py_comp f it'; Ok (x :: xs)
  end.

(** ** Python lists *)

Definition py_len {A : Type} (l : list A) : Z := Z.of_nat (length l).

(** [[x] * k]: empty when [k] is not positive. *)
Definition py_repeat {A : Type} (x : A) (k : Z) : list A :=
  replicate (Z.to_nat k) x.

(** [range(a, b)] *)
Definition py_range (a b : Z) : list Z := seqZ a (b - a).

(** [l[i]]: a negative index counts from the end. *)
Definition py_index {A : Type} (l : list A) (i : Z) : result A :=
  let j := if i <? 0 then py_len l + i else i in
  if j <? 0 then Raise IndexError
  else match l !! Z.to_nat j with
       | Some x => Ok x
       | None => Raise IndexError
       end.

(** Slice bounds are clamped as by Python's [slice.indices]. *)
Definition clamp (n i : Z) : Z :=
  if i <? 0 then Z.max (n + i) 0 else Z.min i n.

(** [l[a:b]]; an omitted bound is [None]. *)
Definition py_slice {A : Type} (l : list A) (a b : option Z) : list A :=
  let n := py_len l in
  let lo := match a with Some a => clamp n a | None => 0 end in
  let hi := match b with Some b => clamp n b | None => n end in
  take (Z.to_nat (hi - lo)) (drop (Z.to_nat lo) l).

(** ** Numbers *)

Definition py_sum (l : list Q) : Q := fold_left Qplus l 0%Q.

Definition py_div (x y : Q) : result Q :=
  if Qeq_bool y 0 then Raise ZeroDivisionError else Ok (x / y)%Q.

Definition Qltb (x y : Q) : bool := negb (Qle_bool y x).

(** Arithmetic on a series entry: [None] is not a number. *)
Definition py_num (v : option Q) : result Q :=
  match v with
  | Some x => Ok x
  | None => Raise TypeError
  end.

(** ** JSON documents *)

Inductive pyval : Type :=
  | PStr (s : string)
  | PDict (d : gmap string pyval).

(** [v[k]] for a string key [k]. *)
Definition py_getitem (v : pyval) (k : string) : result pyval :=
  match v with
  | PDict d => match d !! k with
               | Some x => Ok x
               | None => Raise KeyError
               end
  | PStr _ => Raise TypeError
  end.

(** [v.keys()] *)
Definition py_keys (v : pyval) : result (list string) :=
  match v with
  | PDict d => Ok (map_to_list d).*1
  | PStr _ => Raise AttributeError
  end.

(** [sorted(keys, reverse=True)]: strings compare by code point. *)
Definition string_ge (a b : string) : Prop := String.leb b a = true.
#[global] Instance string_ge_dec a b : Decision (string_ge a b).
Proof. unfold string_ge. apply _. Defined.

Definition sorted_reverse (keys : list string) : list string :=
  merge_sort string_ge keys.

(** ** The indicator library *)

Definition calculate_sma (prices : list Q) (window : Z)
  : result (list (option Q)) :=
  if py_len prices <? window then Ok (py_repeat None (py_len prices))
  else
    py_for (py_range 0 (py_len prices)) (λ sma i,
      if i <? window - 1 then Ok (sma ++ [None])
      else
        v ← py_div (py_sum (py_slice prices (Some (i - window + 1)) (Some (i + 1))))
                   (inject_Z window);
        Ok (sma ++ [Some v])) [].

Definition ema_step (prices : list Q) (multiplier : Q)
    (ema : list (option Q)) (i : Z) : result (list (option Q)) :=
  p ← py_index prices i;
  prev ← py_index ema (-1) ≫= py_num;
  Ok (ema ++ [Some (p * multiplier + prev * (1 - multiplier))%Q]).

Definition calculate_ema (prices : list Q) (window : Z)
  : result (list (option Q)) :=
  if py_len prices <? window then Ok (py_repeat None (py_len prices))
  else
    let ema := py_repeat None (window - 1) in
    multiplier ← py_div 2 (inject_Z (window + 1));
    seed ← py_div (py_sum (py_slice prices None (Some window))) (inject_Z window);
    let ema := ema ++ [Some seed] in
    py_for (py_range window (py_len prices)) (ema_step prices multiplier) ema.

Definition gain_of (delta : Q) : Q := if Qltb 0 delta then delta else 0%Q.
Definition loss_of (delta : Q) : Q := if Qltb delta 0 then (- delta)%Q else 0%Q.

(** One iteration of the smoothing loop of [calculate_rsi]; the state is
    [(avg_gain, avg_loss, rsi)]. *)
Definition rsi_step (window : Z) (gains losses : list Q)
    (st : Q * Q * list (option Q)) (i : Z)
  : result (Q * Q * list (option Q)) :=
  let '(avg_gain, avg_loss, rsi) := st in
  g ← py_index gains i;
  avg_gain ← py_div (avg_gain * inject_Z (window - 1) + g) (inject_Z window);
  l ← py_index losses i;
  avg_loss ← py_div (avg_loss * inject_Z (window - 1) + l) (inject_Z window);
  if Qeq_bool avg_loss 0 then Ok (avg_gain, avg_loss, rsi ++ [Some 100%Q])
  else
    rs ← py_div avg_gain avg_loss;
    q ← py_div 100 (1 + rs);
    Ok (avg_gain, avg_loss, rsi ++ [Some (100 - q)%Q]).

(** The part of [calculate_rsi] before the loop. *)
Definition rsi_deltas (prices : list Q) : result (list Q) :=
  py_comp (λ i, a ← py_index prices i; b ← py_index prices (i - 1);
                Ok (a - b)%Q)
          (py_range 1 (py_len prices)).

Definition calculate_rsi (prices : list Q) (window : Z)
  : result (list (option Q)) :=
  if py_len prices <? window + 1 then Ok (py_repeat None (py_len prices))
  else
    deltas ← rsi_deltas prices;
    let gains := gain_of <$> deltas in
    let losses := loss_of <$> deltas in
    avg_gain ← py_div (py_sum (py_slice gains None (Some window))) (inject_Z window);
    avg_loss ← py_div (py_sum (py_slice losses None (Some window))) (inject_Z window);
    let rsi := py_repeat None window in
    st ← py_for (py_range window (py_len gains)) (rsi_step window gains losses)
                (avg_gain, avg_loss, rsi);
    Ok (None :: st.2).

Definition macd_line_step (ema_fast ema_slow : list (option Q))
    (macd_line : list (option Q)) (i : Z) : result (list (option Q)) :=
  f ← py_index ema_fast i;
  match f with
  | None => Ok (macd_line ++ [None])
  | Some f =>
      s ← py_index ema_slow i;
      match s with
      | None => Ok (macd_line ++ [None])
      | Some s => Ok (macd_line ++ [Some (f - s)%Q])
      end
  end.

Definition histogram_step (macd_line signal_line : list (option Q))
    (histogram : list (option Q)) (i : Z) : result (list (option Q)) :=
  m ← py_index macd_line i;
  match m with
  | None => Ok (histogram ++ [None])
  | Some m =>
      s ← py_index signal_line i;
      match s with
      | None => Ok (histogram ++ [None])
      | Some s => Ok (histogram ++ [Some (m - s)%Q])
      end
  end.

(** [[x for x in l if x is not None]] *)
Definition defined_values (l : list (option Q)) : list Q := omap id l.

Definition calculate_macd (prices : list Q) (fast slow signal : Z)
  : result (list (option Q) * list (option Q) * list (option Q)) :=
  ema_fast ← calculate_ema prices fast;
  ema_slow ← calculate_ema prices slow;
  macd_line ← py_for (py_range 0 (py_len prices))
                     (macd_line_step ema_fast ema_slow) [];
  let macd_values := defined_values macd_line in
  signal_line ←
    (if signal <=? py_len macd_values then
       let signal_line := py_repeat None (py_len macd_line - py_len macd_values) in
       signal_ema ← calculate_ema macd_values signal;
       Ok (signal_line ++ signal_ema)
     else Ok (py_repeat None (py_len macd_line)));
  histogram ← py_for (py_range 0 (py_len macd_line))
                     (histogram_step macd_line signal_line) [];
  Ok (macd_line, signal_line, histogram).

(** ** Output records of the orchestrator *)

Record indicator_bundle : Type := {
  sma_20 : list (option Q);
  sma_50 : list (option Q);
  ema_12 : list (option Q);
  ema_26 : list (option Q);
  rsi : list (option Q);
  bollinger_upper : list (option Q);
  bollinger_middle : list (option Q);
  bollinger_lower : list (option Q);
  macd_line : list (option Q);
  macd_signal : list (option Q);
  macd_histogram : list (option Q)
}.

Record stock_bundle : Type := {
  dates : list string;
  prices : list Q;
  volumes : list Z;
  highs : list Q;
  lows : list Q;
  opens : list Q;
  indicators : indicator_bundle;
  symbol : pyval;
  last_refreshed : pyval
}.

(** The six parallel series filled by the loop over the selected dates. *)
Record window : Type := {
  w_dates : list string;
  w_prices : list Q;
  w_volumes : list Z;
  w_highs : list Q;
  w_lows : list Q;
  w_opens : list Q
}.

Definition empty_window : window :=
  {| w_dates := []; w_prices := []; w_volumes := [];
     w_highs := []; w_lows := []; w_opens := [] |}.

Section Builtins.

(** [float(s)] and [int(s)] on a string: the parsed number, or [None] where
    Python raises [ValueError]. [np_sqrt] is numpy's square root. *)
Variable py_float_str : string → option Q.
Variable py_int_str : string → option Z.
Variable np_sqrt : Q → Q.

Definition py_float (v : pyval) : result Q :=
  match v with
  | PStr s => match py_float_str s with
              | Some x => Ok x
              | None => Raise ValueError
              end
  | PDict _ => Raise TypeError
  end.

Definition py_int (v : pyval) : result Z :=
  match v with
  | PStr s => match py_int_str s with
              | Some x => Ok x
              | None => Raise ValueError
              end
  | PDict _ => Raise TypeError
  end.

(** [np.mean] and [np.std] (population standard deviation, [ddof=0]) as
    numpy documents them: [std = sqrt(mean(abs(x - x.mean())**2))]. On the
    empty list numpy yields nan, which [Q] does not have; here the mean of
    the empty list is [0]. *)
Definition np_mean (l : list Q) : Q := (py_sum l / inject_Z (py_len l))%Q.

Definition np_std (l : list Q) : Q :=
  let m := np_mean l in
  np_sqrt (np_mean ((λ x, Qabs (x - m) * Qabs (x - m))%Q <$> l)).

Definition bollinger_step (prices : list Q) (window : Z) (num_std : Q)
    (sma : list (option Q))
    (st : list (option Q) * list (option Q)) (i : Z)
  : result (list (option Q) * list (option Q)) :=
  let '(upper_band, lower_band) := st in
  if i <? window - 1 then Ok (upper_band ++ [None], lower_band ++ [None])
  else
    let std_dev := np_std (py_slice prices (Some (i - window + 1)) (Some (i + 1))) in
    m ← py_index sma i ≫= py_num;
    let upper_band := upper_band ++ [Some (m + num_std * std_dev)%Q] in
    m ← py_index sma i ≫= py_num;
    let lower_band := lower_band ++ [Some (m - num_std * std_dev)%Q] in
    Ok (upper_band, lower_band).

Definition calculate_bollinger_bands (prices : list Q) (window : Z) (num_std : Q)
  : result (list (option Q) * list (option Q) * list (option Q)) :=
  if py_len prices <? window then
    Ok (py_repeat None (py_len prices), py_repeat None (py_len prices),
        py_repeat None (py_len prices))
  else
    sma ← calculate_sma prices window;
    st ← py_for (py_range 0 (py_len prices))
                (bollinger_step prices window num_std sma) ([], []);
    Ok (st.1, sma, st.2).

(** One iteration of the loop over [sorted_dates] in [process_stock_data]. *)
Definition window_step (time_series : pyval) (w : window) (date : string)
  : result window :=
  let dates := w_dates w ++ [date] in
  record ← py_getitem time_series date;
  close ← py_getitem record "4. close" ≫= py_float;
  let prices := w_prices w ++ [close] in
  record ← py_getitem time_series date;
  volume ← py_getitem record "5. volume" ≫= py_int;
  let volumes := w_volumes w ++ [volume] in
  record ← py_getitem time_series date;
  high ← py_getitem record "2. high" ≫= py_float;
  let highs := w_highs w ++ [high] in
  record ← py_getitem time_series date;
  low ← py_getitem record "3. low" ≫= py_float;
  let lows := w_lows w ++ [low] in
  record ← py_getitem time_series date;
  open ← py_getitem record "1. open" ≫= py_float;
  let opens := w_opens w ++ [open] in
  Ok {| w_dates := dates; w_prices := prices; w_volumes := volumes;
        w_highs := highs; w_lows := lows; w_opens := opens |}.

Fixpoint window_loop (time_series : pyval) (sorted_dates : list string)
    (w : window) : result window :=
  match sorted_dates with
  | [] => Ok w
  | date :: rest => w' ← window_step time_series w date;
                    window_loop time_series rest w'
  end.

(** [sorted(time_series.keys(), reverse=True)[:60]], then reversed. *)
Definition select_dates (time_series : pyval) : result (list string) :=
  keys ← py_keys time_series;
  let sorted_dates := py_slice (sorted_reverse keys) None (Some 60) in
  Ok (reverse sorted_dates).

(** The series window builder: lines 151 to 170 of [process_stock_data]. *)
Definition build_window (time_series : pyval) : result window :=
  sorted_dates ← select_dates time_series;
  window_loop time_series sorted_dates empty_window.

Definition process_stock_data (data : gmap string pyval)
  : result (option stock_bundle) :=
  if decide (is_Some (data !! "Time Series (Daily)")) then
    time_series ← py_getitem (PDict data) "Time Series (Daily)";
    w ← build_window time_series;
    let dates := w_dates w in
    let prices := w_prices w in
    sma_20 ← calculate_sma prices 20;
    sma_50 ← calculate_sma prices 50;
    ema_12 ← calculate_ema prices 12;
    ema_26 ← calculate_ema prices 26;
    rsi ← calculate_rsi prices 14;
    '(bb_upper, bb_middle, bb_lower) ← calculate_bollinger_bands prices 20 2;
    '(macd_line, macd_signal, macd_histogram) ← calculate_macd prices 12 26 9;
    let display_length := Z.min 30 (py_len dates) in
    let start_index := py_len dates - display_length in
    meta ← py_getitem (PDict data) "Meta Data";
    symbol ← py_getitem meta "2. Symbol";
    meta ← py_getitem (PDict data) "Meta Data";
    last_refreshed ← py_getitem meta "3. Last Refreshed";
    Ok (Some {|
      dates := py_slice dates (Some start_index) None;
      prices := py_slice prices (Some start_index) None;
      volumes := py_slice (w_volumes w) (Some start_index) None;
      highs := py_slice (w_highs w) (Some start_index) None;
      lows := py_slice (w_lows w) (Some start_index) None;
      opens := py_slice (w_opens w) (Some start_index) None;
      indicators := {|
        sma_20 := py_slice sma_20 (Some start_index) None;
        sma_50 := py_slice sma_50 (Some start_index) None;
        ema_12 := py_slice ema_12 (Some start_index) None;
        ema_26 := py_slice ema_26 (Some start_index) None;
        rsi := py_slice rsi (Some start_index) None;
        bollinger_upper := py_slice bb_upper (Some start_index) None;
        bollinger_middle := py_slice bb_middle (Some start_index) None;
        bollinger_lower := py_slice bb_lower (Some start_index) None;
        macd_line := py_slice macd_line (Some start_index) None;
        macd_signal := py_slice macd_signal (Some start_index) None;
        macd_histogram := py_slice macd_histogram (Some start_index) None
      |};
      symbol := symbol;
      last_refreshed := last_refreshed
    |})
  else Ok None.

End Builtins.

(** ** Closed forms of the loop bodies

    What one iteration of a loop appends, as a function of the index. *)

(** The state [(avg_gain, avg_loss, rsi)] of the loop of [calculate_rsi]
    when it has run the iterations before index [stop]. *)
Definition rsi_state (prices : list Q) (window : Z) (stop : Z)
  : result (Q * Q * list (option Q)) :=
  deltas ← rsi_deltas prices;
  let gains := gain_of <$> deltas in
  let losses := loss_of <$> deltas in
  avg_gain ← py_div (py_sum (py_slice gains None (Some window))) (inject_Z window);
  avg_loss ← py_div (py_sum (py_slice losses None (Some window))) (inject_Z window);
  py_for (py_range window stop) (rsi_step window gains losses)
         (avg_gain, avg_loss, py_repeat None window).

(** Entry [i] of [calculate_sma]. *)
Definition sma_value (prices : list Q) (window : Z) (i : Z) : option Q :=
  if i <? window - 1 then None
  else Some (Qdiv (py_sum (py_slice prices (Some (i - window + 1)) (Some (i + 1))))
                  (inject_Z window)).

(** Entry [i] of a band of [calculate_bollinger_bands]: [op] is [Qplus]
    for the upper band and [Qminus] for the lower band. *)
Definition band_value (np_sqrt : Q → Q) (op : Q → Q → Q) (prices : list Q)
    (window : Z) (num_std : Q) (i : Z) : option Q :=
  if i <? window - 1 then None
  else
    let trailing := py_slice prices (Some (i - window + 1)) (Some (i + 1)) in
    Some (op (Qdiv (py_sum trailing) (inject_Z window))
             (Qmult num_std (np_std np_sqrt trailing))).

(** Entry [i] of the loops of [calculate_macd]. *)
Definition diff_value (a b : list (option Q)) (i : Z) : option Q :=
  match default None (a !! Z.to_nat i), default None (b !! Z.to_nat i) with
  | Some x, Some y => Some (x - y)%Q
  | _, _ => None
  end.

(** [a - b] on series entries, undefined when either side is. *)
Definition sub_defined (a b : option Q) : option Q :=
  match a, b with
  | Some x, Some y => Some (x - y)%Q
  | _, _ => None
  end.

(** The number of [None] entries of a series. *)
Definition undefined_count (l : list (option Q)) : nat :=
  length (filter (λ x, x = None) l).

(** The exceptions raised by reading a field of a record and parsing it:
    the specification's [MalformedRecord] condition. *)
Definition MalformedRecord (e : exn) : Prop :=
  e = KeyError ∨ e = ValueError ∨ e = TypeError.

Definition float_fields : list string :=
  ["4. close"; "2. high"; "3. low"; "1. open"]%string.

Definition required_fields : list string := "5. volume"%string :: float_fields.

(** A record lacks a required field. *)
Definition missing_field (record : gmap string pyval) : Prop :=
  ∃ f, f ∈ required_fields ∧ record !! f = None.

(** A field of a record holds a string that does not parse as a number. *)
Definition non_numeric_field (py_float_str : string → option Q)
    (py_int_str : string → option Z) (record : gmap string pyval) : Prop :=
  (∃ f s, f ∈ float_fields ∧ record !! f = Some (PStr s) ∧ py_float_str s = None)
  ∨ (∃ s, record !! "5. volume"%string = Some (PStr s) ∧ py_int_str s = None).

(** The lengths of the seventeen series of a result bundle. *)
Definition series_lengths (b : stock_bundle) : list nat :=
  [ length (dates b); length (prices b); length (volumes b);
    length (highs b); length (lows b); length (opens b);
    length (sma_20 (indicators b)); length (sma_50 (indicators b));
    length (ema_12 (indicators b)); length (ema_26 (indicators b));
    length (rsi (indicators b));
    length (bollinger_upper (indicators b));
    length (bollinger_middle (indicators b));
    length (bollinger_lower (indicators b));
    length (macd_line (indicators b)); length (macd_signal (indicators b));
    length (macd_histogram (indicators b)) ].

(** Every series of a bundle without its first [k] entries. *)
Definition drop_bundle (k : nat) (b : stock_bundle) : stock_bundle :=
  {| dates := drop k (dates b);
     prices := drop k (prices b);
     volumes := drop k (volumes b);
     highs := drop k (highs b);
     lows := drop k (lows b);
     opens := drop k (opens b);
     indicators := {|
       sma_20 := drop k (sma_20 (indicators b));
       sma_50 := drop k (sma_50 (indicators b));
       ema_12 := drop k (ema_12 (indicators b));
       ema_26 := drop k (ema_26 (indicators b));
       rsi := drop k (rsi (indicators b));
       bollinger_upper := drop k (bollinger_upper (indicators b));
       bollinger_middle := drop k (bollinger_middle (indicators b));
       bollinger_lower := drop k (bollinger_lower (indicators b));
       macd_line := drop k (macd_line (indicators b));
       macd_signal := drop k (macd_signal (indicators b));
       macd_histogram := drop k (macd_histogram (indicators b))
     |};
     symbol := symbol b;
     last_refreshed := last_refreshed b |}.

(** The six series of a window have one length. *)
Definition window_aligned (w : window) : Prop :=
  length (w_prices w) = length (w_dates w)
  ∧ length (w_volumes w) = length (w_dates w)
  ∧ length (w_highs w) = length (w_dates w)
  ∧ length (w_lows w) = length (w_dates w)
  ∧ length (w_opens w) = length (w_dates w).

(** ** Concrete builtins

    Instances of the three parameters used to run the model on examples:
    plain decimal literals, as the quote service sends them, and the
    square root rounded down to the denominator of its argument. *)

Definition digit_of (c : ascii) : option Z :=
  let n := Z.of_nat (nat_of_ascii c) in
  if (48 <=? n) && (n <=? 57) then Some (n - 48) else None.

Fixpoint digits_value (s : string) (acc : Z) : option Z :=
  match s with
  | EmptyString => Some acc
  | String c s' => d ← digit_of c; digits_value s' (10 * acc + d)
  end.

Definition decimal_int (s : string) : option Z :=
  match s with
  | EmptyString => None
  | String "-"%char EmptyString => None
  | String "-"%char s' => Z.opp <$> digits_value s' 0
  | _ => digits_value s 0
  end.

(** Digits with at most one point: [(numerator, scale)] so far. *)
Fixpoint decimal_value (s : string) (num : Z) (scale : option positive)
  : option Q :=
  match s with
  | EmptyString => Some (num # default 1%positive scale)
  | String "."%char s' =>
      match scale with
      | None => decimal_value s' num (Some 1%positive)
      | Some _ => None
      end
  | String c s' =>
      d ← digit_of c;
      decimal_value s' (10 * num + d) ((λ p, 10 * p)%positive <$> scale)
  end.

Definition decimal_float (s : string) : option Q :=
  match s with
  | EmptyString => None
  | String "-"%char EmptyString => None
  | String "-"%char s' => Qopp <$> decimal_value s' 0 None
  | _ => decimal_value s 0 None
  end.

Definition floor_sqrt (x : Q) : Q :=
  (inject_Z (Z.sqrt (Qnum x * Zpos (Qden x))) / inject_Z (Zpos (Qden x)))%Q.

Definition rationals (l : list Z) : list Q := inject_Z <$> l.

(** ** Example documents *)

Definition example_record (close : string) : pyval :=
  PDict (list_to_map
    [("1. open", PStr "10.5"); ("2. high", PStr "11"); ("3. low", PStr "9.5");
     ("4. close", PStr close); ("5. volume", PStr "1000")]%string).

(** A record without its ["5. volume"] field. *)
Definition broken_record : gmap string pyval :=
  list_to_map
    [("1. open", PStr "10.5"); ("2. high", PStr "11"); ("3. low", PStr "9.5");
     ("4. close", PStr "10")]%string.

Definition example_meta : pyval :=
  PDict (list_to_map
    [("2. Symbol", PStr "IBM"); ("3. Last Refreshed", PStr "2024-01-03")]%string).

Definition example_table : gmap string pyval :=
  list_to_map
    [("2024-01-02", example_record "10"); ("2024-01-03", example_record "12");
     ("2023-12-29", example_record "11")]%string.

Definition example_data : gmap string pyval :=
  list_to_map
    [("Meta Data", example_meta);
     ("Time Series (Daily)", PDict example_table)]%string.

Definition example_window : window :=
  {| w_dates := ["2023-12-29"; "2024-01-02"; "2024-01-03"]%string;
     w_prices := [11 # 1; 10 # 1; 12 # 1]%Q;
     w_volumes := [1000; 1000; 1000];
     w_highs := [11 # 1; 11 # 1; 11 # 1]%Q;
     w_lows := [95 # 10; 95 # 10; 95 # 10]%Q;
     w_opens := [105 # 10; 105 # 10; 105 # 10]%Q |}.

(** The dated table is empty. *)
Definition empty_table_data : gmap string pyval :=
  list_to_map
    [("Meta Data", example_meta); ("Time Series (Daily)", PDict ∅)]%string.

Definition empty_bundle (sym refreshed : pyval) : stock_bundle :=
  {| dates := []; prices := []; volumes := []; highs := []; lows := [];
     opens := [];
     indicators := {|
       sma_20 := []; sma_50 := []; ema_12 := []; ema_26 := []; rsi := [];
       bollinger_upper := []; bollinger_middle := []; bollinger_lower := [];
       macd_line := []; macd_signal := []; macd_histogram := [] |};
     symbol := sym; last_refreshed := refreshed |}.

(** One of two dates has a record without a volume. *)
Definition broken_table : gmap string pyval :=
  list_to_map
    [("2024-01-02", example_record "10"); ("2024-01-03", PDict broken_record)]%string.

Definition broken_data : gmap string pyval :=
  list_to_map
    [("Meta Data", example_meta);
     ("Time Series (Daily)", PDict broken_table)]%string.

(** A time series without its metadata. *)
Definition table_only_data : gmap string pyval :=
  {[ "Time Series (Daily)"%string := PDict example_table ]}.

(** The service answers with a notice instead of a time series. *)
Definition notice_data : gmap string pyval :=
  {[ "Information"%string := PStr "rate limit reached" ]}.

(** ** The fetch layer and the route

    [requests.get(BASE_URL, params=params)] followed by [response.json()]
    is a parameter [http_get]: it yields the decoded JSON object, or the
    text [str(e)] of the exception that either call raised. What a function
    asks of the outside world is kept in a log of events, in order. *)

Inductive fetched : Type :=
  | Fetched (data : gmap string pyval)
  | FetchFailed (message : string).

Inductive event : Type :=
  | Request (url : string) (params : list (string * string))
  | Print (line : string).

Definition BASE_URL : string := "https://www.alphavantage.co/query".

Record company_info : Type := {
  name : pyval;
  sector : pyval;
  industry : pyval;
  market_cap : pyval;
  pe_ratio : pyval;
  dividend_yield : pyval
}.

(** [d.get(k, default)] *)
Definition py_get (d : gmap string pyval) (k : string) (default : pyval) : pyval :=
  match d !! k with
  | Some v => v
  | None => default
  end.

(** The body passed to [jsonify] and the status code of the response. *)
Inductive body : Type :=
  | ErrorBody (error : string)
  | StockBody (stock_data : stock_bundle) (company : option company_info).

Record response : Type := {
  status : Z;
  payload : body
}.

Section Routes.

Variable API_KEY : string.
Variable http_get : string → list (string * string) → fetched.
(** [s.upper()] *)
Variable py_upper : string → string.
Variable py_float_str : string → option Q.
Variable py_int_str : string → option Z.
Variable np_sqrt : Q → Q.

Definition get_stock_data (symbol function : string)
  : (option (gmap string pyval) * option string) * list event :=
  let params := [("function", function); ("symbol", symbol);
                 ("apikey", API_KEY); ("outputsize", "compact")]%string in
  match http_get BASE_URL params with
  | Fetched data =>
      if decide (is_Some (data !! "Error Message"%string)) then
        ((None, Some "Invalid stock symbol"%string), [Request BASE_URL params])
      else if decide (is_Some (data !! "Note"%string)) then
        ((None,
          Some "API call frequency limit reached. Please try again later."%string),
         [Request BASE_URL params])
      else ((Some data, None), [Request BASE_URL params])
  | FetchFailed message =>
      ((None, Some ("Error fetching data: " ++ message)%string),
       [Request BASE_URL params])
  end.

Definition get_company_info (symbol : string)
  : option company_info * list event :=
  let params := [("function", "OVERVIEW"); ("symbol", symbol);
                 ("apikey", API_KEY)]%string in
  match http_get BASE_URL params with
  | Fetched data =>
      if decide (is_Some (data !! "Symbol"%string)) then
        (Some {| name := py_get data "Name" (PStr "N/A");
                 sector := py_get data "Sector" (PStr "N/A");
                 industry := py_get data "Industry" (PStr "N/A");
                 market_cap := py_get data "MarketCapitalization" (PStr "N/A");
                 pe_ratio := py_get data "PERatio" (PStr "N/A");
                 dividend_yield := py_get data "DividendYield" (PStr "N/A") |},
         [Request BASE_URL params])
      else (None, [Request BASE_URL params])
  | FetchFailed message =>
      (None, [Request BASE_URL params;
              Print ("Error fetching company info: " ++ message)%string])
  end.

(** [process_stock_data(stock_data)] where [stock_data] may be [None]:
    the membership test on [None] raises [TypeError]. *)
Definition process_fetched (stock_data : option (gmap string pyval))
  : result (option stock_bundle) :=
  match stock_data with
  | Some data => process_stock_data py_float_str py_int_str np_sqrt data
  | None => Raise TypeError
  end.

(** The truth value of [error]: [None] and the empty string are false. *)
Definition truthy (error : option string) : bool :=
  match error with
  | Some s => negb (String.eqb s "")
  | None => false
  end.

(** The route [/api/stock/<symbol>]. An exception that leaves the function
    is [Raise]. *)
Definition get_stock (symbol : string) : result response * list event :=
  let '((stock_data, error), log) :=
    get_stock_data (py_upper symbol) "TIME_SERIES_DAILY" in
  if truthy error then
    (Ok {| status := 400; payload := ErrorBody (default ""%string error) |}, log)
  else
    match process_fetched stock_data with
    | Raise e => (Raise e, log)
    | Ok None =>
        (Ok {| status := 400;
               payload := ErrorBody "Failed to process stock data" |}, log)
    | Ok (Some processed_data) =>
        let '(company, log') := get_company_info (py_upper symbol) in
        (Ok {| status := 200; payload := StockBody processed_data company |},
         log ++ log')
    end.

End Routes.

(** The two requests of the route, as events. *)
Definition daily_request (API_KEY symbol : string) : event :=
  Request BASE_URL
    [("function", "TIME_SERIES_DAILY"); ("symbol", symbol);
     ("apikey", API_KEY); ("outputsize", "compact")]%string.

Definition overview_request (API_KEY symbol : string) : event :=
  Request BASE_URL
    [("function", "OVERVIEW"); ("symbol", symbol); ("apikey", API_KEY)]%string.

(** ** Well-formed records *)


(** ASCII upper case, to run the route on examples. *)
Fixpoint ascii_upper (s : string) : string :=
  match s with
  | EmptyString => EmptyString
  | String c s' =>
      let n := nat_of_ascii c in
      String (if (97 <=? n)%nat && (n <=? 122)%nat
              then ascii_of_nat (n - 32) else c)
             (ascii_upper s')
  end.

(** A quote service that knows one symbol. *)
Definition example_overview : gmap string pyval :=
  list_to_map
    [("Symbol", PStr "IBM"); ("Name", PStr "International Business Machines");
     ("Sector", PStr "TECHNOLOGY")]%string.

Definition example_service (url : string) (params : list (string * string))
  : fetched :=
  match params with
  | [(_, f); (_, sym); _; _] =>
      if String.eqb sym "IBM" then Fetched example_data
      else if String.eqb sym "NONE" then Fetched empty_table_data
      else if String.eqb sym "BAD" then Fetched broken_data
      else if String.eqb sym "BUSY" then Fetched notice_data
      else Fetched {[ "Error Message"%string := PStr "Invalid API call." ]}
  | [(_, f); (_, sym); _] =>
      if String.eqb sym "IBM" then Fetched example_overview
      else FetchFailed "connection reset"
  | _ => FetchFailed "bad request"
  end.

(** ** Defined entries *)

(** A series is undefined at the indices below [k] and defined from [k]
    on. *)
Definition defined_from (k : Z) (l : list (option Q)) : Prop :=
  ∀ i : nat, (i < length l)%nat →
    (l !! i = Some None ∧ Z.of_nat i < k)
    ∨ ((∃ v, l !! i = Some (Some v)) ∧ k ≤ Z.of_nat i).

(** * Properties *)

(** ** The result monad and the loop combinators *)

Lemma bind_Ok {A B : Type} (m : result A) (f : A → result B) (b : B) :
  m ≫= f = Ok b ↔ ∃ a, m = Ok a ∧ f a = Ok b.
Proof.
  destruct m as [a|e]; simpl; split.
  - intros H. by exists a.
  - by intros (a' & [= <-] & H).
  - done.
  - by intros (a' & ? & _).
Qed.

Lemma bind_Raise {A B : Type} (m : result A) (f : A → result B) (e : exn) :
  m = Raise e → m ≫= f = Raise e.
Proof. by intros ->. Qed.

Lemma py_for_app {S : Type} (it1 it2 : list Z) (body : S → Z → result S) (s : S) :
  py_for (it1 ++ it2) body s = py_for it1 body s ≫= py_for it2 body.
Proof.
  revert s. induction it1 as [|i it1 IH]; intros s; simpl; [done|].
  destruct (body s i) as [s'|e]; simpl; [apply IH | done].
Qed.

(** A loop whose body appends [g i] at iteration [i] builds [g <$> it]. *)
Lemma py_for_append {A : Type} (g : Z → A) (body : list A → Z → result (list A))
    (it : list Z) (acc : list A) :
  (∀ acc i, i ∈ it → body acc i = Ok (acc ++ [g i])) →
  py_for it body acc = Ok (acc ++ (g <$> it)).
Proof.
  revert acc. induction it as [|i it IH]; intros acc Hbody; simpl.
  - by rewrite app_nil_r.
  - rewrite Hbody by left. simpl. rewrite IH.
    + by rewrite <- app_assoc.
    + intros acc' j Hj. apply Hbody. by right.
Qed.

(** ** Python lists *)

Lemma py_len_nonneg {A : Type} (l : list A) : 0 ≤ py_len l.
Proof. unfold py_len. lia. Qed.

Lemma py_len_app {A : Type} (l k : list A) : py_len (l ++ k) = py_len l + py_len k.
Proof. unfold py_len. rewrite length_app. lia. Qed.

Lemma length_py_repeat {A : Type} (x : A) (k : Z) :
  length (py_repeat x k) = Z.to_nat k.
Proof. apply length_replicate. Qed.

Lemma length_py_range (a b : Z) : length (py_range a b) = Z.to_nat (b - a).
Proof. apply length_seqZ. Qed.

Lemma elem_of_py_range (a b i : Z) : i ∈ py_range a b ↔ a ≤ i < b.
Proof. unfold py_range. rewrite elem_of_seqZ. lia. Qed.

Lemma py_range_snoc (a b : Z) : a ≤ b → py_range a (b + 1) = py_range a b ++ [b].
Proof.
  intros H. unfold py_range.
  replace (b + 1 - a) with ((b - a) + 1) by lia.
  rewrite seqZ_app by lia. f_equal.
  rewrite seqZ_cons, seqZ_nil by lia. f_equal. lia.
Qed.

Lemma lookup_py_range (a b : Z) (k : nat) :
  Z.of_nat k < b - a → py_range a b !! k = Some (a + Z.of_nat k).
Proof. intros H. unfold py_range. by apply lookup_seqZ_lt. Qed.

Lemma py_index_lookup {A : Type} (l : list A) (i : Z) (x : A) :
  0 ≤ i → l !! Z.to_nat i = Some x → py_index l i = Ok x.
Proof.
  intros Hi Hx. unfold py_index.
  destruct (Z.ltb_spec i 0); [lia|].
  destruct (Z.ltb_spec i 0); [lia|]. by rewrite Hx.
Qed.

Lemma py_index_last {A : Type} (l : list A) (x : A) :
  py_index (l ++ [x]) (-1) = Ok x.
Proof.
  unfold py_index, py_len. rewrite length_app. simpl.
  destruct (Z.ltb_spec (Z.of_nat (length l + 1) + -1) 0); [lia|].
  replace (Z.to_nat (Z.of_nat (length l + 1) + -1)) with (length l + 0)%nat by lia.
  by rewrite lookup_app_r, Nat.add_0_r, Nat.sub_diag by lia.
Qed.

Lemma py_slice_prefix {A : Type} (l : list A) (b : Z) :
  0 ≤ b → py_slice l None (Some b) = take (Z.to_nat b) l.
Proof.
  intros Hb. unfold py_slice, clamp, py_len.
  destruct (Z.ltb_spec b 0); [lia|].
  rewrite Z.sub_0_r. change (Z.to_nat 0) with 0%nat. rewrite drop_0.
  destruct (Z.min_spec b (Z.of_nat (length l))) as [[? ->]|[? ->]]; [done|].
  rewrite !take_ge; [done|lia|lia].
Qed.

Lemma py_slice_suffix {A : Type} (l : list A) (a : Z) :
  0 ≤ a ≤ py_len l → py_slice l (Some a) None = drop (Z.to_nat a) l.
Proof.
  intros Ha. unfold py_slice, clamp. unfold py_len in *.
  destruct (Z.ltb_spec a 0); [lia|].
  rewrite Z.min_l by lia. apply take_ge. rewrite length_drop. lia.
Qed.

Lemma py_slice_window {A : Type} (l : list A) (a b : Z) :
  0 ≤ a → a ≤ b → b ≤ py_len l →
  py_slice l (Some a) (Some b) = take (Z.to_nat (b - a)) (drop (Z.to_nat a) l).
Proof.
  intros Ha Hab Hb. unfold py_slice, clamp. unfold py_len in *.
  destruct (Z.ltb_spec a 0); [lia|]. destruct (Z.ltb_spec b 0); [lia|].
  by rewrite !Z.min_l by lia.
Qed.


(** ** Numbers *)

Lemma Qeq_bool_inject_Z_nonzero (w : Z) : w ≠ 0 → Qeq_bool (inject_Z w) 0 = false.
Proof.
  intros Hw. apply not_true_is_false. intros H%Qeq_bool_iff.
  unfold Qeq, inject_Z in H. simpl in H. lia.
Qed.

Lemma py_div_int (x : Q) (w : Z) :
  w ≠ 0 → py_div x (inject_Z w) = Ok (x / inject_Z w)%Q.
Proof. intros Hw. unfold py_div. by rewrite Qeq_bool_inject_Z_nonzero. Qed.

Lemma py_div_nonzero (x y : Q) : ¬ (y == 0)%Q → py_div x y = Ok (x / y)%Q.
Proof.
  intros Hy. unfold py_div.
  destruct (Qeq_bool y 0) eqn:E; [|done]. by apply Qeq_bool_iff in E.
Qed.

(** ** Simple moving average *)

Lemma calculate_sma_short (prices : list Q) (window : Z) :
  py_len prices < window →
  calculate_sma prices window = Ok (py_repeat None (py_len prices)).
Proof.
  intros H. unfold calculate_sma. by destruct (Z.ltb_spec (py_len prices) window); [|lia].
Qed.

Lemma calculate_sma_full (prices : list Q) (window : Z) :
  0 < window → window ≤ py_len prices →
  calculate_sma prices window
  = Ok (sma_value prices window <$> py_range 0 (py_len prices)).
Proof.
  intros Hw Hn. unfold calculate_sma.
  destruct (Z.ltb_spec (py_len prices) window); [lia|].
  rewrite (py_for_append (sma_value prices window)); [done|].
  intros acc i _. unfold sma_value.
  destruct (i <? window - 1); [done|].
  by rewrite py_div_int by lia.
Qed.

Lemma calculate_sma_length (prices : list Q) (window : Z) :
  0 < window →
  ∃ sma, calculate_sma prices window = Ok sma ∧ length sma = length prices.
Proof.
  intros Hw. destruct (Z.lt_ge_cases (py_len prices) window).
  - eexists. split; [by apply calculate_sma_short|].
    rewrite length_py_repeat. unfold py_len. lia.
  - eexists. split; [by apply calculate_sma_full|].
    rewrite length_fmap, length_py_range. unfold py_len. lia.
Qed.

Lemma lookup_sma_full (prices : list Q) (window : Z) (i : nat) :
  (i < length prices)%nat →
  (sma_value prices window <$> py_range 0 (py_len prices)) !! i
  = Some (sma_value prices window (Z.of_nat i)).
Proof.
  intros Hi. rewrite list_lookup_fmap, lookup_py_range by (unfold py_len; lia).
  done.
Qed.

(** ** Exponential moving average *)

Lemma calculate_ema_short (prices : list Q) (window : Z) :
  py_len prices < window →
  calculate_ema prices window = Ok (py_repeat None (py_len prices)).
Proof.
  intros H. unfold calculate_ema. by destruct (Z.ltb_spec (py_len prices) window); [|lia].
Qed.

Lemma ema_step_seeded (prices : list Q) (multiplier : Q)
    (ema : list (option Q)) (e p : Q) (i : Z) :
  0 ≤ i → prices !! Z.to_nat i = Some p →
  ema_step prices multiplier (ema ++ [Some e]) i
  = Ok ((ema ++ [Some e]) ++ [Some (p * multiplier + e * (1 - multiplier))%Q]).
Proof.
  intros Hi Hp. unfold ema_step.
  by rewrite (py_index_lookup _ _ p), py_index_last.
Qed.

(** Once seeded, every iteration of the loop appends a defined value. *)
Lemma ema_loop (prices : list Q) (multiplier : Q) (it : list Z) :
  ∀ (ema : list (option Q)) (e : Q),
  (∀ i, i ∈ it → 0 ≤ i < py_len prices) →
  ∃ vs, py_for it (ema_step prices multiplier) (ema ++ [Some e])
        = Ok (ema ++ Some e :: (Some <$> vs))
        ∧ length vs = length it.
Proof.
  induction it as [|i it IH]; intros ema e Hit.
  - by exists [].
  - assert (0 ≤ i < py_len prices) as Hi by (apply Hit; left).
    destruct (lookup_lt_is_Some_2 prices (Z.to_nat i)) as [p Hp];
      [unfold py_len in Hi; lia|].
    cbn [py_for]. rewrite (ema_step_seeded _ _ _ _ p) by (done || lia).
    cbn [mbind result_bind].
    destruct (IH (ema ++ [Some e]) (p * multiplier + e * (1 - multiplier))%Q)
      as (vs & -> & Hlen); [intros j Hj; apply Hit; by right|].
    exists ((p * multiplier + e * (1 - multiplier))%Q :: vs).
    split; [|simpl; lia]. by rewrite <- app_assoc.
Qed.

Lemma calculate_ema_full (prices : list Q) (window : Z) :
  0 < window → window ≤ py_len prices →
  ∃ vs, calculate_ema prices window
        = Ok (py_repeat None (window - 1)
              ++ Some (py_sum (take (Z.to_nat window) prices) / inject_Z window)%Q
              :: (Some <$> vs))
        ∧ length vs = Z.to_nat (py_len prices - window).
Proof.
  intros Hw Hn. unfold calculate_ema.
  destruct (Z.ltb_spec (py_len prices) window); [lia|].
  rewrite !py_div_int by lia. simpl.
  rewrite py_slice_prefix by lia.
  edestruct (ema_loop prices) as (vs & -> & Hlen).
  - intros i Hi%elem_of_py_range. lia.
  - exists vs. split; [done|]. by rewrite Hlen, length_py_range.
Qed.

Lemma calculate_ema_length (prices : list Q) (window : Z) :
  0 < window →
  ∃ ema, calculate_ema prices window = Ok ema ∧ length ema = length prices.
Proof.
  intros Hw. destruct (Z.lt_ge_cases (py_len prices) window).
  - eexists. split; [by apply calculate_ema_short|].
    rewrite length_py_repeat. unfold py_len. lia.
  - destruct (calculate_ema_full prices window) as (vs & -> & Hlen); [done..|].
    eexists. split; [done|].
    rewrite length_app, length_py_repeat. simpl. rewrite length_fmap, Hlen.
    unfold py_len in *. lia.
Qed.

(** ** Relative strength index *)

Lemma py_comp_total {A : Type} (f : Z → result A) (it : list Z) :
  (∀ i, i ∈ it → ∃ x, f i = Ok x) →
  ∃ xs, py_comp f it = Ok xs ∧ length xs = length it.
Proof.
  induction it as [|i it IH]; intros Hf; simpl.
  - by exists [].
  - destruct (Hf i) as [x ->]; [left|].
    destruct IH as (xs & -> & Hlen); [intros j Hj; apply Hf; by right|].
    exists (x :: xs). simpl. by rewrite Hlen.
Qed.

Lemma rsi_deltas_total (prices : list Q) :
  ∃ deltas, rsi_deltas prices = Ok deltas
            ∧ length deltas = Z.to_nat (py_len prices - 1).
Proof.
  unfold rsi_deltas.
  match goal with |- context [py_comp ?f ?it] =>
    destruct (py_comp_total f it) as (xs & -> & Hlen) end.
  - intros i Hi%elem_of_py_range. unfold py_len in Hi.
    destruct (lookup_lt_is_Some_2 prices (Z.to_nat i)) as [a Ha]; [lia|].
    destruct (lookup_lt_is_Some_2 prices (Z.to_nat (i - 1))) as [b Hb]; [lia|].
    rewrite (py_index_lookup prices i a) by (done || lia).
    cbn [mbind result_bind].
    rewrite (py_index_lookup prices (i - 1) b) by (done || lia). by eexists.
  - exists xs. split; [done|]. by rewrite Hlen, length_py_range.
Qed.

Lemma Qltb_true (x y : Q) : Qltb x y = true → (x < y)%Q.
Proof.
  unfold Qltb. intros H%negb_true_iff. apply Qnot_le_lt. intros Hle.
  apply Qle_bool_iff in Hle. congruence.
Qed.

Lemma gain_of_nonneg (d : Q) : (0 <= gain_of d)%Q.
Proof.
  unfold gain_of. destruct (Qltb 0 d) eqn:E; [|lra].
  apply Qltb_true in E. lra.
Qed.

Lemma loss_of_nonneg (d : Q) : (0 <= loss_of d)%Q.
Proof.
  unfold loss_of. destruct (Qltb d 0) eqn:E; [|lra].
  apply Qltb_true in E. lra.
Qed.

Lemma fold_left_Qplus_nonneg (l : list Q) (acc : Q) :
  (0 <= acc)%Q → Forall (λ x, (0 <= x)%Q) l → (0 <= fold_left Qplus l acc)%Q.
Proof.
  revert acc. induction l as [|x l IH]; intros acc Hacc Hl; simpl; [done|].
  inversion Hl; subst. apply IH; [lra|done].
Qed.

Lemma py_sum_nonneg (l : list Q) :
  Forall (λ x, (0 <= x)%Q) l → (0 <= py_sum l)%Q.
Proof. apply fold_left_Qplus_nonneg. lra. Qed.

Lemma inject_Z_pos (w : Z) : 0 < w → (0 < inject_Z w)%Q.
Proof. intros H. change 0%Q with (inject_Z 0). by rewrite <- Zlt_Qlt. Qed.

Lemma inject_Z_nonneg (w : Z) : 0 ≤ w → (0 <= inject_Z w)%Q.
Proof. intros H. change 0%Q with (inject_Z 0). by rewrite <- Zle_Qle. Qed.

Lemma Qdiv_nonneg (x y : Q) : (0 <= x)%Q → (0 < y)%Q → (0 <= x / y)%Q.
Proof. intros Hx Hy. apply Qle_shift_div_l; [done|]. lra. Qed.

(** Wilder smoothing keeps an average non-negative. *)
Lemma wilder_nonneg (avg x : Q) (window : Z) :
  0 < window → (0 <= avg)%Q → (0 <= x)%Q →
  (0 <= (avg * inject_Z (window - 1) + x) / inject_Z window)%Q.
Proof.
  intros Hw Havg Hx. apply Qdiv_nonneg; [|by apply inject_Z_pos].
  assert (0 <= avg * inject_Z (window - 1))%Q
    by (apply Qmult_le_0_compat; [done|apply inject_Z_nonneg; lia]).
  lra.
Qed.

(** The quotient [100 - 100 / (1 + rs)] for a non-negative [rs]. *)
Lemma rsi_quotient_bounds (rs : Q) :
  (0 <= rs)%Q → (0 <= 100 - 100 / (1 + rs) ∧ 100 - 100 / (1 + rs) <= 100)%Q.
Proof.
  intros Hrs.
  assert (0 <= 100 / (1 + rs))%Q by (apply Qdiv_nonneg; lra).
  assert (100 / (1 + rs) <= 100)%Q by (apply Qle_shift_div_r; lra).
  split; lra.
Qed.

(** One iteration, from non-negative averages, on an index in range. *)
Lemma rsi_step_spec (window : Z) (gains losses : list Q)
    (avg_gain avg_loss : Q) (rsi : list (option Q)) (i : Z) (g l : Q) :
  0 < window → 0 ≤ i →
  gains !! Z.to_nat i = Some g → losses !! Z.to_nat i = Some l →
  (0 <= avg_gain)%Q → (0 <= avg_loss)%Q → (0 <= g)%Q → (0 <= l)%Q →
  ∃ avg_gain' avg_loss' v,
    rsi_step window gains losses (avg_gain, avg_loss, rsi) i
    = Ok (avg_gain', avg_loss', rsi ++ [Some v])
    ∧ (0 <= avg_gain')%Q ∧ (0 <= avg_loss')%Q
    ∧ (0 <= v)%Q ∧ (v <= 100)%Q
    ∧ ((avg_loss' == 0)%Q → v = 100%Q)
    ∧ (¬ (avg_loss' == 0)%Q → v = (100 - 100 / (1 + avg_gain' / avg_loss'))%Q).
Proof.
  intros Hw Hi Hg Hl Hag Hal Hg0 Hl0. unfold rsi_step.
  rewrite (py_index_lookup gains i g) by done. cbn [mbind result_bind].
  rewrite py_div_int by lia. cbn [mbind result_bind].
  rewrite (py_index_lookup losses i l) by done. cbn [mbind result_bind].
  rewrite py_div_int by lia. cbn [mbind result_bind].
  set (ag := ((avg_gain * inject_Z (window - 1) + g) / inject_Z window)%Q).
  set (al := ((avg_loss * inject_Z (window - 1) + l) / inject_Z window)%Q).
  assert (0 <= ag)%Q by (by apply wilder_nonneg).
  assert (0 <= al)%Q by (by apply wilder_nonneg).
  destruct (Qeq_bool al 0) eqn:E.
  - apply Qeq_bool_iff in E. exists ag, al, 100%Q.
    repeat split; try done; try lra; by intros [].
  - assert (¬ (al == 0)%Q) as Hne
      by (intros Heq%Qeq_bool_iff; congruence).
    assert (0 < al)%Q by (apply Qnot_le_lt; intros ?; apply Hne; lra).
    assert (0 <= ag / al)%Q by (by apply Qdiv_nonneg).
    rewrite (py_div_nonzero ag al) by done. cbn [mbind result_bind].
    rewrite py_div_nonzero by lra. cbn [mbind result_bind].
    destruct (rsi_quotient_bounds (ag / al)) as [? ?]; [done|].
    exists ag, al, (100 - 100 / (1 + ag / al))%Q.
    repeat split; try done.
Qed.



(** The loop from non-negative averages: it returns, appends one defined
    entry in [[0, 100]] per iteration and keeps the averages non-negative. *)
Lemma rsi_loop (window : Z) (gains losses : list Q) (it : list Z) :
  0 < window → length gains = length losses →
  Forall (λ x, (0 <= x)%Q) gains → Forall (λ x, (0 <= x)%Q) losses →
  (∀ i, i ∈ it → 0 ≤ i < py_len gains) →
  ∀ avg_gain avg_loss rsi,
  (0 <= avg_gain)%Q → (0 <= avg_loss)%Q →
  ∃ avg_gain' avg_loss' vs,
    py_for it (rsi_step window gains losses) (avg_gain, avg_loss, rsi)
    = Ok (avg_gain', avg_loss', rsi ++ (Some <$> vs))
    ∧ length vs = length it
    ∧ (0 <= avg_gain')%Q ∧ (0 <= avg_loss')%Q
    ∧ Forall (λ v, (0 <= v)%Q ∧ (v <= 100)%Q) vs.
Proof.
  intros Hw Hlen Hgains Hlosses. induction it as [|i it IH];
    intros Hit avg_gain avg_loss rsi Hag Hal.
  - exists avg_gain, avg_loss, []. simpl. by rewrite app_nil_r.
  - assert (0 ≤ i < py_len gains) as Hi by (apply Hit; left).
    unfold py_len in Hi.
    destruct (lookup_lt_is_Some_2 gains (Z.to_nat i)) as [g Hg]; [lia|].
    destruct (lookup_lt_is_Some_2 losses (Z.to_nat i)) as [l Hl]; [lia|].
    destruct (rsi_step_spec window gains losses avg_gain avg_loss rsi i g l)
      as (ag & al & v & Hstep & ? & ? & ? & ? & _); try done; try lia.
    { by eapply (Forall_lookup_1 _ gains). }
    { by eapply (Forall_lookup_1 _ losses). }
    destruct (IH (λ j Hj, Hit j (list_elem_of_further _ _ _ Hj)) ag al
                 (rsi ++ [Some v])) as (ag' & al' & vs & Hloop & Hvs & ? & ? & ?);
      [done..|].
    exists ag', al', (v :: vs). cbn [py_for]. rewrite Hstep.
    cbn [mbind result_bind]. rewrite Hloop, <- app_assoc.
    repeat split; try done; [simpl; lia|]. by constructor.
Qed.

Lemma calculate_rsi_short (prices : list Q) (window : Z) :
  py_len prices < window + 1 →
  calculate_rsi prices window = Ok (py_repeat None (py_len prices)).
Proof.
  intros H. unfold calculate_rsi.
  by destruct (Z.ltb_spec (py_len prices) (window + 1)); [|lia].
Qed.

Lemma seed_average_nonneg (l : list Q) (window : Z) :
  0 < window → Forall (λ x, (0 <= x)%Q) l →
  (0 <= py_sum (py_slice l None (Some window)) / inject_Z window)%Q.
Proof.
  intros Hw Hl. apply Qdiv_nonneg; [|by apply inject_Z_pos].
  rewrite py_slice_prefix by lia. by apply py_sum_nonneg, Forall_take.
Qed.

(** The loop state after the iterations before [stop]. *)
Lemma rsi_state_total (prices : list Q) (window stop : Z) :
  0 < window → window ≤ stop → stop ≤ py_len prices - 1 →
  ∃ avg_gain avg_loss vs,
    rsi_state prices window stop
    = Ok (avg_gain, avg_loss, py_repeat None window ++ (Some <$> vs))
    ∧ length vs = Z.to_nat (stop - window)
    ∧ (0 <= avg_gain)%Q ∧ (0 <= avg_loss)%Q
    ∧ Forall (λ v, (0 <= v)%Q ∧ (v <= 100)%Q) vs.
Proof.
  intros Hw Hstop Hn. unfold rsi_state.
  destruct (rsi_deltas_total prices) as (deltas & -> & Hlen).
  cbn [mbind result_bind]. rewrite !py_div_int by lia. cbn [mbind result_bind].
  destruct (rsi_loop window (gain_of <$> deltas) (loss_of <$> deltas)
              (py_range window stop)) with
    (avg_gain := (py_sum (py_slice (gain_of <$> deltas) None (Some window))
                  / inject_Z window)%Q)
    (avg_loss := (py_sum (py_slice (loss_of <$> deltas) None (Some window))
                  / inject_Z window)%Q)
    (rsi := py_repeat (@None Q) window)
    as (ag & al & vs & Hloop & Hvs & ? & ? & ?).
  - done.
  - by rewrite !length_fmap.
  - apply Forall_fmap, Forall_true, gain_of_nonneg.
  - apply Forall_fmap, Forall_true, loss_of_nonneg.
  - intros i Hi%elem_of_py_range. unfold py_len in *. rewrite length_fmap. lia.
  - apply seed_average_nonneg; [done|].
    apply Forall_fmap, Forall_true, gain_of_nonneg.
  - apply seed_average_nonneg; [done|].
    apply Forall_fmap, Forall_true, loss_of_nonneg.
  - exists ag, al, vs. rewrite Hloop. repeat split; try done.
    by rewrite Hvs, length_py_range.
Qed.

(** [calculate_rsi] returns the final loop state behind one more [None]. *)
Lemma calculate_rsi_state (prices : list Q) (window : Z) :
  0 ≤ window → window + 1 ≤ py_len prices →
  calculate_rsi prices window
  = st ← rsi_state prices window (py_len prices - 1); Ok (None :: st.2).
Proof.
  intros Hw Hn. unfold calculate_rsi, rsi_state.
  destruct (Z.ltb_spec (py_len prices) (window + 1)); [lia|].
  destruct (rsi_deltas_total prices) as (deltas & -> & Hlen).
  cbn [mbind result_bind].
  replace (py_len (gain_of <$> deltas)) with (py_len prices - 1)
    by (unfold py_len in *; rewrite length_fmap; lia).
  destruct (py_div (py_sum (py_slice (gain_of <$> deltas) None (Some window))) _);
    cbn [mbind result_bind]; [|done].
  by destruct (py_div (py_sum (py_slice (loss_of <$> deltas) None (Some window))) _).
Qed.

Lemma calculate_rsi_full (prices : list Q) (window : Z) :
  0 < window → window + 1 ≤ py_len prices →
  ∃ vs, calculate_rsi prices window
        = Ok (py_repeat None (window + 1) ++ (Some <$> vs))
        ∧ length vs = Z.to_nat (py_len prices - (window + 1))
        ∧ Forall (λ v, (0 <= v)%Q ∧ (v <= 100)%Q) vs.
Proof.
  intros Hw Hn. rewrite calculate_rsi_state by lia.
  destruct (rsi_state_total prices window (py_len prices - 1))
    as (ag & al & vs & -> & Hlen & _ & _ & Hvs); [lia..|].
  exists vs. cbn [mbind result_bind snd]. split; [|split; [|done]].
  - f_equal. unfold py_repeat.
    replace (Z.to_nat (window + 1)) with (S (Z.to_nat window)) by lia. done.
  - rewrite Hlen. lia.
Qed.

Lemma calculate_rsi_length (prices : list Q) (window : Z) :
  0 < window →
  ∃ rsi, calculate_rsi prices window = Ok rsi ∧ length rsi = length prices.
Proof.
  intros Hw. destruct (Z.lt_ge_cases (py_len prices) (window + 1)).
  - eexists. split; [by apply calculate_rsi_short|].
    rewrite length_py_repeat. unfold py_len. lia.
  - destruct (calculate_rsi_full prices window) as (vs & -> & Hlen & _); [done..|].
    eexists. split; [done|].
    rewrite length_app, length_py_repeat, length_fmap, Hlen.
    unfold py_len in *. lia.
Qed.

(** ** Bollinger bands *)

Section Bollinger.

Variable np_sqrt : Q → Q.

Lemma calculate_bollinger_bands_short (prices : list Q) (window : Z) (num_std : Q) :
  py_len prices < window →
  calculate_bollinger_bands np_sqrt prices window num_std
  = Ok (py_repeat None (py_len prices), py_repeat None (py_len prices),
        py_repeat None (py_len prices)).
Proof.
  intros H. unfold calculate_bollinger_bands.
  by destruct (Z.ltb_spec (py_len prices) window); [|lia].
Qed.

Lemma bollinger_step_eq (prices : list Q) (window : Z) (num_std : Q)
    (upper lower : list (option Q)) (i : Z) :
  0 < window → 0 ≤ i < py_len prices →
  bollinger_step np_sqrt prices window num_std
    (sma_value prices window <$> py_range 0 (py_len prices)) (upper, lower) i
  = Ok (upper ++ [band_value np_sqrt Qplus prices window num_std i],
        lower ++ [band_value np_sqrt Qminus prices window num_std i]).
Proof.
  intros Hw Hi. unfold bollinger_step, band_value.
  destruct (i <? window - 1) eqn:E; [done|].
  rewrite (py_index_lookup _ i (sma_value prices window i)); [|lia|].
  - unfold sma_value. rewrite E. done.
  - rewrite lookup_sma_full by (unfold py_len in Hi; lia).
    by rewrite Z2Nat.id by lia.
Qed.

Lemma bollinger_loop (prices : list Q) (window : Z) (num_std : Q) (it : list Z) :
  0 < window → (∀ i, i ∈ it → 0 ≤ i < py_len prices) →
  ∀ upper lower,
  py_for it (bollinger_step np_sqrt prices window num_std
               (sma_value prices window <$> py_range 0 (py_len prices)))
         (upper, lower)
  = Ok (upper ++ (band_value np_sqrt Qplus prices window num_std <$> it),
        lower ++ (band_value np_sqrt Qminus prices window num_std <$> it)).
Proof.
  intros Hw. induction it as [|i it IH]; intros Hit upper lower.
  - simpl. by rewrite !app_nil_r.
  - cbn [py_for]. rewrite bollinger_step_eq by (done || apply Hit; left).
    cbn [mbind result_bind]. rewrite IH by (intros j Hj; apply Hit; by right).
    by rewrite <- !app_assoc.
Qed.

Lemma calculate_bollinger_bands_full (prices : list Q) (window : Z) (num_std : Q) :
  0 < window → window ≤ py_len prices →
  calculate_bollinger_bands np_sqrt prices window num_std
  = Ok (band_value np_sqrt Qplus prices window num_std <$> py_range 0 (py_len prices),
        sma_value prices window <$> py_range 0 (py_len prices),
        band_value np_sqrt Qminus prices window num_std <$> py_range 0 (py_len prices)).
Proof.
  intros Hw Hn. unfold calculate_bollinger_bands.
  destruct (Z.ltb_spec (py_len prices) window); [lia|].
  rewrite calculate_sma_full by done. cbn [mbind result_bind].
  rewrite bollinger_loop; [done..|].
  intros i Hi%elem_of_py_range. lia.
Qed.

Lemma calculate_bollinger_bands_length (prices : list Q) (window : Z) (num_std : Q) :
  0 < window →
  ∃ upper middle lower,
    calculate_bollinger_bands np_sqrt prices window num_std
    = Ok (upper, middle, lower)
    ∧ length upper = length prices ∧ length middle = length prices
    ∧ length lower = length prices.
Proof.
  intros Hw. destruct (Z.lt_ge_cases (py_len prices) window).
  - do 3 eexists. split; [by apply calculate_bollinger_bands_short|].
    rewrite length_py_repeat. unfold py_len. lia.
  - do 3 eexists. split; [by apply calculate_bollinger_bands_full|].
    rewrite !length_fmap, length_py_range. unfold py_len. lia.
Qed.

End Bollinger.

(** ** MACD *)

Lemma histogram_step_eq (a b acc : list (option Q)) (i : Z) :
  0 ≤ i → (Z.to_nat i < length a)%nat → (Z.to_nat i < length b)%nat →
  histogram_step a b acc i = Ok (acc ++ [diff_value a b i]).
Proof.
  intros Hi Ha Hb. unfold histogram_step, diff_value.
  destruct (lookup_lt_is_Some_2 a (Z.to_nat i)) as [x Hx]; [lia|].
  destruct (lookup_lt_is_Some_2 b (Z.to_nat i)) as [y Hy]; [lia|].
  rewrite (py_index_lookup a i x), Hx by done. cbn [mbind result_bind default].
  destruct x as [x|]; [|done].
  rewrite (py_index_lookup b i y), Hy by done. cbn [mbind result_bind default].
  by destruct y.
Qed.

Lemma macd_line_step_histogram_step : macd_line_step = histogram_step.
Proof. reflexivity. Qed.

Lemma diff_value_zip_with (a b : list (option Q)) :
  length a = length b →
  diff_value a b <$> py_range 0 (py_len a) = zip_with sub_defined a b.
Proof.
  intros Hlen. apply list_eq. intros k.
  rewrite list_lookup_fmap, lookup_zip_with.
  destruct (decide (k < length a)%nat) as [Hk|Hk].
  - rewrite lookup_py_range by (unfold py_len; lia). simpl.
    unfold diff_value. rewrite Z.add_0_l, Nat2Z.id.
    destruct (lookup_lt_is_Some_2 a k) as [x ->]; [done|].
    destruct (lookup_lt_is_Some_2 b k) as [y ->]; [lia|].
    simpl. by destruct x, y.
  - unfold py_range. rewrite lookup_seqZ_ge by (unfold py_len; lia).
    by rewrite (lookup_ge_None_2 a) by lia.
Qed.

(** Both loops of [calculate_macd] compute a pointwise difference. *)
Lemma diff_loop (a b : list (option Q)) :
  length a = length b →
  py_for (py_range 0 (py_len a)) (histogram_step a b) []
  = Ok (zip_with sub_defined a b).
Proof.
  intros Hlen. rewrite (py_for_append (diff_value a b)).
  - simpl. by rewrite diff_value_zip_with.
  - intros acc i Hi%elem_of_py_range. unfold py_len in Hi.
    apply histogram_step_eq; lia.
Qed.

Lemma defined_undefined_length (l : list (option Q)) :
  (length (defined_values l) + undefined_count l = length l)%nat.
Proof.
  unfold defined_values, undefined_count.
  induction l as [|[x|] l IH]; [done| |].
  - rewrite filter_cons_False by done. simpl. f_equal. exact IH.
  - rewrite filter_cons_True by done. simpl. rewrite Nat.add_succ_r.
    f_equal. exact IH.
Qed.

Lemma defined_values_replicate (n : nat) : defined_values (replicate n None) = [].
Proof. unfold defined_values. induction n; simpl; done. Qed.

Lemma undefined_count_replicate (n : nat) : undefined_count (replicate n None) = n.
Proof.
  pose proof (defined_undefined_length (replicate n None)) as H.
  rewrite defined_values_replicate, length_replicate in H. simpl in H. done.
Qed.

Lemma zip_with_sub_defined_None_l (n : nat) (b : list (option Q)) :
  length b = n → zip_with sub_defined (replicate n None) b = replicate n None.
Proof.
  revert b. induction n as [|n IH]; intros [|y b] Hlen; simpl in *; try done.
  f_equal. apply IH. lia.
Qed.

Lemma zip_with_sub_defined_None_r (n : nat) (a : list (option Q)) :
  length a = n → zip_with sub_defined a (replicate n None) = replicate n None.
Proof.
  revert a. induction n as [|n IH]; intros [|x a] Hlen; simpl in *; try done.
  f_equal; [by destruct x|]. apply IH. lia.
Qed.

(** The three series of [calculate_macd], for positive parameters. *)
Lemma calculate_macd_spec (prices : list Q) (fast slow signal : Z) :
  0 < fast → 0 < slow → 0 < signal →
  ∃ ema_fast ema_slow signal_ema,
    calculate_ema prices fast = Ok ema_fast
    ∧ length ema_fast = length prices
    ∧ calculate_ema prices slow = Ok ema_slow
    ∧ length ema_slow = length prices
    ∧ calculate_ema (defined_values (zip_with sub_defined ema_fast ema_slow)) signal
      = Ok signal_ema
    ∧ calculate_macd prices fast slow signal
      = Ok (zip_with sub_defined ema_fast ema_slow,
            replicate (undefined_count (zip_with sub_defined ema_fast ema_slow)) None
            ++ signal_ema,
            zip_with sub_defined (zip_with sub_defined ema_fast ema_slow)
              (replicate (undefined_count (zip_with sub_defined ema_fast ema_slow)) None
               ++ signal_ema)).
Proof.
  intros Hf Hs Hsig.
  destruct (calculate_ema_length prices fast) as (ef & Hef & Hlf); [done|].
  destruct (calculate_ema_length prices slow) as (es & Hes & Hls); [done|].
  set (macd := zip_with sub_defined ef es).
  destruct (calculate_ema_length (defined_values macd) signal)
    as (se & Hse & Hlse); [done|].
  assert (length macd = length prices) as Hlm
    by (unfold macd; rewrite length_zip_with; lia).
  pose proof (defined_undefined_length macd) as Hdu.
  exists ef, es, se. repeat split; try done.
  unfold calculate_macd. rewrite Hef, Hes. cbn [mbind result_bind].
  rewrite macd_line_step_histogram_step.
  replace (py_len prices) with (py_len ef) by (unfold py_len; lia).
  rewrite diff_loop by lia. cbn [mbind result_bind]. fold macd.
  assert (py_repeat None (py_len macd - py_len (defined_values macd))
          = replicate (undefined_count macd) (@None Q)) as Hpad
    by (unfold py_repeat, py_len; f_equal; lia).
  assert ((if signal <=? py_len (defined_values macd)
           then signal_ema ← calculate_ema (defined_values macd) signal;
                Ok (py_repeat None (py_len macd - py_len (defined_values macd))
                    ++ signal_ema)
           else Ok (py_repeat None (py_len macd)))
          = Ok (replicate (undefined_count macd) None ++ se)) as ->.
  { destruct (Z.leb_spec signal (py_len (defined_values macd))).
    - rewrite Hse. cbn [mbind result_bind]. by rewrite Hpad.
    - rewrite calculate_ema_short in Hse by done. injection Hse as <-.
      unfold py_repeat. rewrite <- replicate_add. do 2 f_equal.
      unfold py_len. lia. }
  cbn [mbind result_bind]. rewrite diff_loop; [done|].
  rewrite length_app, length_replicate. lia.
Qed.

Lemma zip_with_sub_defined_Some (xs ys : list Q) :
  zip_with sub_defined (Some <$> xs) (Some <$> ys)
  = Some <$> zip_with Qminus xs ys.
Proof.
  revert ys. induction xs as [|x xs IH]; intros [|y ys]; simpl; try done.
  by rewrite IH.
Qed.

Lemma defined_values_padded (k : nat) (zs : list Q) :
  defined_values (replicate k None ++ (Some <$> zs)) = zs.
Proof.
  unfold defined_values. induction k as [|k IH]; [|exact IH].
  induction zs as [|z zs IHz]; [done|].
  change (z :: omap id (Some <$> zs) = z :: zs). by f_equal.
Qed.

(** The difference of two series that are undefined on a prefix and
    defined after it is undefined on the longer of the two prefixes. *)
Lemma zip_with_sub_defined_padded (p q : nat) (xs ys : list Q) :
  (p + length xs = q + length ys)%nat →
  ∃ zs, zip_with sub_defined (replicate p None ++ (Some <$> xs))
                             (replicate q None ++ (Some <$> ys))
        = replicate (p `max` q) None ++ (Some <$> zs)
        ∧ length zs = (p + length xs - p `max` q)%nat.
Proof.
  revert q xs ys. induction p as [|p IHp]; intros q.
  - induction q as [|q IHq]; intros xs ys Hlen.
    + exists (zip_with Qminus xs ys). cbn [replicate app Nat.max] in *.
      rewrite zip_with_sub_defined_Some, length_zip_with.
      cbn [Nat.add] in *. split; [done|lia].
    + destruct xs as [|x xs]; [cbn [length] in Hlen; lia|].
      destruct (IHq xs ys) as (zs & Hzs & Hl); [cbn [length] in *; lia|].
      exists zs. rewrite fmap_cons.
      cbn [replicate app zip_with sub_defined Nat.max length] in *.
      rewrite Hzs. split; [done|lia].
  - intros xs ys Hlen. destruct q as [|q].
    + destruct ys as [|y ys]; [cbn [length] in Hlen; lia|].
      destruct (IHp 0%nat xs ys) as (zs & Hzs & Hl); [cbn [length] in *; lia|].
      exists zs. rewrite fmap_cons.
      cbn [replicate app zip_with sub_defined length] in *.
      rewrite Hzs, Nat.max_0_r in *. split; [done|lia].
    + destruct (IHp q xs ys) as (zs & Hzs & Hl); [lia|].
      exists zs. cbn [replicate app zip_with sub_defined] in *.
      rewrite Hzs. split; [done|lia].
Qed.

Lemma calculate_ema_padded (prices : list Q) (window : Z) :
  0 < window → window ≤ py_len prices →
  ∃ xs, calculate_ema prices window
        = Ok (replicate (Z.to_nat (window - 1)) None ++ (Some <$> xs))
        ∧ length xs = Z.to_nat (py_len prices - window + 1).
Proof.
  intros Hw Hn.
  destruct (calculate_ema_full prices window) as (vs & -> & Hlen); [done..|].
  eexists (_ :: vs). split; [done|]. simpl. rewrite Hlen. lia.
Qed.

(** The MACD line has [n - max fast slow + 1] defined values. *)
Lemma macd_defined_count (prices : list Q) (fast slow : Z)
    (ema_fast ema_slow : list (option Q)) :
  0 < fast → 0 < slow → Z.max fast slow ≤ py_len prices →
  calculate_ema prices fast = Ok ema_fast →
  calculate_ema prices slow = Ok ema_slow →
  length (defined_values (zip_with sub_defined ema_fast ema_slow))
  = Z.to_nat (py_len prices - Z.max fast slow + 1).
Proof.
  intros Hf Hs Hn Hef Hes.
  destruct (calculate_ema_padded prices fast) as (xs & Hef' & Lx); [lia..|].
  destruct (calculate_ema_padded prices slow) as (ys & Hes' & Ly); [lia..|].
  rewrite Hef in Hef'. injection Hef' as ->.
  rewrite Hes in Hes'. injection Hes' as ->.
  destruct (zip_with_sub_defined_padded (Z.to_nat (fast - 1))
              (Z.to_nat (slow - 1)) xs ys) as (zs & -> & Lz); [lia|].
  rewrite defined_values_padded, Lz, Lx. lia.
Qed.

(** ** The series window builder *)

Section Orchestrator.

Variable py_float_str : string → option Q.
Variable py_int_str : string → option Z.
Variable np_sqrt : Q → Q.

Lemma py_getitem_Raise (v : pyval) (k : string) (e : exn) :
  py_getitem v k = Raise e → MalformedRecord e.
Proof.
  unfold py_getitem, MalformedRecord.
  destruct v as [s|d]; [naive_solver|]. destruct (d !! k); naive_solver.
Qed.

Lemma py_float_Raise (v : pyval) (e : exn) :
  py_float py_float_str v = Raise e → MalformedRecord e.
Proof.
  unfold py_float, MalformedRecord.
  destruct v as [s|d]; [|naive_solver]. destruct (py_float_str s); naive_solver.
Qed.

Lemma py_int_Raise (v : pyval) (e : exn) :
  py_int py_int_str v = Raise e → MalformedRecord e.
Proof.
  unfold py_int, MalformedRecord.
  destruct v as [s|d]; [|naive_solver]. destruct (py_int_str s); naive_solver.
Qed.

Lemma field_float_Raise (v : pyval) (k : string) (e : exn) :
  py_getitem v k ≫= py_float py_float_str = Raise e → MalformedRecord e.
Proof.
  destruct (py_getitem v k) eqn:E; simpl.
  - apply py_float_Raise.
  - intros [= <-]. by eapply py_getitem_Raise.
Qed.

Lemma field_int_Raise (v : pyval) (k : string) (e : exn) :
  py_getitem v k ≫= py_int py_int_str = Raise e → MalformedRecord e.
Proof.
  destruct (py_getitem v k) eqn:E; simpl.
  - apply py_int_Raise.
  - intros [= <-]. by eapply py_getitem_Raise.
Qed.

(** A float field that reads: present, a string, and it parses. *)
Lemma field_float_Ok (record : gmap string pyval) (k : string) (x : Q) :
  py_getitem (PDict record) k ≫= py_float py_float_str = Ok x →
  ∃ s, record !! k = Some (PStr s) ∧ py_float_str s = Some x.
Proof.
  simpl. destruct (record !! k) as [[s|d]|]; simpl; try done.
  destruct (py_float_str s) eqn:E; [|done]. intros [= <-]. by exists s.
Qed.

Lemma field_int_Ok (record : gmap string pyval) (k : string) (x : Z) :
  py_getitem (PDict record) k ≫= py_int py_int_str = Ok x →
  ∃ s, record !! k = Some (PStr s) ∧ py_int_str s = Some x.
Proof.
  simpl. destruct (record !! k) as [[s|d]|]; simpl; try done.
  destruct (py_int_str s) eqn:E; [|done]. intros [= <-]. by exists s.
Qed.

(** An iteration raises nothing but the record errors. *)
Lemma window_step_Raise (time_series : pyval) (w : window) (date : string) (e : exn) :
  window_step py_float_str py_int_str time_series w date = Raise e →
  MalformedRecord e.
Proof.
  unfold window_step.
  destruct (py_getitem time_series date) as [record|e'] eqn:Hrec;
    cbn [mbind result_bind]; [|intros [= <-]; by eapply py_getitem_Raise].
  destruct (py_getitem record "4. close" ≫= py_float py_float_str) eqn:E1;
    cbn [mbind result_bind]; [|intros [= <-]; by eapply field_float_Raise].
  destruct (py_getitem record "5. volume" ≫= py_int py_int_str) eqn:E2;
    cbn [mbind result_bind]; [|intros [= <-]; by eapply field_int_Raise].
  destruct (py_getitem record "2. high" ≫= py_float py_float_str) eqn:E3;
    cbn [mbind result_bind]; [|intros [= <-]; by eapply field_float_Raise].
  destruct (py_getitem record "3. low" ≫= py_float py_float_str) eqn:E4;
    cbn [mbind result_bind]; [|intros [= <-]; by eapply field_float_Raise].
  destruct (py_getitem record "1. open" ≫= py_float py_float_str) eqn:E5;
    cbn [mbind result_bind]; [done|intros [= <-]; by eapply field_float_Raise].
Qed.

(** An iteration that returns has read all five fields of the record of
    its date and appended one entry to each of the six series. *)
Lemma window_step_Ok (time_series : pyval) (w w' : window) (date : string) :
  window_step py_float_str py_int_str time_series w date = Ok w' →
  ∃ record close volume high low open,
    py_getitem time_series date = Ok record
    ∧ py_getitem record "4. close" ≫= py_float py_float_str = Ok close
    ∧ py_getitem record "5. volume" ≫= py_int py_int_str = Ok volume
    ∧ py_getitem record "2. high" ≫= py_float py_float_str = Ok high
    ∧ py_getitem record "3. low" ≫= py_float py_float_str = Ok low
    ∧ py_getitem record "1. open" ≫= py_float py_float_str = Ok open
    ∧ w' = {| w_dates := w_dates w ++ [date];
              w_prices := w_prices w ++ [close];
              w_volumes := w_volumes w ++ [volume];
              w_highs := w_highs w ++ [high];
              w_lows := w_lows w ++ [low];
              w_opens := w_opens w ++ [open] |}.
Proof.
  unfold window_step.
  destruct (py_getitem time_series date) as [record|e'] eqn:Hrec;
    cbn [mbind result_bind]; [|done].
  destruct (py_getitem record "4. close" ≫= py_float py_float_str) eqn:E1;
    cbn [mbind result_bind]; [|done].
  destruct (py_getitem record "5. volume" ≫= py_int py_int_str) eqn:E2;
    cbn [mbind result_bind]; [|done].
  destruct (py_getitem record "2. high" ≫= py_float py_float_str) eqn:E3;
    cbn [mbind result_bind]; [|done].
  destruct (py_getitem record "3. low" ≫= py_float py_float_str) eqn:E4;
    cbn [mbind result_bind]; [|done].
  destruct (py_getitem record "1. open" ≫= py_float py_float_str) eqn:E5;
    cbn [mbind result_bind]; [|done].
  intros [= <-]. by eexists _, _, _, _, _, _.
Qed.

Lemma window_loop_Raise (time_series : pyval) (ds : list string) :
  ∀ (w : window) (e : exn),
  window_loop py_float_str py_int_str time_series ds w = Raise e →
  MalformedRecord e.
Proof.
  induction ds as [|d ds IH]; intros w e; simpl; [done|].
  destruct (window_step _ _ time_series w d) as [w1|e1] eqn:E; simpl.
  - apply IH.
  - intros [= <-]. by eapply window_step_Raise.
Qed.

(** A loop that returns has appended the dates in order, kept the six
    series aligned, and every iteration has returned. *)
Lemma window_loop_Ok (time_series : pyval) (ds : list string) :
  ∀ (w w' : window),
  window_loop py_float_str py_int_str time_series ds w = Ok w' →
  w_dates w' = w_dates w ++ ds
  ∧ (window_aligned w → window_aligned w')
  ∧ ∀ d, d ∈ ds →
         ∃ w1 w2, window_step py_float_str py_int_str time_series w1 d = Ok w2.
Proof.
  induction ds as [|d ds IH]; intros w w'; simpl.
  - intros [= <-]. rewrite app_nil_r. split; [done|]. split; [done|].
    intros d Hd. by apply elem_of_nil in Hd.
  - destruct (window_step _ _ time_series w d) as [w1|e1] eqn:E; simpl; [|done].
    intros Hloop. destruct (IH _ _ Hloop) as (Hdates & Hal & Hsteps).
    destruct (window_step_Ok _ _ _ _ E)
      as (r & c & v & h & l & o & _ & _ & _ & _ & _ & _ & ->).
    simpl in *. rewrite Hdates, <- app_assoc. split; [done|]. split.
    + intros (? & ? & ? & ? & ?). apply Hal. unfold window_aligned. simpl.
      rewrite !length_app. simpl. lia.
    + intros d' [->|Hd']%elem_of_cons; [by eexists _, _|by apply Hsteps].
Qed.

Lemma select_dates_dict (table : gmap string pyval) :
  ∃ ds, select_dates (PDict table) = Ok ds
        ∧ length ds = Nat.min 60 (size table)
        ∧ ∀ d, d ∈ ds → is_Some (table !! d).
Proof.
  unfold select_dates, py_keys. cbn [mbind result_bind]. eexists. split; [done|].
  rewrite py_slice_prefix by lia. split.
  - rewrite length_reverse, length_take. unfold sorted_reverse.
    rewrite merge_sort_Permutation, length_fmap, length_map_to_list. lia.
  - intros d Hd. rewrite elem_of_reverse in Hd.
    apply elem_of_take in Hd as (i & Hd & _).
    apply list_elem_of_lookup_2 in Hd. unfold sorted_reverse in Hd.
    rewrite merge_sort_Permutation in Hd.
    apply list_elem_of_fmap in Hd as ([k v] & -> & Hkv).
    apply elem_of_map_to_list in Hkv. by exists v.
Qed.

Lemma build_window_aligned (time_series : pyval) (w : window) :
  build_window py_float_str py_int_str time_series = Ok w →
  window_aligned w
  ∧ select_dates time_series = Ok (w_dates w).
Proof.
  unfold build_window. intros H. apply bind_Ok in H as (ds & Hds & Hloop).
  apply window_loop_Ok in Hloop as (Hdates & Hal & _). simpl in Hdates.
  split; [by apply Hal|]. by rewrite Hdates.
Qed.

Lemma build_window_Raise (time_series : gmap string pyval) (e : exn) :
  build_window py_float_str py_int_str (PDict time_series) = Raise e →
  MalformedRecord e.
Proof.
  unfold build_window.
  destruct (select_dates_dict time_series) as (ds & -> & _).
  cbn [mbind result_bind]. apply window_loop_Raise.
Qed.

Lemma process_stock_data_present (data : gmap string pyval) (time_series : pyval) :
  data !! "Time Series (Daily)"%string = Some time_series →
  process_stock_data py_float_str py_int_str np_sqrt data
  = (w ← build_window py_float_str py_int_str time_series;
     sma_20 ← calculate_sma (w_prices w) 20;
     sma_50 ← calculate_sma (w_prices w) 50;
     ema_12 ← calculate_ema (w_prices w) 12;
     ema_26 ← calculate_ema (w_prices w) 26;
     rsi ← calculate_rsi (w_prices w) 14;
     '(bb_upper, bb_middle, bb_lower) ←
       calculate_bollinger_bands np_sqrt (w_prices w) 20 2;
     '(macd_line, macd_signal, macd_histogram) ←
       calculate_macd (w_prices w) 12 26 9;
     let start_index := py_len (w_dates w) - Z.min 30 (py_len (w_dates w)) in
     meta ← py_getitem (PDict data) "Meta Data";
     symbol ← py_getitem meta "2. Symbol";
     meta ← py_getitem (PDict data) "Meta Data";
     last_refreshed ← py_getitem meta "3. Last Refreshed";
     Ok (Some {|
       dates := py_slice (w_dates w) (Some start_index) None;
       prices := py_slice (w_prices w) (Some start_index) None;
       volumes := py_slice (w_volumes w) (Some start_index) None;
       highs := py_slice (w_highs w) (Some start_index) None;
       lows := py_slice (w_lows w) (Some start_index) None;
       opens := py_slice (w_opens w) (Some start_index) None;
       indicators := {|
         sma_20 := py_slice sma_20 (Some start_index) None;
         sma_50 := py_slice sma_50 (Some start_index) None;
         ema_12 := py_slice ema_12 (Some start_index) None;
         ema_26 := py_slice ema_26 (Some start_index) None;
         rsi := py_slice rsi (Some start_index) None;
         bollinger_upper := py_slice bb_upper (Some start_index) None;
         bollinger_middle := py_slice bb_middle (Some start_index) None;
         bollinger_lower := py_slice bb_lower (Some start_index) None;
         macd_line := py_slice macd_line (Some start_index) None;
         macd_signal := py_slice macd_signal (Some start_index) None;
         macd_histogram := py_slice macd_histogram (Some start_index) None
       |};
       symbol := symbol;
       last_refreshed := last_refreshed
     |})).
Proof.
  intros Hts. unfold process_stock_data.
  destruct (decide (is_Some (data !! "Time Series (Daily)"%string))) as [_|Hno];
    [|by destruct Hno; eexists].
  assert (py_getitem (PDict data) "Time Series (Daily)" = Ok time_series) as ->
    by (unfold py_getitem; by rewrite Hts).
  done.
Qed.

Lemma process_stock_data_Raise (data : gmap string pyval) (time_series : pyval)
    (e : exn) :
  data !! "Time Series (Daily)"%string = Some time_series →
  build_window py_float_str py_int_str time_series = Raise e →
  process_stock_data py_float_str py_int_str np_sqrt data = Raise e.
Proof.
  intros Hts Hbw. rewrite (process_stock_data_present _ _ Hts). by rewrite Hbw.
Qed.

(** With a window and the metadata at hand, the orchestrator returns the
    full-length series without their first [start] entries. *)
Lemma process_stock_data_window (data : gmap string pyval)
    (time_series meta sym refreshed : pyval) (w : window) :
  data !! "Time Series (Daily)"%string = Some time_series →
  build_window py_float_str py_int_str time_series = Ok w →
  data !! "Meta Data"%string = Some meta →
  py_getitem meta "2. Symbol" = Ok sym →
  py_getitem meta "3. Last Refreshed" = Ok refreshed →
  ∃ s20 s50 e12 e26 r bu bm bl ml ms mh,
    calculate_sma (w_prices w) 20 = Ok s20
    ∧ calculate_sma (w_prices w) 50 = Ok s50
    ∧ calculate_ema (w_prices w) 12 = Ok e12
    ∧ calculate_ema (w_prices w) 26 = Ok e26
    ∧ calculate_rsi (w_prices w) 14 = Ok r
    ∧ calculate_bollinger_bands np_sqrt (w_prices w) 20 2 = Ok (bu, bm, bl)
    ∧ calculate_macd (w_prices w) 12 26 9 = Ok (ml, ms, mh)
    ∧ Forall (λ s : list (option Q), length s = length (w_dates w))
             [s20; s50; e12; e26; r; bu; bm; bl; ml; ms; mh]
    ∧ window_aligned w
    ∧ process_stock_data py_float_str py_int_str np_sqrt data
      = Ok (Some (drop_bundle
                    (length (w_dates w) - Nat.min 30 (length (w_dates w)))
                    {| dates := w_dates w; prices := w_prices w;
                       volumes := w_volumes w; highs := w_highs w;
                       lows := w_lows w; opens := w_opens w;
                       indicators := {|
                         sma_20 := s20; sma_50 := s50; ema_12 := e12;
                         ema_26 := e26; rsi := r; bollinger_upper := bu;
                         bollinger_middle := bm; bollinger_lower := bl;
                         macd_line := ml; macd_signal := ms;
                         macd_histogram := mh |};
                       symbol := sym; last_refreshed := refreshed |})).
Proof.
  intros Hts Hbw Hmeta Hsym Href.
  destruct (build_window_aligned _ _ Hbw) as [Hal _].
  pose proof Hal as (Hp & Hv & Hh & Hl & Ho).
  destruct (calculate_sma_length (w_prices w) 20) as (s20 & Hs20 & L1); [lia|].
  destruct (calculate_sma_length (w_prices w) 50) as (s50 & Hs50 & L2); [lia|].
  destruct (calculate_ema_length (w_prices w) 12) as (e12 & He12 & L3); [lia|].
  destruct (calculate_ema_length (w_prices w) 26) as (e26 & He26 & L4); [lia|].
  destruct (calculate_rsi_length (w_prices w) 14) as (r & Hr & L5); [lia|].
  destruct (calculate_bollinger_bands_length np_sqrt (w_prices w) 20 2)
    as (bu & bm & bl & Hbb & L6 & L7 & L8); [lia|].
  destruct (calculate_macd_spec (w_prices w) 12 26 9)
    as (ef & es & se & Hef & Lef & Hes & Les & Hse & Hmacd); [lia..|].
  destruct (calculate_ema_length
              (defined_values (zip_with sub_defined ef es)) 9)
    as (se' & Hse' & Lse); [lia|].
  rewrite Hse in Hse'. injection Hse' as <-.
  pose proof (defined_undefined_length (zip_with sub_defined ef es)) as Hdu.
  assert (length (zip_with sub_defined ef es) = length (w_prices w)) as L9
    by (rewrite length_zip_with; lia).
  eexists s20, s50, e12, e26, r, bu, bm, bl, _, _, _.
  repeat (split; [eassumption|]).
  assert (length (replicate
                    (undefined_count (zip_with sub_defined ef es)) (@None Q)
                  ++ se) = length (w_prices w)) as L10
    by (rewrite length_app, length_replicate; lia).
  assert (length (zip_with sub_defined (zip_with sub_defined ef es)
                    (replicate (undefined_count (zip_with sub_defined ef es)) None
                     ++ se)) = length (w_prices w)) as L11
    by (rewrite length_zip_with; lia).
  split; [|split; [done|]].
  { repeat (constructor; [lia|]). constructor. }
  rewrite (process_stock_data_present _ _ Hts), Hbw. cbn [mbind result_bind].
  rewrite Hs20, Hs50, He12, He26, Hr, Hbb, Hmacd. cbn [mbind result_bind].
  assert (py_getitem (PDict data) "Meta Data" = Ok meta) as ->
    by (unfold py_getitem; by rewrite Hmeta).
  cbn [mbind result_bind]. rewrite Hsym, Href. cbn [mbind result_bind].
  unfold drop_bundle. cbn [dates prices volumes highs lows opens indicators
    sma_20 sma_50 ema_12 ema_26 rsi bollinger_upper bollinger_middle
    bollinger_lower macd_line macd_signal macd_histogram symbol last_refreshed].
  assert (Z.to_nat (py_len (w_dates w) - Z.min 30 (py_len (w_dates w)))
          = (length (w_dates w) - Nat.min 30 (length (w_dates w)))%nat) as Hst
    by (unfold py_len; lia).
  rewrite !py_slice_suffix by (unfold py_len; lia).
  by rewrite Hst.
Qed.

End Orchestrator.

(** ** Scenarios *)

(** SMA(5) of [10..20]: the entry at index 4 is 12 and at index 10 is 18. *)
Example sma_scenario :
  calculate_sma (rationals [10; 11; 12; 13; 14; 15; 16; 17; 18; 19; 20]) 5
  = Ok [None; None; None; None; Some (60 # 5); Some (65 # 5); Some (70 # 5);
        Some (75 # 5); Some (80 # 5); Some (85 # 5); Some (90 # 5)]%Q
  ∧ (60 # 5 == 12)%Q ∧ (90 # 5 == 18)%Q.
Proof. by vm_compute. Qed.

(** RSI(14) of fourteen prices is undefined throughout. *)
Example rsi_scenario :
  calculate_rsi (rationals [1; 2; 3; 4; 5; 6; 7; 8; 9; 10; 11; 12; 13; 14]) 14
  = Ok (replicate 14 None).
Proof. by vm_compute. Qed.

(** With a constant price the three Bollinger bands coincide. *)
Example bollinger_scenario :
  calculate_bollinger_bands floor_sqrt (rationals [100; 100; 100]) 2 2
  = Ok ([None; Some (6400 # 64); Some (6400 # 64)],
        [None; Some (200 # 2); Some (200 # 2)],
        [None; Some (6400 # 64); Some (6400 # 64)])%Q
  ∧ (6400 # 64 == 100)%Q ∧ (200 # 2 == 100)%Q.
Proof. by vm_compute. Qed.

(** The example table: three dates in ascending order, nothing trimmed. *)
Example orchestrator_scenario :
  ∃ b, process_stock_data decimal_float decimal_int floor_sqrt example_data
       = Ok (Some b)
       ∧ dates b = ["2023-12-29"; "2024-01-02"; "2024-01-03"]%string
       ∧ prices b = [11 # 1; 10 # 1; 12 # 1]%Q
       ∧ rsi (indicators b) = [None; None; None].
Proof. eexists. split; [by vm_compute|]. by vm_compute. Qed.

(** * The claims *)

Lemma py_repeat_len {A B : Type} (x : A) (l : list B) :
  py_repeat x (py_len l) = replicate (length l) x.
Proof. unfold py_repeat, py_len. by rewrite Nat2Z.id. Qed.

(** C1. For every price list and every positive window, each function of
    the indicator library returns (it does not raise) and every series it
    returns has the length of the price list; a price list shorter than
    the required window gives series that are undefined throughout. The
    required window is [window] for SMA, EMA and the Bollinger bands,
    [window + 1] for RSI, the larger of [fast] and [slow] for the MACD
    line, and that plus [signal - 1] for the signal line and histogram. *)
Theorem indicator_series_preserve_length (np_sqrt : Q → Q)
    (prices : list Q) (window : Z) (Hwindow : 0 < window) :
  (∃ sma, calculate_sma prices window = Ok sma
          ∧ length sma = length prices
          ∧ (py_len prices < window → sma = replicate (length prices) None))
  ∧ (∃ ema, calculate_ema prices window = Ok ema
            ∧ length ema = length prices
            ∧ (py_len prices < window → ema = replicate (length prices) None))
  ∧ (∃ rsi, calculate_rsi prices window = Ok rsi
            ∧ length rsi = length prices
            ∧ (py_len prices < window + 1 →
               rsi = replicate (length prices) None))
  ∧ (∀ num_std, ∃ upper middle lower,
       calculate_bollinger_bands np_sqrt prices window num_std
       = Ok (upper, middle, lower)
       ∧ length upper = length prices
       ∧ length middle = length prices
       ∧ length lower = length prices
       ∧ (py_len prices < window →
          upper = replicate (length prices) None
          ∧ middle = replicate (length prices) None
          ∧ lower = replicate (length prices) None))
  ∧ (∀ fast slow signal, 0 < fast → 0 < slow → 0 < signal →
     ∃ macd signal_line histogram,
       calculate_macd prices fast slow signal
       = Ok (macd, signal_line, histogram)
       ∧ length macd = length prices
       ∧ length signal_line = length prices
       ∧ length histogram = length prices
       ∧ (py_len prices < Z.max fast slow →
          macd = replicate (length prices) None
          ∧ signal_line = replicate (length prices) None
          ∧ histogram = replicate (length prices) None)
       ∧ (py_len prices < Z.max fast slow + signal - 1 →
          signal_line = replicate (length prices) None
          ∧ histogram = replicate (length prices) None)).
Proof.
  split; [|split; [|split; [|split]]].
  - destruct (calculate_sma_length prices window) as (sma & Hsma & Hlen); [done|].
    exists sma. repeat split; try done. intros Hshort.
    rewrite calculate_sma_short in Hsma by done. injection Hsma as <-.
    apply py_repeat_len.
  - destruct (calculate_ema_length prices window) as (ema & Hema & Hlen); [done|].
    exists ema. repeat split; try done. intros Hshort.
    rewrite calculate_ema_short in Hema by done. injection Hema as <-.
    apply py_repeat_len.
  - destruct (calculate_rsi_length prices window) as (rsi & Hrsi & Hlen); [done|].
    exists rsi. repeat split; try done. intros Hshort.
    rewrite calculate_rsi_short in Hrsi by done. injection Hrsi as <-.
    apply py_repeat_len.
  - intros num_std.
    destruct (calculate_bollinger_bands_length np_sqrt prices window num_std)
      as (u & m & l & Hbb & Hu & Hm & Hl); [done|].
    exists u, m, l. do 4 (split; [done|]). intros Hshort.
    rewrite calculate_bollinger_bands_short in Hbb by done.
    injection Hbb as <- <- <-. by rewrite !py_repeat_len.
  - intros fast slow signal Hf Hs Hsig.
    destruct (calculate_macd_spec prices fast slow signal)
      as (ef & es & se & Hef & Lef & Hes & Les & Hse & ->); [done..|].
    destruct (calculate_ema_length
                (defined_values (zip_with sub_defined ef es)) signal)
      as (se' & Hse' & Lse); [done|].
    rewrite Hse in Hse'. injection Hse' as <-.
    pose proof (defined_undefined_length (zip_with sub_defined ef es)) as Hdu.
    assert (length (zip_with sub_defined ef es) = length prices) as Lm
      by (rewrite length_zip_with; lia).
    assert (length (replicate (undefined_count (zip_with sub_defined ef es))
                      (@None Q) ++ se) = length prices) as Ls
      by (rewrite length_app, length_replicate; lia).
    do 3 eexists. split; [done|].
    split; [done|]. split; [done|].
    split; [rewrite length_zip_with; lia|].
    assert (py_len prices < Z.max fast slow →
            zip_with sub_defined ef es = replicate (length prices) None)
      as Hmacd.
    { intros Hshort. destruct (Z.lt_ge_cases (py_len prices) fast).
      - rewrite calculate_ema_short in Hef by done. injection Hef as <-.
        rewrite py_repeat_len. by apply zip_with_sub_defined_None_l.
      - rewrite calculate_ema_short in Hes by lia. injection Hes as <-.
        rewrite py_repeat_len. by apply zip_with_sub_defined_None_r. }
    assert (py_len (defined_values (zip_with sub_defined ef es)) < signal →
            replicate (undefined_count (zip_with sub_defined ef es)) None ++ se
            = replicate (length prices) None
            ∧ zip_with sub_defined (zip_with sub_defined ef es)
                (replicate (undefined_count (zip_with sub_defined ef es)) None
                 ++ se)
              = replicate (length prices) None) as Hfew.
    { intros Hlt. rewrite calculate_ema_short in Hse by done.
      injection Hse as <-. rewrite py_repeat_len, <- replicate_add.
      replace (undefined_count (zip_with sub_defined ef es)
               + length (defined_values (zip_with sub_defined ef es)))%nat
        with (length prices) by lia.
      split; [done|]. by apply zip_with_sub_defined_None_r. }
    split.
    + intros Hshort. split; [by apply Hmacd|]. apply Hfew.
      rewrite Hmacd, defined_values_replicate by done. unfold py_len. simpl. lia.
    + intros Hshort. apply Hfew.
      destruct (Z.lt_ge_cases (py_len prices) (Z.max fast slow)) as [Hlt|Hge].
      * rewrite Hmacd, defined_values_replicate by done.
        unfold py_len. simpl. lia.
      * unfold py_len at 1.
        rewrite (macd_defined_count prices fast slow ef es) by done. lia.
Qed.

Lemma indicator_series_preserve_length_witness :
  0 < 2
  ∧ ∃ sma ema rsi,
      calculate_sma (rationals [10; 11; 12]) 2 = Ok sma
      ∧ calculate_ema (rationals [10; 11; 12]) 2 = Ok ema
      ∧ calculate_rsi (rationals [10; 11; 12]) 2 = Ok rsi
      ∧ length sma = 3%nat ∧ length ema = 3%nat ∧ length rsi = 3%nat.
Proof.
  split; [lia|].
  destruct (indicator_series_preserve_length floor_sqrt
              (rationals [10; 11; 12]) 2)
    as ((sma & ? & ? & _) & (ema & ? & ? & _) & (rsi & ? & ? & _) & _); [lia|].
  by exists sma, ema, rsi.
Defined.

(** C2. For every price list, the signal line of
    [calculate_macd prices 12 26 9] is the EMA(9) of the defined MACD
    values, computed on them as a series of their own, behind as many
    undefined entries as the MACD line has; when fewer than 9 MACD values
    are defined, the signal line and the histogram are undefined
    throughout. *)
Theorem macd_signal_is_ema_of_defined_values (prices : list Q) :
  ∃ macd signal_line histogram signal_ema,
    calculate_macd prices 12 26 9 = Ok (macd, signal_line, histogram)
    ∧ calculate_ema (defined_values macd) 9 = Ok signal_ema
    ∧ signal_line = replicate (undefined_count macd) None ++ signal_ema
    ∧ length signal_line = length prices
    ∧ ((length (defined_values macd) < 9)%nat →
       signal_line = replicate (length prices) None
       ∧ histogram = replicate (length prices) None).
Proof.
  destruct (calculate_macd_spec prices 12 26 9)
    as (ef & es & se & Hef & Lef & Hes & Les & Hse & ->); [lia..|].
  destruct (calculate_ema_length
              (defined_values (zip_with sub_defined ef es)) 9)
    as (se' & Hse' & Lse); [lia|].
  rewrite Hse in Hse'. injection Hse' as <-.
  pose proof (defined_undefined_length (zip_with sub_defined ef es)) as Hdu.
  assert (length (zip_with sub_defined ef es) = length prices) as Lm
    by (rewrite length_zip_with; lia).
  do 3 eexists. exists se. split; [done|]. split; [done|]. split; [done|].
  split; [rewrite length_app, length_replicate; lia|].
  intros Hfew. rewrite calculate_ema_short in Hse by (unfold py_len; lia).
  injection Hse as <-. rewrite py_repeat_len, <- replicate_add.
  replace (undefined_count (zip_with sub_defined ef es)
           + length (defined_values (zip_with sub_defined ef es)))%nat
    with (length prices) by lia.
  split; [done|]. by apply zip_with_sub_defined_None_r.
Qed.

(** C7. For every price list with at least [window] entries, the entry of
    [calculate_ema] at index [window - 1] equals the entry of
    [calculate_sma] at that index: both are the sum of the first [window]
    prices divided by [window]. *)
Theorem ema_seed_equals_sma (prices : list Q) (window : Z)
    (Hwindow : 0 < window) (Hlong : window ≤ py_len prices) :
  ∃ ema sma mean,
    calculate_ema prices window = Ok ema
    ∧ calculate_sma prices window = Ok sma
    ∧ mean = (py_sum (take (Z.to_nat window) prices) / inject_Z window)%Q
    ∧ ema !! Z.to_nat (window - 1) = Some (Some mean)
    ∧ sma !! Z.to_nat (window - 1) = Some (Some mean).
Proof.
  destruct (calculate_ema_full prices window) as (vs & Hema & _); [done..|].
  do 3 eexists. split; [exact Hema|]. split; [by apply calculate_sma_full|].
  split; [done|]. split.
  - rewrite lookup_app_r by (rewrite length_py_repeat; lia).
    by rewrite length_py_repeat, Nat.sub_diag.
  - rewrite lookup_sma_full by (unfold py_len in *; lia).
    unfold sma_value. rewrite Z2Nat.id by lia.
    destruct (Z.ltb_spec (window - 1) (window - 1)); [lia|].
    rewrite py_slice_window by lia.
    replace (window - 1 - window + 1) with 0 by lia.
    replace (window - 1 + 1 - 0) with window by lia. done.
Qed.

Lemma ema_seed_equals_sma_witness :
  0 < 3 ∧ 3 ≤ py_len (rationals [10; 11; 12; 13])
  ∧ ∃ ema sma mean,
      calculate_ema (rationals [10; 11; 12; 13]) 3 = Ok ema
      ∧ calculate_sma (rationals [10; 11; 12; 13]) 3 = Ok sma
      ∧ mean = Qdiv (py_sum (take (Z.to_nat 3) (rationals [10; 11; 12; 13])))
                    (inject_Z 3)
      ∧ ema !! Z.to_nat (3 - 1) = Some (Some mean)
      ∧ sma !! Z.to_nat (3 - 1) = Some (Some mean).
Proof.
  split; [lia|]. split; [vm_compute; discriminate|].
  apply (ema_seed_equals_sma (rationals [10; 11; 12; 13]) 3);
    [lia|vm_compute; discriminate].
Defined.





(** C4. For every price list of length [n] and positive [window], the
    series of [calculate_rsi] has length [n]; its entries at the indices
    below [window + 1] are undefined and every later entry is defined; if
    [n < window + 1] the whole series is undefined. *)
Theorem rsi_undefined_prefix (prices : list Q) (window : Z)
    (Hwindow : 0 < window) :
  ∃ out,
    calculate_rsi prices window = Ok out
    ∧ length out = length prices
    ∧ (∀ i : nat, (i < length prices)%nat → Z.of_nat i < window + 1 →
                  out !! i = Some None)
    ∧ (∀ i : nat, (i < length prices)%nat → window + 1 ≤ Z.of_nat i →
                  ∃ v, out !! i = Some (Some v))
    ∧ (py_len prices < window + 1 → out = replicate (length prices) None).
Proof.
  destruct (Z.lt_ge_cases (py_len prices) (window + 1)) as [Hshort|Hlong].
  - exists (replicate (length prices) None).
    rewrite calculate_rsi_short, py_repeat_len by done.
    split; [done|]. split; [by rewrite length_replicate|].
    split; [|split; [|done]].
    + intros i Hi _. by apply lookup_replicate_2.
    + intros i Hi Hge. unfold py_len in Hshort. lia.
  - destruct (calculate_rsi_full prices window) as (vs & Hout & Hlen & _);
      [done..|].
    eexists. split; [exact Hout|].
    split; [rewrite length_app, length_py_repeat, length_fmap, Hlen;
            unfold py_len in *; lia|].
    split; [|split; [|lia]].
    + intros i Hi Hlt. rewrite lookup_app_l by (rewrite length_py_repeat; lia).
      apply lookup_replicate_2. lia.
    + intros i Hi Hge. rewrite lookup_app_r by (rewrite length_py_repeat; lia).
      rewrite length_py_repeat, list_lookup_fmap.
      destruct (lookup_lt_is_Some_2 vs (i - Z.to_nat (window + 1))) as [v ->];
        [unfold py_len in *; lia|].
      by exists v.
Qed.

Lemma rsi_undefined_prefix_witness :
  0 < 2
  ∧ ∃ out, calculate_rsi (rationals [10; 11; 12; 11; 14]) 2 = Ok out
           ∧ out !! 2%nat = Some None
           ∧ ∃ v, out !! 3%nat = Some (Some v).
Proof.
  split; [lia|].
  destruct (rsi_undefined_prefix (rationals [10; 11; 12; 11; 14]) 2)
    as (out & Hout & _ & Hpre & Hpost & _); [lia|].
  exists out. split; [done|]. split.
  - apply Hpre; [simpl; lia|lia].
  - apply Hpost; [simpl; lia|lia].
Defined.







Lemma calculate_sma_zero_window (prices : list Q) :
  prices ≠ [] → calculate_sma prices 0 = Raise ZeroDivisionError.
Proof.
  intros Hne. unfold calculate_sma.
  destruct (Z.ltb_spec (py_len prices) 0) as [H|_];
    [pose proof (py_len_nonneg prices); lia|].
  unfold py_range. rewrite seqZ_cons by (destruct prices; [done|unfold py_len; simpl; lia]).
  done.
Qed.




(** C5. For every window that the builder returns, of length [L] (the
    non-empty ones in particular), the orchestrator returns a bundle in
    which the dates, prices, volumes, highs, lows, opens and the eleven
    indicator series all have length [min 30 L]: each is the full-length
    series (of length [L]) without its first [L - min 30 L] entries, the
    same offset for all of them. *)
Theorem orchestrator_series_share_length
    (py_float_str : string → option Q) (py_int_str : string → option Z)
    (np_sqrt : Q → Q) (data : gmap string pyval)
    (time_series meta sym refreshed : pyval) (w : window)
    (Htable : data !! "Time Series (Daily)"%string = Some time_series)
    (Hwindow : build_window py_float_str py_int_str time_series = Ok w)
    (Hmeta : data !! "Meta Data"%string = Some meta)
    (Hsym : py_getitem meta "2. Symbol" = Ok sym)
    (Hrefreshed : py_getitem meta "3. Last Refreshed" = Ok refreshed) :
  ∃ full : stock_bundle,
    dates full = w_dates w ∧ prices full = w_prices w
    ∧ volumes full = w_volumes w ∧ highs full = w_highs w
    ∧ lows full = w_lows w ∧ opens full = w_opens w
    ∧ calculate_sma (w_prices w) 20 = Ok (sma_20 (indicators full))
    ∧ calculate_sma (w_prices w) 50 = Ok (sma_50 (indicators full))
    ∧ calculate_ema (w_prices w) 12 = Ok (ema_12 (indicators full))
    ∧ calculate_ema (w_prices w) 26 = Ok (ema_26 (indicators full))
    ∧ calculate_rsi (w_prices w) 14 = Ok (rsi (indicators full))
    ∧ calculate_bollinger_bands np_sqrt (w_prices w) 20 2
      = Ok (bollinger_upper (indicators full),
            bollinger_middle (indicators full),
            bollinger_lower (indicators full))
    ∧ calculate_macd (w_prices w) 12 26 9
      = Ok (macd_line (indicators full), macd_signal (indicators full),
            macd_histogram (indicators full))
    ∧ series_lengths full = replicate 17 (length (w_dates w))
    ∧ process_stock_data py_float_str py_int_str np_sqrt data
      = Ok (Some (drop_bundle
                    (length (w_dates w) - Nat.min 30 (length (w_dates w))) full))
    ∧ series_lengths
        (drop_bundle (length (w_dates w) - Nat.min 30 (length (w_dates w))) full)
      = replicate 17 (Nat.min 30 (length (w_dates w))).
Proof.
  destruct (process_stock_data_window py_float_str py_int_str np_sqrt data
              time_series meta sym refreshed w)
    as (s20 & s50 & e12 & e26 & r & bu & bm & bl & ml & ms & mh
        & H1 & H2 & H3 & H4 & H5 & H6 & H7 & Hlen & Hal & Hret); [done..|].
  destruct Hal as (Lp & Lv & Lh & Ll & Lo).
  rewrite !Forall_cons in Hlen.
  destruct Hlen as (L1 & L2 & L3 & L4 & L5 & L6 & L7 & L8 & L9 & L10 & L11 & _).
  exists {| dates := w_dates w; prices := w_prices w; volumes := w_volumes w;
            highs := w_highs w; lows := w_lows w; opens := w_opens w;
            indicators := {|
              sma_20 := s20; sma_50 := s50; ema_12 := e12; ema_26 := e26;
              rsi := r; bollinger_upper := bu; bollinger_middle := bm;
              bollinger_lower := bl; macd_line := ml; macd_signal := ms;
              macd_histogram := mh |};
            symbol := sym; last_refreshed := refreshed |}.
  do 13 (split; [done|]).
  split; [|split; [exact Hret|]].
  - unfold series_lengths. cbn [dates prices volumes highs lows opens indicators
      sma_20 sma_50 ema_12 ema_26 rsi bollinger_upper bollinger_middle
      bollinger_lower macd_line macd_signal macd_histogram replicate].
    by rewrite Lp, Lv, Lh, Ll, Lo, L1, L2, L3, L4, L5, L6, L7, L8, L9, L10, L11.
  - unfold series_lengths, drop_bundle. cbn [dates prices volumes highs lows
      opens indicators sma_20 sma_50 ema_12 ema_26 rsi bollinger_upper
      bollinger_middle bollinger_lower macd_line macd_signal macd_histogram
      replicate].
    rewrite !length_drop.
    rewrite Lp, Lv, Lh, Ll, Lo, L1, L2, L3, L4, L5, L6, L7, L8, L9, L10, L11.
    replace (length (w_dates w)
             - (length (w_dates w) - Nat.min 30 (length (w_dates w))))%nat
      with (Nat.min 30 (length (w_dates w))) by lia.
    done.
Qed.

Lemma orchestrator_series_share_length_witness :
  example_data !! "Time Series (Daily)"%string = Some (PDict example_table)
  ∧ build_window decimal_float decimal_int (PDict example_table)
    = Ok example_window
  ∧ example_data !! "Meta Data"%string = Some example_meta
  ∧ py_getitem example_meta "2. Symbol" = Ok (PStr "IBM")
  ∧ py_getitem example_meta "3. Last Refreshed" = Ok (PStr "2024-01-03")
  ∧ ∃ full : stock_bundle,
      process_stock_data decimal_float decimal_int floor_sqrt example_data
      = Ok (Some (drop_bundle (3 - Nat.min 30 3) full))
      ∧ series_lengths (drop_bundle (3 - Nat.min 30 3) full)
        = replicate 17 (Nat.min 30 3).
Proof.
  do 5 (split; [vm_compute; reflexivity|]).
  destruct (orchestrator_series_share_length decimal_float decimal_int
              floor_sqrt example_data (PDict example_table) example_meta
              (PStr "IBM") (PStr "2024-01-03") example_window)
    as (full & H); [vm_compute; reflexivity..|].
  exists full. split; apply H.
Defined.

Lemma build_window_empty (py_float_str : string → option Q)
    (py_int_str : string → option Z) :
  build_window py_float_str py_int_str (PDict ∅) = Ok empty_window.
Proof.
  unfold build_window, select_dates, py_keys. cbn [mbind result_bind].
  by rewrite map_to_list_empty.
Qed.

(** C3, as the code has it. When the dated table is empty, the window
    builder returns empty series and the orchestrator raises nothing on
    that account: with the entries ["2. Symbol"] and ["3. Last Refreshed"]
    of ["Meta Data"] at hand it returns a bundle whose seventeen series
    are all empty. *)
Theorem empty_table_gives_empty_bundle
    (py_float_str : string → option Q) (py_int_str : string → option Z)
    (np_sqrt : Q → Q) (data : gmap string pyval) (meta sym refreshed : pyval)
    (Htable : data !! "Time Series (Daily)"%string = Some (PDict ∅))
    (Hmeta : data !! "Meta Data"%string = Some meta)
    (Hsym : py_getitem meta "2. Symbol" = Ok sym)
    (Hrefreshed : py_getitem meta "3. Last Refreshed" = Ok refreshed) :
  build_window py_float_str py_int_str (PDict ∅) = Ok empty_window
  ∧ process_stock_data py_float_str py_int_str np_sqrt data
    = Ok (Some (empty_bundle sym refreshed)).
Proof.
  split; [apply build_window_empty|].
  destruct (process_stock_data_window py_float_str py_int_str np_sqrt data
              (PDict ∅) meta sym refreshed empty_window)
    as (s20 & s50 & e12 & e26 & r & bu & bm & bl & ml & ms & mh
        & _ & _ & _ & _ & _ & _ & _ & Hlen & _ & ->);
    [done|apply build_window_empty|done..|].
  rewrite !Forall_cons in Hlen.
  destruct Hlen as (L1 & L2 & L3 & L4 & L5 & L6 & L7 & L8 & L9 & L10 & L11 & _).
  apply nil_length_inv in L1, L2, L3, L4, L5, L6, L7, L8, L9, L10, L11.
  by subst.
Qed.

Lemma empty_table_gives_empty_bundle_witness :
  empty_table_data !! "Time Series (Daily)"%string = Some (PDict ∅)
  ∧ empty_table_data !! "Meta Data"%string = Some example_meta
  ∧ py_getitem example_meta "2. Symbol" = Ok (PStr "IBM")
  ∧ py_getitem example_meta "3. Last Refreshed" = Ok (PStr "2024-01-03")
  ∧ process_stock_data decimal_float decimal_int floor_sqrt empty_table_data
    = Ok (Some (empty_bundle (PStr "IBM") (PStr "2024-01-03"))).
Proof.
  do 4 (split; [vm_compute; reflexivity|]).
  apply (empty_table_gives_empty_bundle decimal_float decimal_int floor_sqrt
           empty_table_data example_meta); vm_compute; reflexivity.
Defined.

(** C3, as stated, fails: on an empty dated table the orchestrator returns
    a result bundle and raises no exception. *)
Lemma empty_table_does_not_raise :
  build_window decimal_float decimal_int (PDict ∅) = Ok empty_window
  ∧ process_stock_data decimal_float decimal_int floor_sqrt empty_table_data
    = Ok (Some (empty_bundle (PStr "IBM") (PStr "2024-01-03")))
  ∧ ∀ e, process_stock_data decimal_float decimal_int floor_sqrt
           empty_table_data ≠ Raise e.
Proof.
  assert (process_stock_data decimal_float decimal_int floor_sqrt
            empty_table_data
          = Ok (Some (empty_bundle (PStr "IBM") (PStr "2024-01-03")))) as H
    by (vm_compute; reflexivity).
  split; [vm_compute; reflexivity|]. split; [exact H|].
  intros e. rewrite H. discriminate.
Qed.

(** A record whose five fields all read has no missing and no
    non-numeric field. *)
Lemma record_reads_well_formed (py_float_str : string → option Q)
    (py_int_str : string → option Z) (record : gmap string pyval)
    (close high low open : Q) (volume : Z) :
  py_getitem (PDict record) "4. close" ≫= py_float py_float_str = Ok close →
  py_getitem (PDict record) "5. volume" ≫= py_int py_int_str = Ok volume →
  py_getitem (PDict record) "2. high" ≫= py_float py_float_str = Ok high →
  py_getitem (PDict record) "3. low" ≫= py_float py_float_str = Ok low →
  py_getitem (PDict record) "1. open" ≫= py_float py_float_str = Ok open →
  ¬ missing_field record ∧ ¬ non_numeric_field py_float_str py_int_str record.
Proof.
  intros (sc & Hc & Pc)%field_float_Ok (sv & Hv & Pv)%field_int_Ok
         (sh & Hh & Ph)%field_float_Ok (sl & Hl & Pl)%field_float_Ok
         (so & Ho & Po)%field_float_Ok.
  split.
  - intros (f & Hf & Hnone). unfold required_fields, float_fields in Hf.
    repeat (apply elem_of_cons in Hf as [->|Hf]; [congruence|]).
    by apply elem_of_nil in Hf.
  - intros [(f & s & Hf & Hs & Hnone)|(s & Hs & Hnone)]; [|congruence].
    unfold float_fields in Hf.
    repeat (apply elem_of_cons in Hf as [->|Hf]; [congruence|]).
    by apply elem_of_nil in Hf.
Qed.

(** C9. For every input whose dated table has, at a selected date, a
    record that lacks a required field or holds a field that does not
    parse as a number, the window builder raises one of the record errors
    ([KeyError], [ValueError], [TypeError]: the [MalformedRecord]
    condition) and the orchestrator propagates it, so the whole request
    fails. Whenever the builder returns, for any table, it returns every
    selected date and six series of one length: no date is dropped and no
    series is ragged. *)
Theorem malformed_record_fails_request
    (py_float_str : string → option Q) (py_int_str : string → option Z)
    (np_sqrt : Q → Q) (data table record : gmap string pyval)
    (selected : list string) (date : string)
    (Htable : data !! "Time Series (Daily)"%string = Some (PDict table))
    (Hselected : select_dates (PDict table) = Ok selected)
    (Hdate : date ∈ selected)
    (Hrecord : table !! date = Some (PDict record))
    (Hbad : missing_field record
            ∨ non_numeric_field py_float_str py_int_str record) :
  (∃ e, MalformedRecord e
        ∧ build_window py_float_str py_int_str (PDict table) = Raise e
        ∧ process_stock_data py_float_str py_int_str np_sqrt data = Raise e)
  ∧ (∀ (table' : gmap string pyval) (w : window),
       build_window py_float_str py_int_str (PDict table') = Ok w →
       select_dates (PDict table') = Ok (w_dates w) ∧ window_aligned w).
Proof.
  split.
  - destruct (build_window py_float_str py_int_str (PDict table))
      as [w|e] eqn:Hbw.
    + exfalso. unfold build_window in Hbw. rewrite Hselected in Hbw.
      cbn [mbind result_bind] in Hbw.
      apply window_loop_Ok in Hbw as (_ & _ & Hsteps).
      destruct (Hsteps date Hdate) as (w1 & w2 & Hstep).
      apply window_step_Ok in Hstep
        as (r & c & v & h & l & o & Hr & Hc & Hv & Hh & Hl & Ho & _).
      unfold py_getitem in Hr at 1. rewrite Hrecord in Hr. injection Hr as <-.
      destruct (record_reads_well_formed py_float_str py_int_str record
                  c h l o v Hc Hv Hh Hl Ho) as [Hmiss Hnum].
      by destruct Hbad.
    + exists e. split; [by eapply build_window_Raise|]. split; [done|].
      by eapply process_stock_data_Raise.
  - intros table' w Hbw.
    destruct (build_window_aligned _ _ _ _ Hbw). done.
Qed.

Lemma malformed_record_fails_request_witness :
  broken_data !! "Time Series (Daily)"%string = Some (PDict broken_table)
  ∧ select_dates (PDict broken_table) = Ok ["2024-01-02"; "2024-01-03"]%string
  ∧ "2024-01-03"%string ∈ ["2024-01-02"; "2024-01-03"]%string
  ∧ broken_table !! "2024-01-03"%string = Some (PDict broken_record)
  ∧ (missing_field broken_record
     ∨ non_numeric_field decimal_float decimal_int broken_record)
  ∧ ∃ e, MalformedRecord e
         ∧ build_window decimal_float decimal_int (PDict broken_table) = Raise e
         ∧ process_stock_data decimal_float decimal_int floor_sqrt broken_data
           = Raise e.
Proof.
  assert (missing_field broken_record) as Hmissing.
  { exists "5. volume"%string. split; [left|vm_compute; reflexivity]. }
  split; [vm_compute; reflexivity|]. split; [vm_compute; reflexivity|].
  split; [right; left|]. split; [vm_compute; reflexivity|].
  split; [by left|].
  apply (malformed_record_fails_request decimal_float decimal_int floor_sqrt
           broken_data broken_table broken_record
           ["2024-01-02"; "2024-01-03"]%string "2024-01-03"%string).
  - vm_compute; reflexivity.
  - vm_compute; reflexivity.
  - right; left.
  - vm_compute; reflexivity.
  - by left.
Defined.

(** C10. For every input without the key ["Time Series (Daily)"],
    [process_stock_data] returns [None]: it raises nothing, and being the
    [else] branch of the membership test it builds no window and computes
    no indicator. *)
Theorem missing_time_series_returns_None
    (py_float_str : string → option Q) (py_int_str : string → option Z)
    (np_sqrt : Q → Q) (data : gmap string pyval)
    (Habsent : data !! "Time Series (Daily)"%string = None) :
  process_stock_data py_float_str py_int_str np_sqrt data = Ok None.
Proof.
  unfold process_stock_data.
  destruct (decide (is_Some (data !! "Time Series (Daily)"%string)))
    as [[x Hx]|_]; [congruence|done].
Qed.

Lemma missing_time_series_returns_None_witness :
  notice_data !! "Time Series (Daily)"%string = None
  ∧ process_stock_data decimal_float decimal_int floor_sqrt notice_data = Ok None.
Proof.
  split; [vm_compute; reflexivity|].
  apply missing_time_series_returns_None. vm_compute; reflexivity.
Defined.

(** * Further properties *)

(** ** Moving averages *)

Lemma py_index_minus_one {A : Type} (l : list A) (x : A) :
  l !! (length l - 1)%nat = Some x → py_index l (-1) = Ok x.
Proof.
  intros Hx. pose proof (lookup_lt_Some _ _ _ Hx) as Hlen.
  unfold py_index, py_len.
  destruct (Z.ltb_spec (-1) 0); [|lia].
  destruct (Z.ltb_spec (Z.of_nat (length l) + -1) 0); [lia|].
  replace (Z.to_nat (Z.of_nat (length l) + -1)) with (length l - 1)%nat by lia.
  by rewrite Hx.
Qed.

Lemma ema_step_last (prices : list Q) (multiplier : Q)
    (ema : list (option Q)) (e p : Q) (i : Z) :
  0 ≤ i → prices !! Z.to_nat i = Some p →
  ema !! (length ema - 1)%nat = Some (Some e) →
  ema_step prices multiplier ema i
  = Ok (ema ++ [Some (p * multiplier + e * (1 - multiplier))%Q]).
Proof.
  intros Hi Hp He. unfold ema_step.
  rewrite (py_index_lookup prices i p) by done. cbn [mbind result_bind].
  by rewrite (py_index_minus_one ema (Some e)).
Qed.

(** The loop of [calculate_ema] run for [k] iterations from index [a]:
    it keeps what was there and every new entry follows the recurrence. *)
Lemma ema_loop_recurrence (prices : list Q) (m : Q) (k : nat) :
  ∀ (a : Z) (init : list (option Q)) (e : Q),
  1 ≤ a → length init = Z.to_nat a →
  init !! (Z.to_nat a - 1)%nat = Some (Some e) →
  a + Z.of_nat k ≤ py_len prices →
  ∃ r last,
    py_for (py_range a (a + Z.of_nat k)) (ema_step prices m) init = Ok r
    ∧ length r = Z.to_nat (a + Z.of_nat k)
    ∧ take (Z.to_nat a) r = init
    ∧ r !! (length r - 1)%nat = Some (Some last)
    ∧ ∀ i, a ≤ i < a + Z.of_nat k →
           ∃ prev p,
             r !! Z.to_nat (i - 1) = Some (Some prev)
             ∧ prices !! Z.to_nat i = Some p
             ∧ r !! Z.to_nat i = Some (Some (p * m + prev * (1 - m))%Q).
Proof.
  induction k as [|k IH]; intros a init e Ha Hlen Hlast Hn.
  - exists init, e. rewrite Z.add_0_r. unfold py_range.
    rewrite Z.sub_diag, seqZ_nil by lia. simpl.
    split; [done|]. split; [done|].
    split; [by rewrite take_ge by lia|]. split; [by rewrite Hlen|]. lia.
  - destruct (IH a init e) as (r & last & Hr & Hlr & Htake & Hrl & Hrec);
      [done..|lia|].
    replace (a + Z.of_nat (S k)) with (a + Z.of_nat k + 1) by lia.
    rewrite py_range_snoc, py_for_app, Hr by lia. cbn [mbind result_bind py_for].
    destruct (lookup_lt_is_Some_2 prices (Z.to_nat (a + Z.of_nat k)))
      as [p Hp]; [unfold py_len in Hn; lia|].
    rewrite (ema_step_last prices m r last p) by (done || lia).
    cbn [mbind result_bind].
    eexists _, _. split; [done|].
    split; [rewrite length_app, Hlr; simpl; lia|].
    split; [rewrite take_app_le by lia; done|].
    split.
    { rewrite length_app. simpl.
      rewrite lookup_app_r by lia.
      by replace (length r + 1 - 1 - length r)%nat with 0%nat by lia. }
    intros i Hi. destruct (decide (i = a + Z.of_nat k)) as [->|Hne].
    + exists last, p. split; [|split; [done|]].
      * rewrite lookup_app_l by lia.
        by replace (Z.to_nat (a + Z.of_nat k - 1)) with (length r - 1)%nat by lia.
      * rewrite lookup_app_r by lia.
        by replace (Z.to_nat (a + Z.of_nat k) - length r)%nat with 0%nat by lia.
    + destruct (Hrec i) as (prev & p' & H1 & H2 & H3); [lia|].
      exists prev, p'. by rewrite !lookup_app_l by lia.
Qed.

(** The series of [calculate_ema] on a long enough price list. *)
Lemma calculate_ema_recurrence (prices : list Q) (window : Z) :
  0 < window → window ≤ py_len prices →
  ∃ out,
    calculate_ema prices window = Ok out
    ∧ length out = length prices
    ∧ (∀ i : nat, Z.of_nat i < window - 1 → out !! i = Some None)
    ∧ out !! Z.to_nat (window - 1)
      = Some (Some (py_sum (take (Z.to_nat window) prices) / inject_Z window)%Q)
    ∧ ∀ i, window ≤ i < py_len prices →
           ∃ prev p,
             out !! Z.to_nat (i - 1) = Some (Some prev)
             ∧ prices !! Z.to_nat i = Some p
             ∧ out !! Z.to_nat i
               = Some (Some (p * (2 / inject_Z (window + 1))
                             + prev * (1 - 2 / inject_Z (window + 1)))%Q).
Proof.
  intros Hw Hn. unfold calculate_ema.
  destruct (Z.ltb_spec (py_len prices) window); [lia|].
  rewrite !py_div_int by lia. cbn [mbind result_bind].
  rewrite py_slice_prefix by lia.
  set (seed := (py_sum (take (Z.to_nat window) prices) / inject_Z window)%Q).
  set (init := py_repeat None (window - 1) ++ [Some seed]).
  assert (length init = Z.to_nat window) as Hinit
    by (unfold init; rewrite length_app, length_py_repeat; simpl; lia).
  assert (init !! (Z.to_nat window - 1)%nat = Some (Some seed)) as Hlast.
  { unfold init. rewrite lookup_app_r by (rewrite length_py_repeat; lia).
    rewrite length_py_repeat.
    by replace (Z.to_nat window - 1 - Z.to_nat (window - 1))%nat with 0%nat by lia. }
  destruct (ema_loop_recurrence prices (2 / inject_Z (window + 1))%Q
              (Z.to_nat (py_len prices - window)) window init seed)
    as (r & last & Hr & Hlr & Htake & _ & Hrec); [lia|done|done|lia|].
  replace (window + Z.of_nat (Z.to_nat (py_len prices - window)))
    with (py_len prices) in * by lia.
  exists r. split; [done|]. split; [unfold py_len in Hlr; lia|].
  assert (∀ j : nat, (j < Z.to_nat window)%nat → r !! j = init !! j) as Hpre.
  { intros j Hj. rewrite <- Htake. by rewrite lookup_take_lt by lia. }
  split; [|split].
  - intros i Hi. rewrite Hpre by lia. unfold init.
    rewrite lookup_app_l by (rewrite length_py_repeat; lia).
    apply lookup_replicate_2. lia.
  - rewrite Hpre by lia.
    by replace (Z.to_nat (window - 1)) with (Z.to_nat window - 1)%nat by lia.
  - done.
Qed.








(** X1. For a positive window, entry [i] of [calculate_sma] is undefined
    for [i < window - 1] and otherwise the sum of the [window] prices that
    end at index [i], divided by [window]. *)
Theorem sma_is_trailing_mean (prices : list Q) (window : Z)
    (Hwindow : 0 < window) :
  ∃ out,
    calculate_sma prices window = Ok out
    ∧ ∀ i : nat, (i < length prices)%nat →
        out !! i
        = Some (if Z.of_nat i <? window - 1 then None
                else Some (Qdiv (py_sum (take (Z.to_nat window)
                                           (drop (i + 1 - Z.to_nat window) prices)))
                                (inject_Z window))).
Proof.
  destruct (Z.lt_ge_cases (py_len prices) window) as [Hshort|Hlong].
  - eexists. split; [by apply calculate_sma_short|]. intros i Hi.
    rewrite py_repeat_len, lookup_replicate_2 by done.
    destruct (Z.ltb_spec (Z.of_nat i) (window - 1)); [done|].
    unfold py_len in Hshort. lia.
  - eexists. split; [by apply calculate_sma_full|]. intros i Hi.
    rewrite lookup_sma_full by done. unfold sma_value.
    destruct (Z.ltb_spec (Z.of_nat i) (window - 1)); [done|].
    rewrite py_slice_window by (unfold py_len in *; lia).
    replace (Z.to_nat (Z.of_nat i + 1 - (Z.of_nat i - window + 1)))
      with (Z.to_nat window) by lia.
    by replace (Z.to_nat (Z.of_nat i - window + 1))
      with (i + 1 - Z.to_nat window)%nat by lia.
Qed.

Lemma sma_is_trailing_mean_witness :
  0 < 2
  ∧ ∃ out, calculate_sma (rationals [10; 20; 40]) 2 = Ok out
           ∧ out !! 0%nat = Some None
           ∧ out !! 2%nat = Some (Some (Qdiv (py_sum (rationals [20; 40]))
                                             (inject_Z 2))).
Proof.
  split; [lia|].
  destruct (sma_is_trailing_mean (rationals [10; 20; 40]) 2) as (out & Hout & H);
    [lia|].
  exists out. split; [done|]. split.
  - apply (H 0%nat). simpl. lia.
  - apply (H 2%nat). simpl. lia.
Defined.

(** X2. For a positive window and at least [window] prices, the series of
    [calculate_ema] is undefined below index [window - 1], holds the mean
    of the first [window] prices at index [window - 1], and from index
    [window] on every entry is
    [prices[i] * k + ema[i-1] * (1 - k)] with [k = 2 / (window + 1)]: no
    entry after the seed is undefined. *)
Theorem ema_follows_recurrence (prices : list Q) (window : Z)
    (Hwindow : 0 < window) (Hlong : window ≤ py_len prices) :
  ∃ out,
    calculate_ema prices window = Ok out
    ∧ length out = length prices
    ∧ (∀ i : nat, Z.of_nat i < window - 1 → out !! i = Some None)
    ∧ out !! Z.to_nat (window - 1)
      = Some (Some (Qdiv (py_sum (take (Z.to_nat window) prices))
                         (inject_Z window)))
    ∧ ∀ i : nat, window ≤ Z.of_nat i → (i < length prices)%nat →
        ∃ prev p,
          out !! (i - 1)%nat = Some (Some prev)
          ∧ prices !! i = Some p
          ∧ out !! i
            = Some (Some (p * (2 / inject_Z (window + 1))
                          + prev * (1 - 2 / inject_Z (window + 1)))%Q).
Proof.
  destruct (calculate_ema_recurrence prices window)
    as (out & Hout & Hlen & Hnone & Hseed & Hrec); [done..|].
  exists out. do 4 (split; [done|]). intros i Hlo Hhi.
  destruct (Hrec (Z.of_nat i)) as (prev & p & H1 & H2 & H3);
    [unfold py_len; lia|].
  exists prev, p. rewrite Nat2Z.id in H2, H3.
  by replace (Z.to_nat (Z.of_nat i - 1)) with (i - 1)%nat in H1 by lia.
Qed.

Lemma ema_follows_recurrence_witness :
  0 < 2 ∧ 2 ≤ py_len (rationals [10; 20; 40])
  ∧ ∃ out prev,
      calculate_ema (rationals [10; 20; 40]) 2 = Ok out
      ∧ out !! 1%nat = Some (Some prev)
      ∧ out !! 2%nat
        = Some (Some (inject_Z 40 * (2 / inject_Z (2 + 1))
                      + prev * (1 - 2 / inject_Z (2 + 1)))%Q).
Proof.
  split; [lia|]. split; [vm_compute; discriminate|].
  destruct (ema_follows_recurrence (rationals [10; 20; 40]) 2)
    as (out & Hout & _ & _ & _ & Hrec); [lia|vm_compute; discriminate|].
  destruct (Hrec 2%nat) as (prev & p & H1 & H2 & H3); [lia|simpl; lia|].
  exists out, prev. split; [done|]. split; [done|].
  injection H2 as <-. done.
Defined.



(** ** Extremes of the relative strength index *)

Lemma py_comp_lookup {A : Type} (f : Z → result A) (it : list Z) :
  ∀ xs, py_comp f it = Ok xs →
  ∀ (k : nat) (i : Z), it !! k = Some i → ∃ x, f i = Ok x ∧ xs !! k = Some x.
Proof.
  induction it as [|j it IH]; intros xs Hxs k i Hk; [done|].
  simpl in Hxs. apply bind_Ok in Hxs as (x & Hx & Hxs).
  apply bind_Ok in Hxs as (xs' & Hxs' & [= <-]).
  destruct k as [|k]; simpl in Hk.
  - injection Hk as <-. by exists x.
  - destruct (IH xs' Hxs' k i Hk) as (y & ? & ?). by exists y.
Qed.

(** Entry [j] of the deltas is [prices[j+1] - prices[j]]. *)
Lemma rsi_deltas_lookup (prices deltas : list Q) (j : nat) (d : Q) :
  rsi_deltas prices = Ok deltas → deltas !! j = Some d →
  ∃ a b, prices !! j = Some a ∧ prices !! S j = Some b ∧ d = (b - a)%Q.
Proof.
  intros Hd Hj.
  destruct (rsi_deltas_total prices) as (deltas' & Hd' & Hlen).
  rewrite Hd in Hd'. injection Hd' as <-.
  pose proof (lookup_lt_Some _ _ _ Hj) as Hlt. unfold py_len in Hlen.
  unfold rsi_deltas in Hd.
  destruct (py_comp_lookup _ _ _ Hd j (1 + Z.of_nat j)) as (x & Hx & Hjx).
  { apply lookup_py_range. unfold py_len. lia. }
  rewrite Hj in Hjx. injection Hjx as <-.
  destruct (lookup_lt_is_Some_2 prices (S j)) as [b Hb]; [lia|].
  destruct (lookup_lt_is_Some_2 prices j) as [a Ha]; [lia|].
  rewrite (py_index_lookup prices (1 + Z.of_nat j) b) in Hx
    by (lia || by replace (Z.to_nat (1 + Z.of_nat j)) with (S j) by lia).
  cbn [mbind result_bind] in Hx.
  rewrite (py_index_lookup prices (1 + Z.of_nat j - 1) a) in Hx
    by (lia || by replace (Z.to_nat (1 + Z.of_nat j - 1)) with j by lia).
  injection Hx as <-. by exists a, b.
Qed.

Lemma loss_of_nonneg_delta (d : Q) : (0 <= d)%Q → loss_of d = 0%Q.
Proof.
  intros Hd. unfold loss_of, Qltb.
  by rewrite (proj2 (Qle_bool_iff 0 d) Hd).
Qed.



Lemma py_sum_zeros (l : list Q) : Forall (λ x, x = 0%Q) l → py_sum l = 0%Q.
Proof.
  unfold py_sum. induction 1 as [|x l -> _ IH]; [done|]. exact IH.
Qed.

Lemma zero_average (window : Z) (l : list Q) :
  Forall (λ x, x = 0%Q) l →
  (py_sum (py_slice l None (Some window)) / inject_Z window == 0)%Q.
Proof.
  intros Hl. destruct (Z.lt_ge_cases window 0).
  - assert (Forall (λ x, x = 0%Q) (py_slice l None (Some window))) as Hs
      by (unfold py_slice; by apply Forall_take, Forall_drop).
    rewrite (py_sum_zeros _ Hs). unfold Qdiv. ring.
  - rewrite py_slice_prefix by lia.
    rewrite (py_sum_zeros _ (Forall_take _ _ _ Hl)). unfold Qdiv. ring.
Qed.

Lemma wilder_zero (avg : Q) (window : Z) :
  (avg == 0)%Q → ((avg * inject_Z (window - 1) + 0) / inject_Z window == 0)%Q.
Proof. intros ->. unfold Qdiv. ring. Qed.

Lemma rsi_step_at (window : Z) (gains losses : list Q)
    (avg_gain avg_loss : Q) (rsi : list (option Q)) (i : Z) (g l : Q) :
  0 < window → 0 ≤ i →
  gains !! Z.to_nat i = Some g → losses !! Z.to_nat i = Some l →
  rsi_step window gains losses (avg_gain, avg_loss, rsi) i
  = if Qeq_bool ((avg_loss * inject_Z (window - 1) + l) / inject_Z window) 0
    then Ok ((avg_gain * inject_Z (window - 1) + g) / inject_Z window,
             (avg_loss * inject_Z (window - 1) + l) / inject_Z window,
             rsi ++ [Some 100])%Q
    else
      rs ← py_div ((avg_gain * inject_Z (window - 1) + g) / inject_Z window)
                  ((avg_loss * inject_Z (window - 1) + l) / inject_Z window);
      q ← py_div 100 (1 + rs);
      Ok ((avg_gain * inject_Z (window - 1) + g) / inject_Z window,
          (avg_loss * inject_Z (window - 1) + l) / inject_Z window,
          rsi ++ [Some (100 - q)])%Q.
Proof.
  intros Hw Hi Hg Hl. unfold rsi_step.
  rewrite (py_index_lookup gains i g) by done. cbn [mbind result_bind].
  rewrite py_div_int by lia. cbn [mbind result_bind].
  rewrite (py_index_lookup losses i l) by done. cbn [mbind result_bind].
  rewrite py_div_int by lia. done.
Qed.

(** With no loss at all, every iteration writes [100]. *)
Lemma rsi_loop_no_loss (window : Z) (gains losses : list Q) (it : list Z) :
  0 < window → length gains = length losses →
  Forall (λ x, x = 0%Q) losses →
  (∀ i, i ∈ it → 0 ≤ i < py_len gains) →
  ∀ avg_gain avg_loss rsi, (avg_loss == 0)%Q →
  ∃ avg_gain' avg_loss',
    py_for it (rsi_step window gains losses) (avg_gain, avg_loss, rsi)
    = Ok (avg_gain', avg_loss', rsi ++ replicate (length it) (Some 100%Q)).
Proof.
  intros Hw Hlen Hlosses. induction it as [|i it IH];
    intros Hit avg_gain avg_loss rsi Hal.
  - exists avg_gain, avg_loss. simpl. by rewrite app_nil_r.
  - assert (0 ≤ i < py_len gains) as Hi by (apply Hit; left).
    unfold py_len in Hi.
    destruct (lookup_lt_is_Some_2 gains (Z.to_nat i)) as [g Hg]; [lia|].
    destruct (lookup_lt_is_Some_2 losses (Z.to_nat i)) as [l Hl]; [lia|].
    pose proof (Forall_lookup_1 _ _ _ _ Hlosses Hl) as ->.
    cbn [py_for]. rewrite (rsi_step_at _ _ _ _ _ _ _ g 0%Q) by (done || lia).
    pose proof (wilder_zero avg_loss window Hal) as Hal'.
    rewrite (proj2 (Qeq_bool_iff _ _) Hal'). cbn [mbind result_bind].
    destruct (IH (λ j Hj, Hit j (list_elem_of_further _ _ _ Hj))
                 ((avg_gain * inject_Z (window - 1) + g) / inject_Z window)%Q
                 ((avg_loss * inject_Z (window - 1) + 0) / inject_Z window)%Q
                 (rsi ++ [Some 100%Q]) Hal') as (ag' & al' & ->).
    exists ag', al'. by rewrite <- app_assoc.
Qed.


(** X4. For a positive window and at least [window + 1] prices that never
    fall from one day to the next (a flat series included), every entry of
    [calculate_rsi] from index [window + 1] on is exactly [100]. *)
Theorem rsi_is_100_when_prices_never_fall (prices : list Q) (window : Z)
    (Hwindow : 0 < window) (Hlong : window + 1 ≤ py_len prices)
    (Hrising : ∀ (i : nat) (a b : Q),
       prices !! i = Some a → prices !! S i = Some b → (a <= b)%Q) :
  calculate_rsi prices window
  = Ok (replicate (Z.to_nat (window + 1)) None
        ++ replicate (length prices - Z.to_nat (window + 1)) (Some 100%Q)).
Proof.
  rewrite calculate_rsi_state by lia. unfold rsi_state.
  destruct (rsi_deltas_total prices) as (deltas & Hd & Hlen). rewrite Hd.
  cbn [mbind result_bind]. rewrite !py_div_int by lia. cbn [mbind result_bind].
  assert (Forall (λ x, x = 0%Q) (loss_of <$> deltas)) as Hlosses.
  { apply Forall_fmap, Forall_lookup. intros j d Hj. simpl.
    destruct (rsi_deltas_lookup prices deltas j d Hd Hj) as (a & b & Ha & Hb & ->).
    apply loss_of_nonneg_delta. pose proof (Hrising j a b Ha Hb). lra. }
  destruct (rsi_loop_no_loss window (gain_of <$> deltas) (loss_of <$> deltas)
              (py_range window (py_len prices - 1)))
    with (avg_gain := (py_sum (py_slice (gain_of <$> deltas) None (Some window))
                       / inject_Z window)%Q)
         (avg_loss := (py_sum (py_slice (loss_of <$> deltas) None (Some window))
                       / inject_Z window)%Q)
         (rsi := py_repeat (@None Q) window)
    as (ag & al & ->).
  - done.
  - by rewrite !length_fmap.
  - done.
  - intros i Hi%elem_of_py_range. unfold py_len in *. rewrite length_fmap. lia.
  - by apply zero_average.
  - cbn [mbind result_bind snd]. rewrite length_py_range. f_equal.
    unfold py_repeat, py_len.
    replace (Z.to_nat (window + 1)) with (S (Z.to_nat window)) by lia.
    cbn [replicate app]. do 3 f_equal. lia.
Qed.

Lemma rsi_is_100_when_prices_never_fall_witness :
  0 < 2 ∧ 2 + 1 ≤ py_len (rationals [5; 5; 6; 6; 9])
  ∧ calculate_rsi (rationals [5; 5; 6; 6; 9]) 2
    = Ok [None; None; None; Some 100%Q; Some 100%Q].
Proof.
  split; [lia|]. split; [vm_compute; discriminate|].
  apply (rsi_is_100_when_prices_never_fall (rationals [5; 5; 6; 6; 9]) 2);
    [lia|vm_compute; discriminate|].
  intros i a b Ha Hb.
  do 5 (destruct i as [|i];
        [vm_compute in Ha, Hb;
         first [injection Ha as <-; injection Hb as <-; discriminate | done]|]).
  done.
Defined.



(** ** A window of zero *)

Lemma calculate_ema_zero_window (prices : list Q) :
  calculate_ema prices 0 = Raise ZeroDivisionError.
Proof.
  unfold calculate_ema.
  destruct (Z.ltb_spec (py_len prices) 0) as [H|_];
    [pose proof (py_len_nonneg prices); lia|].
  done.
Qed.

Lemma calculate_rsi_zero_window (prices : list Q) :
  prices ≠ [] → calculate_rsi prices 0 = Raise ZeroDivisionError.
Proof.
  intros Hne. unfold calculate_rsi.
  destruct (Z.ltb_spec (py_len prices) (0 + 1)) as [H|_].
  { destruct prices; [done|]. unfold py_len in H. simpl in H. lia. }
  destruct (rsi_deltas_total prices) as (deltas & -> & _). done.
Qed.

(** X6. A window of [0] divides by zero. On a non-empty price list
    [calculate_sma], [calculate_rsi] and [calculate_bollinger_bands] raise
    [ZeroDivisionError], and on the empty list they return empty series;
    [calculate_ema] raises it on every price list, the empty one included,
    and so does [calculate_macd] when [fast] is [0]. *)
Theorem zero_window_raises_ZeroDivisionError (np_sqrt : Q → Q)
    (prices : list Q) (num_std : Q) (slow signal : Z) :
  calculate_ema prices 0 = Raise ZeroDivisionError
  ∧ calculate_macd prices 0 slow signal = Raise ZeroDivisionError
  ∧ calculate_sma [] 0 = Ok []
  ∧ calculate_rsi [] 0 = Ok []
  ∧ calculate_bollinger_bands np_sqrt [] 0 num_std = Ok ([], [], [])
  ∧ (prices ≠ [] →
     calculate_sma prices 0 = Raise ZeroDivisionError
     ∧ calculate_rsi prices 0 = Raise ZeroDivisionError
     ∧ calculate_bollinger_bands np_sqrt prices 0 num_std
       = Raise ZeroDivisionError).
Proof.
  split; [apply calculate_ema_zero_window|].
  split; [unfold calculate_macd; by rewrite calculate_ema_zero_window|].
  do 3 (split; [done|]). intros Hne.
  split; [by apply calculate_sma_zero_window|].
  split; [by apply calculate_rsi_zero_window|].
  unfold calculate_bollinger_bands.
  destruct (Z.ltb_spec (py_len prices) 0) as [H|_];
    [pose proof (py_len_nonneg prices); lia|].
  by rewrite calculate_sma_zero_window.
Qed.

(** ** Where the series are defined *)

Lemma padded_defined_from (k : nat) (xs : list Q) :
  defined_from (Z.of_nat k) (replicate k None ++ (Some <$> xs)).
Proof.
  intros i Hi. rewrite length_app, length_replicate, length_fmap in Hi.
  destruct (decide (i < k)%nat) as [Hlt|Hge].
  - left. split; [|lia].
    rewrite lookup_app_l by (rewrite length_replicate; lia).
    by apply lookup_replicate_2.
  - right. split; [|lia].
    rewrite lookup_app_r by (rewrite length_replicate; lia).
    rewrite length_replicate, list_lookup_fmap.
    destruct (lookup_lt_is_Some_2 xs (i - k)) as [v ->]; [lia|]. by exists v.
Qed.

Lemma undefined_defined_from (n : nat) (k : Z) :
  Z.of_nat n ≤ k → defined_from k (replicate n None).
Proof.
  intros Hk i Hi. rewrite length_replicate in Hi. left.
  split; [by apply lookup_replicate_2|lia].
Qed.

Lemma calculate_sma_defined_from (prices : list Q) (window : Z)
    (out : list (option Q)) :
  0 < window → calculate_sma prices window = Ok out →
  defined_from (window - 1) out.
Proof.
  intros Hw Hout.
  destruct (Z.lt_ge_cases (py_len prices) window) as [Hshort|Hlong].
  - rewrite calculate_sma_short in Hout by done. injection Hout as <-.
    rewrite py_repeat_len. apply undefined_defined_from. unfold py_len in *. lia.
  - rewrite calculate_sma_full in Hout by done. injection Hout as <-.
    intros i Hi. rewrite length_fmap, length_py_range in Hi.
    rewrite lookup_sma_full by (unfold py_len in Hi; lia). unfold sma_value.
    destruct (Z.ltb_spec (Z.of_nat i) (window - 1)); [by left|].
    right. split; [by eexists|done].
Qed.

Lemma calculate_ema_defined_from (prices : list Q) (window : Z)
    (out : list (option Q)) :
  0 < window → calculate_ema prices window = Ok out →
  defined_from (window - 1) out.
Proof.
  intros Hw Hout.
  destruct (Z.lt_ge_cases (py_len prices) window) as [Hshort|Hlong].
  - rewrite calculate_ema_short in Hout by done. injection Hout as <-.
    rewrite py_repeat_len. apply undefined_defined_from. unfold py_len in *. lia.
  - destruct (calculate_ema_padded prices window) as (xs & Hout' & _); [done..|].
    rewrite Hout in Hout'. injection Hout' as ->.
    replace (window - 1) with (Z.of_nat (Z.to_nat (window - 1))) at 1 by lia.
    apply padded_defined_from.
Qed.

Lemma calculate_rsi_defined_from (prices : list Q) (window : Z)
    (out : list (option Q)) :
  0 < window → calculate_rsi prices window = Ok out →
  defined_from (window + 1) out.
Proof.
  intros Hw Hout.
  destruct (Z.lt_ge_cases (py_len prices) (window + 1)) as [Hshort|Hlong].
  - rewrite calculate_rsi_short in Hout by done. injection Hout as <-.
    rewrite py_repeat_len. apply undefined_defined_from. unfold py_len in *. lia.
  - destruct (calculate_rsi_full prices window) as (vs & Hout' & _); [done..|].
    rewrite Hout in Hout'. injection Hout' as ->.
    replace (window + 1) with (Z.of_nat (Z.to_nat (window + 1))) at 1 by lia.
    apply padded_defined_from.
Qed.

Lemma calculate_bollinger_bands_defined_from (np_sqrt : Q → Q)
    (prices : list Q) (window : Z) (num_std : Q)
    (upper middle lower : list (option Q)) :
  0 < window →
  calculate_bollinger_bands np_sqrt prices window num_std
  = Ok (upper, middle, lower) →
  calculate_sma prices window = Ok middle
  ∧ defined_from (window - 1) upper
  ∧ defined_from (window - 1) middle
  ∧ defined_from (window - 1) lower.
Proof.
  intros Hw Hout.
  destruct (Z.lt_ge_cases (py_len prices) window) as [Hshort|Hlong].
  - rewrite calculate_bollinger_bands_short in Hout by done.
    injection Hout as <- <- <-. split; [by apply calculate_sma_short|].
    rewrite py_repeat_len.
    repeat split; apply undefined_defined_from; unfold py_len in *; lia.
  - rewrite calculate_bollinger_bands_full in Hout by done.
    injection Hout as <- <- <-. split; [by apply calculate_sma_full|].
    split; [|split].
    + intros i Hi. rewrite length_fmap, length_py_range in Hi.
      rewrite list_lookup_fmap, lookup_py_range by lia. simpl.
      unfold band_value. rewrite Z.add_0_l.
      destruct (Z.ltb_spec (Z.of_nat i) (window - 1)); [by left|].
      right. split; [by eexists|done].
    + eapply calculate_sma_defined_from; [done|]. by apply calculate_sma_full.
    + intros i Hi. rewrite length_fmap, length_py_range in Hi.
      rewrite list_lookup_fmap, lookup_py_range by lia. simpl.
      unfold band_value. rewrite Z.add_0_l.
      destruct (Z.ltb_spec (Z.of_nat i) (window - 1)); [by left|].
      right. split; [by eexists|done].
Qed.

Lemma undefined_count_padded (k : nat) (zs : list Q) :
  undefined_count (replicate k None ++ (Some <$> zs)) = k.
Proof.
  pose proof (defined_undefined_length (replicate k None ++ (Some <$> zs))) as H.
  rewrite defined_values_padded, length_app, length_replicate, length_fmap in H.
  lia.
Qed.

(** The three series of [calculate_macd] are undefined on a prefix. *)
Lemma calculate_macd_defined_from (prices : list Q) (fast slow signal : Z)
    (macd signal_line histogram : list (option Q)) :
  0 < fast → 0 < slow → 0 < signal →
  calculate_macd prices fast slow signal = Ok (macd, signal_line, histogram) →
  defined_from (Z.max fast slow - 1) macd
  ∧ defined_from (Z.max fast slow + signal - 2) signal_line
  ∧ defined_from (Z.max fast slow + signal - 2) histogram.
Proof.
  intros Hf Hs Hsig Hout.
  destruct (calculate_macd_spec prices fast slow signal)
    as (ef & es & se & Hef & Lef & Hes & Les & Hse & Hmacd); [done..|].
  rewrite Hout in Hmacd. injection Hmacd as -> -> ->.
  destruct (Z.lt_ge_cases (py_len prices) (Z.max fast slow)) as [Hshort|Hlong].
  - assert (zip_with sub_defined ef es = replicate (length prices) None) as Hm.
    { destruct (Z.lt_ge_cases (py_len prices) fast).
      - rewrite calculate_ema_short in Hef by done. injection Hef as <-.
        rewrite py_repeat_len. by apply zip_with_sub_defined_None_l.
      - rewrite calculate_ema_short in Hes by lia. injection Hes as <-.
        rewrite py_repeat_len. by apply zip_with_sub_defined_None_r. }
    rewrite Hm in *. rewrite defined_values_replicate in Hse.
    rewrite calculate_ema_short in Hse by (unfold py_len; simpl; lia).
    injection Hse as <-. rewrite undefined_count_replicate.
    unfold py_repeat, py_len. simpl. rewrite app_nil_r.
    rewrite zip_with_sub_defined_None_r by apply length_replicate.
    unfold py_len in *.
    repeat split; apply undefined_defined_from; lia.
  - destruct (calculate_ema_padded prices fast) as (xs & Hef' & Lx); [lia..|].
    destruct (calculate_ema_padded prices slow) as (ys & Hes' & Ly); [lia..|].
    rewrite Hef in Hef'. injection Hef' as ->.
    rewrite Hes in Hes'. injection Hes' as ->.
    destruct (zip_with_sub_defined_padded (Z.to_nat (fast - 1))
                (Z.to_nat (slow - 1)) xs ys) as (zs & Hzs & Lz); [lia|].
    rewrite Hzs in *. rewrite defined_values_padded in Hse.
    rewrite undefined_count_padded.
    set (k := (Z.to_nat (fast - 1) `max` Z.to_nat (slow - 1))%nat) in *.
    assert (Z.of_nat k = Z.max fast slow - 1) as Hk by (unfold k; lia).
    split; [rewrite <- Hk; apply padded_defined_from|].
    destruct (Z.lt_ge_cases (py_len zs) signal) as [Hfew|Hmany].
    + rewrite calculate_ema_short in Hse by done. injection Hse as <-.
      rewrite py_repeat_len, <- replicate_add.
      assert (length (replicate k (@None Q) ++ (Some <$> zs)) = (k + length zs)%nat)
        as Hl by (by rewrite length_app, length_replicate, length_fmap).
      rewrite zip_with_sub_defined_None_r by done.
      unfold py_len in *.
      split; apply undefined_defined_from; lia.
    + destruct (calculate_ema_padded zs signal) as (ss & Hse' & Ls); [done..|].
      rewrite Hse in Hse'. injection Hse' as ->.
      rewrite app_assoc, <- replicate_add.
      assert (Z.of_nat (k + Z.to_nat (signal - 1)) = Z.max fast slow + signal - 2)
        as Hk2 by lia.
      split; [rewrite <- Hk2; apply padded_defined_from|].
      destruct (zip_with_sub_defined_padded k (k + Z.to_nat (signal - 1)) zs ss)
        as (hs & -> & _); [unfold py_len in *; lia|].
      rewrite Nat.max_r by lia. rewrite <- Hk2. apply padded_defined_from.
Qed.

(** X7. For a positive window, the middle band returned by
    [calculate_bollinger_bands] is the series of [calculate_sma], and the
    upper and lower bands are undefined exactly where it is: all three are
    undefined below index [window - 1] and defined from there on. *)
Theorem bollinger_bands_defined_where_sma_is (np_sqrt : Q → Q)
    (prices : list Q) (window : Z) (num_std : Q) (Hwindow : 0 < window) :
  ∃ upper middle lower,
    calculate_bollinger_bands np_sqrt prices window num_std
    = Ok (upper, middle, lower)
    ∧ calculate_sma prices window = Ok middle
    ∧ defined_from (window - 1) upper
    ∧ defined_from (window - 1) middle
    ∧ defined_from (window - 1) lower
    ∧ ∀ i : nat, (upper !! i = Some None ↔ middle !! i = Some None)
                 ∧ (lower !! i = Some None ↔ middle !! i = Some None).
Proof.
  destruct (calculate_bollinger_bands_length np_sqrt prices window num_std)
    as (u & m & l & Hout & Lu & Lm & Ll); [done|].
  destruct (calculate_bollinger_bands_defined_from np_sqrt prices window
              num_std u m l Hwindow Hout) as (Hsma & Du & Dm & Dl).
  exists u, m, l. do 5 (split; [done|]).
  assert (∀ (a b : list (option Q)) (i : nat),
            length a = length b → defined_from (window - 1) a →
            defined_from (window - 1) b →
            a !! i = Some None → b !! i = Some None) as Hsame.
  { intros a b i Hab Da Db Ha.
    pose proof (lookup_lt_Some _ _ _ Ha) as Hi.
    destruct (Da i Hi) as [[_ Hlt]|[[v Hv] _]]; [|congruence].
    destruct (Db i ltac:(lia)) as [[Hb _]|[_ Hge]]; [done|lia]. }
  intros i. split; split; apply Hsame; (done || congruence).
Qed.

Lemma bollinger_bands_defined_where_sma_is_witness :
  0 < 2
  ∧ ∃ upper middle lower,
      calculate_bollinger_bands floor_sqrt (rationals [1; 3; 5; 7]) 2 2
      = Ok (upper, middle, lower)
      ∧ calculate_sma (rationals [1; 3; 5; 7]) 2 = Ok middle
      ∧ defined_from (2 - 1) upper.
Proof.
  split; [lia|].
  destruct (bollinger_bands_defined_where_sma_is floor_sqrt
              (rationals [1; 3; 5; 7]) 2 2)
    as (u & m & l & H1 & H2 & H3 & _); [lia|].
  by exists u, m, l.
Defined.

(** X8. For positive parameters [calculate_macd] returns three series in
    which the MACD line is undefined exactly below index
    [max fast slow - 1], and the signal line and the histogram exactly
    below index [max fast slow + signal - 2] (33 for the parameters
    12, 26, 9). *)
Theorem macd_series_defined_from (prices : list Q) (fast slow signal : Z)
    (Hfast : 0 < fast) (Hslow : 0 < slow) (Hsignal : 0 < signal) :
  ∃ macd signal_line histogram,
    calculate_macd prices fast slow signal = Ok (macd, signal_line, histogram)
    ∧ defined_from (Z.max fast slow - 1) macd
    ∧ defined_from (Z.max fast slow + signal - 2) signal_line
    ∧ defined_from (Z.max fast slow + signal - 2) histogram.
Proof.
  destruct (calculate_macd_spec prices fast slow signal)
    as (ef & es & se & _ & _ & _ & _ & _ & Hout); [done..|].
  do 3 eexists. split; [exact Hout|].
  by eapply calculate_macd_defined_from.
Qed.

Lemma macd_series_defined_from_witness :
  0 < 2 ∧ 0 < 3 ∧ 0 < 2
  ∧ ∃ macd signal_line histogram,
      calculate_macd (rationals [1; 3; 5; 7; 9; 12; 11; 10]) 2 3 2
      = Ok (macd, signal_line, histogram)
      ∧ defined_from (Z.max 2 3 - 1) macd
      ∧ defined_from (Z.max 2 3 + 2 - 2) signal_line
      ∧ defined_from (Z.max 2 3 + 2 - 2) histogram.
Proof.
  do 3 (split; [lia|]).
  apply (macd_series_defined_from (rationals [1; 3; 5; 7; 9; 12; 11; 10]) 2 3 2);
    lia.
Defined.

(** X9. For positive parameters, entry [i] of the MACD line is
    [ema_fast[i] - ema_slow[i]] and entry [i] of the histogram is
    [macd[i] - signal[i]], each undefined as soon as one of its operands
    is. *)
Theorem macd_and_histogram_are_pointwise_differences (prices : list Q)
    (fast slow signal : Z)
    (Hfast : 0 < fast) (Hslow : 0 < slow) (Hsignal : 0 < signal) :
  ∃ ema_fast ema_slow macd signal_line histogram,
    calculate_ema prices fast = Ok ema_fast
    ∧ calculate_ema prices slow = Ok ema_slow
    ∧ calculate_macd prices fast slow signal = Ok (macd, signal_line, histogram)
    ∧ (∀ (i : nat) (f s : option Q),
         ema_fast !! i = Some f → ema_slow !! i = Some s →
         macd !! i = Some (sub_defined f s))
    ∧ (∀ (i : nat) (m s : option Q),
         macd !! i = Some m → signal_line !! i = Some s →
         histogram !! i = Some (sub_defined m s)).
Proof.
  destruct (calculate_macd_spec prices fast slow signal)
    as (ef & es & se & Hef & _ & Hes & _ & _ & Hout); [done..|].
  exists ef, es. do 3 eexists.
  split; [done|]. split; [done|]. split; [exact Hout|].
  split; intros i a b Ha Hb; rewrite lookup_zip_with, Ha, Hb; done.
Qed.

Lemma macd_and_histogram_are_pointwise_differences_witness :
  0 < 2 ∧ 0 < 3 ∧ 0 < 2
  ∧ ∃ macd signal_line histogram,
      calculate_macd (rationals [1; 3; 5; 7; 9]) 2 3 2
      = Ok (macd, signal_line, histogram)
      ∧ ∀ (i : nat) (m s : option Q),
          macd !! i = Some m → signal_line !! i = Some s →
          histogram !! i = Some (sub_defined m s).
Proof.
  do 3 (split; [lia|]).
  destruct (macd_and_histogram_are_pointwise_differences
              (rationals [1; 3; 5; 7; 9]) 2 3 2)
    as (ef & es & m & s & h & _ & _ & Hout & _ & Hh); [lia..|].
  by exists m, s, h.
Defined.

(** ** A flat price series *)






(** ** The dates of the window *)

Lemma string_leb_cases (a b : string) :
  String.leb a b = true ↔ a = b ∨ String_as_OT.lt a b.
Proof.
  unfold String.leb. change String.compare with String_as_OT.cmp.
  destruct (String_as_OT.cmp a b) eqn:E.
  - apply String_as_OT.cmp_eq in E. naive_solver.
  - apply String_as_OT.cmp_lt in E. naive_solver.
  - split; [done|]. intros [->|Hlt].
    + assert (String_as_OT.cmp b b = Eq) by (by apply String_as_OT.cmp_eq).
      congruence.
    + apply String_as_OT.cmp_lt in Hlt. congruence.
Qed.

Lemma string_ltb_cases (a b : string) :
  String.ltb a b = true ↔ String_as_OT.lt a b.
Proof.
  unfold String.ltb. change String.compare with String_as_OT.cmp.
  rewrite <- String_as_OT.cmp_lt. by destruct (String_as_OT.cmp a b).
Qed.

#[local] Instance string_ge_transitive : Transitive string_ge.
Proof.
  intros a b c. unfold string_ge. rewrite !string_leb_cases.
  intros [->|H1] [->|H2]; eauto.
  right. by eapply String_as_OT.lt_trans.
Qed.

#[local] Instance string_ge_total : Total string_ge.
Proof. intros a b. unfold string_ge. destruct (String.leb_total a b); eauto. Qed.

Lemma string_ge_ne_ltb (a b : string) :
  string_ge a b → a ≠ b → String.ltb b a = true.
Proof.
  unfold string_ge. rewrite string_leb_cases, string_ltb_cases.
  intros [->|H] Hne; done.
Qed.

Lemma StronglySorted_reverse {A : Type} (R : relation A) (l : list A) :
  StronglySorted R l → StronglySorted (flip R) (reverse l).
Proof.
  induction 1 as [|x l Hl IH Hx]; [constructor|].
  rewrite reverse_cons. apply StronglySorted_app_2; [|done|].
  - intros a b Ha Hb. apply list_elem_of_singleton in Hb as ->.
    rewrite elem_of_reverse in Ha. unfold flip.
    by eapply (proj1 (Forall_forall _ _) Hx).
  - repeat constructor.
Qed.

Lemma StronglySorted_weaken {A : Type} (R R' : relation A) (l : list A) :
  (∀ a b, R a b → R' a b) → StronglySorted R l → StronglySorted R' l.
Proof.
  intros HR. induction 1 as [|x l Hl IH Hx]; constructor; [done|].
  eapply Forall_impl; [exact Hx|]. intros y. apply HR.
Qed.

Lemma StronglySorted_strict {A : Type} (R : relation A) (l : list A) :
  StronglySorted R l → NoDup l → StronglySorted (λ a b, R a b ∧ a ≠ b) l.
Proof.
  induction 1 as [|x l Hl IH Hx]; intros Hnd; [constructor|].
  apply NoDup_cons in Hnd as [Hnotin Hnd]. constructor; [by apply IH|].
  apply Forall_forall. intros y Hy. split.
  - by eapply (proj1 (Forall_forall _ _) Hx).
  - intros ->. done.
Qed.

(** The keys of a table in descending order: sorted, without duplicates,
    and the same keys. *)
Lemma sorted_reverse_keys (table : gmap string pyval) :
  StronglySorted string_ge (sorted_reverse (map_to_list table).*1)
  ∧ NoDup (sorted_reverse (map_to_list table).*1)
  ∧ ∀ d, d ∈ sorted_reverse (map_to_list table).*1 ↔ is_Some (table !! d).
Proof.
  unfold sorted_reverse. split; [apply StronglySorted_merge_sort; apply _|].
  split.
  - rewrite merge_sort_Permutation. apply NoDup_fst_map_to_list.
  - intros d. rewrite merge_sort_Permutation, list_elem_of_fmap. split.
    + intros ([k v] & -> & Hkv). apply elem_of_map_to_list in Hkv. by exists v.
    + intros [v Hv]. exists (d, v). split; [done|].
      by apply elem_of_map_to_list.
Qed.

(** X11. The dates that [process_stock_data] selects from a dated table
    are keys of the table, at most 60 of them (all of them when the table
    has at most 60), in strictly ascending order (so without duplicates),
    and every key left out is smaller than every selected date: the window
    holds the most recent dates, oldest first. *)
Theorem window_holds_most_recent_dates_ascending (table : gmap string pyval) :
  ∃ selected,
    select_dates (PDict table) = Ok selected
    ∧ length selected = Nat.min 60 (size table)
    ∧ StronglySorted (λ a b, String.ltb a b = true) selected
    ∧ (∀ d, d ∈ selected → is_Some (table !! d))
    ∧ (∀ d d', d ∈ selected → is_Some (table !! d') → d' ∉ selected →
               String.ltb d' d = true).
Proof.
  destruct (select_dates_dict table) as (ds & Hds & Hlen & Hin).
  exists ds. do 2 (split; [done|]).
  unfold select_dates, py_keys in Hds. cbn [mbind result_bind] in Hds.
  rewrite py_slice_prefix in Hds by lia. injection Hds as <-.
  destruct (sorted_reverse_keys table) as (Hsorted & Hnd & Hkeys).
  set (sorted := sorted_reverse (map_to_list table).*1) in *.
  rewrite <- (take_drop (Z.to_nat 60) sorted) in Hsorted, Hnd.
  split; [|split; [done|]].
  - pose proof (StronglySorted_strict _ _
                  (StronglySorted_app_1_l _ _ _ Hsorted)
                  (proj1 (proj1 (NoDup_app _ _) Hnd))) as Hstrict.
    apply StronglySorted_reverse in Hstrict.
    eapply StronglySorted_weaken; [|exact Hstrict].
    intros a b [Hge Hne]. unfold flip in *. apply string_ge_ne_ltb; [done|].
    by intros ->.
  - intros d d' Hd Hd' Hnot. rewrite elem_of_reverse in Hd, Hnot.
    apply Hkeys in Hd'. rewrite <- (take_drop (Z.to_nat 60) sorted) in Hd'.
    apply elem_of_app in Hd' as [|Hd']; [done|].
    apply string_ge_ne_ltb.
    + by eapply (StronglySorted_app_1_elem_of _ _ _ _ _ Hsorted).
    + intros ->. done.
Qed.

(** ** The rows of the window *)

Section Window.

Variable py_float_str : string → option Q.
Variable py_int_str : string → option Z.
Variable np_sqrt : Q → Q.

(** The loop only appends: what a window holds stays where it is. *)
Lemma window_loop_prefix (time_series : pyval) (ds : list string) :
  ∀ w w', window_loop py_float_str py_int_str time_series ds w = Ok w' →
  w_dates w `prefix_of` w_dates w'
  ∧ w_prices w `prefix_of` w_prices w'
  ∧ w_volumes w `prefix_of` w_volumes w'
  ∧ w_highs w `prefix_of` w_highs w'
  ∧ w_lows w `prefix_of` w_lows w'
  ∧ w_opens w `prefix_of` w_opens w'.
Proof.
  induction ds as [|d ds IH]; intros w w'; simpl.
  - by intros [= <-].
  - intros H. apply bind_Ok in H as (w1 & Hstep & Hloop).
    apply window_step_Ok in Hstep
      as (r & c & v & h & l & o & _ & _ & _ & _ & _ & _ & ->).
    destruct (IH _ _ Hloop) as (H1 & H2 & H3 & H4 & H5 & H6). simpl in *.
    repeat split; (etrans; [apply prefix_app_r; reflexivity|done]).
Qed.

(** Entry [i] of every series comes from the record of date [i]. *)
Lemma window_loop_rows (time_series : pyval) (ds : list string) :
  ∀ w w', window_loop py_float_str py_int_str time_series ds w = Ok w' →
  window_aligned w →
  ∀ (i : nat) (d : string),
    (length (w_dates w) ≤ i)%nat → w_dates w' !! i = Some d →
    ∃ record close volume high low open,
      py_getitem time_series d = Ok record
      ∧ py_getitem record "4. close" ≫= py_float py_float_str = Ok close
      ∧ py_getitem record "5. volume" ≫= py_int py_int_str = Ok volume
      ∧ py_getitem record "2. high" ≫= py_float py_float_str = Ok high
      ∧ py_getitem record "3. low" ≫= py_float py_float_str = Ok low
      ∧ py_getitem record "1. open" ≫= py_float py_float_str = Ok open
      ∧ w_prices w' !! i = Some close
      ∧ w_volumes w' !! i = Some volume
      ∧ w_highs w' !! i = Some high
      ∧ w_lows w' !! i = Some low
      ∧ w_opens w' !! i = Some open.
Proof.
  induction ds as [|d0 ds IH]; intros w w'; simpl.
  - intros [= <-] _ i d Hi Hd. apply lookup_lt_Some in Hd. lia.
  - intros H Hal i d Hi Hd. apply bind_Ok in H as (w1 & Hstep & Hloop).
    pose proof Hstep as Hstep'.
    apply window_step_Ok in Hstep'
      as (r & c & v & h & l & o & Hr & Hc & Hv & Hh & Hl & Ho & Hw1).
    destruct Hal as (Lp & Lv & Lh & Ll & Lo).
    assert (window_aligned w1) as Hal1.
    { rewrite Hw1. unfold window_aligned. simpl. rewrite !length_app. simpl. lia. }
    destruct (decide (i = length (w_dates w))) as [->|Hne].
    + destruct (window_loop_prefix _ _ _ _ Hloop)
        as (P1 & P2 & P3 & P4 & P5 & P6).
      rewrite Hw1 in P1, P2, P3, P4, P5, P6. simpl in *.
      assert (∀ {A} (xs ys : list A) (x : A) (n : nat),
                (xs ++ [x]) `prefix_of` ys → length xs = n →
                ys !! n = Some x) as Hpre.
      { intros A xs ys x n [k ->] <-. rewrite <- app_assoc.
        by rewrite lookup_app_r, Nat.sub_diag by lia. }
      rewrite (Hpre _ _ _ _ _ P1 eq_refl) in Hd. injection Hd as <-.
      exists r, c, v, h, l, o. do 6 (split; [done|]).
      repeat split; eapply Hpre; eauto.
    + apply (IH _ _ Hloop Hal1 i d); [|done].
      rewrite Hw1. simpl. rewrite length_app. simpl. lia.
Qed.




End Window.

(** X12. When the window builder returns, entry [i] of the prices,
    volumes, highs, lows and opens is the parsed ["4. close"],
    ["5. volume"], ["2. high"], ["3. low"] and ["1. open"] field of the
    record that the table holds for the date at entry [i]: the six series
    are aligned index by index with the dates. *)
Theorem window_entries_come_from_their_date
    (py_float_str : string → option Q) (py_int_str : string → option Z)
    (table : gmap string pyval) (w : window) (i : nat) (d : string)
    (Hwindow : build_window py_float_str py_int_str (PDict table) = Ok w)
    (Hdate : w_dates w !! i = Some d) :
  ∃ record close volume high low open,
    table !! d = Some record
    ∧ py_getitem record "4. close" ≫= py_float py_float_str = Ok close
    ∧ py_getitem record "5. volume" ≫= py_int py_int_str = Ok volume
    ∧ py_getitem record "2. high" ≫= py_float py_float_str = Ok high
    ∧ py_getitem record "3. low" ≫= py_float py_float_str = Ok low
    ∧ py_getitem record "1. open" ≫= py_float py_float_str = Ok open
    ∧ w_prices w !! i = Some close
    ∧ w_volumes w !! i = Some volume
    ∧ w_highs w !! i = Some high
    ∧ w_lows w !! i = Some low
    ∧ w_opens w !! i = Some open.
Proof.
  unfold build_window in Hwindow.
  apply bind_Ok in Hwindow as (ds & Hds & Hloop).
  destruct (window_loop_rows _ _ _ _ _ _ Hloop) with (i := i) (d := d)
    as (r & c & v & h & l & o & Hr & H);
    [by repeat split|simpl; lia|done|].
  exists r, c, v, h, l, o. split; [|done].
  unfold py_getitem in Hr. destruct (table !! d); [|done].
  by injection Hr as ->.
Qed.

Lemma window_entries_come_from_their_date_witness :
  build_window decimal_float decimal_int (PDict example_table)
  = Ok example_window
  ∧ w_dates example_window !! 2%nat = Some "2024-01-03"%string
  ∧ ∃ record close,
      example_table !! "2024-01-03"%string = Some record
      ∧ py_getitem record "4. close" ≫= py_float decimal_float = Ok close
      ∧ w_prices example_window !! 2%nat = Some close.
Proof.
  split; [vm_compute; reflexivity|]. split; [reflexivity|].
  destruct (window_entries_come_from_their_date decimal_float decimal_int
              example_table example_window 2 "2024-01-03")
    as (r & c & v & h & l & o & H1 & H2 & _ & _ & _ & _ & H3 & _);
    [vm_compute; reflexivity|reflexivity|].
  by exists r, c.
Defined.


(** ** After the window *)

Lemma defined_from_drop (k : Z) (j : nat) (l : list (option Q)) :
  defined_from k l → defined_from (k - Z.of_nat j) (drop j l).
Proof.
  intros Hl i Hi. rewrite length_drop in Hi. rewrite lookup_drop.
  destruct (Hl (j + i)%nat ltac:(lia)) as [[H1 H2]|[H1 H2]].
  - left. split; [done|lia].
  - right. split; [done|lia].
Qed.

(** Once the window is built every indicator call returns, so the
    orchestrator reaches the lookups in ["Meta Data"]. *)
Lemma process_stock_data_reaches_meta
    (py_float_str : string → option Q) (py_int_str : string → option Z)
    (np_sqrt : Q → Q) (data : gmap string pyval) (time_series : pyval)
    (w : window) :
  data !! "Time Series (Daily)"%string = Some time_series →
  build_window py_float_str py_int_str time_series = Ok w →
  ∃ bundle : pyval → pyval → stock_bundle,
    process_stock_data py_float_str py_int_str np_sqrt data
    = (meta ← py_getitem (PDict data) "Meta Data";
       symbol ← py_getitem meta "2. Symbol";
       meta ← py_getitem (PDict data) "Meta Data";
       last_refreshed ← py_getitem meta "3. Last Refreshed";
       Ok (Some (bundle symbol last_refreshed))).
Proof.
  intros Hts Hbw.
  destruct (calculate_sma_length (w_prices w) 20) as (s20 & Hs20 & _); [lia|].
  destruct (calculate_sma_length (w_prices w) 50) as (s50 & Hs50 & _); [lia|].
  destruct (calculate_ema_length (w_prices w) 12) as (e12 & He12 & _); [lia|].
  destruct (calculate_ema_length (w_prices w) 26) as (e26 & He26 & _); [lia|].
  destruct (calculate_rsi_length (w_prices w) 14) as (r & Hr & _); [lia|].
  destruct (calculate_bollinger_bands_length np_sqrt (w_prices w) 20 2)
    as (bu & bm & bl & Hbb & _); [lia|].
  destruct (calculate_macd_spec (w_prices w) 12 26 9)
    as (ef & es & se & _ & _ & _ & _ & _ & Hmacd); [lia..|].
  rewrite (process_stock_data_present _ _ _ _ _ Hts), Hbw.
  cbn [mbind result_bind].
  rewrite Hs20, Hs50, He12, He26, Hr, Hbb, Hmacd. cbn [mbind result_bind].
  by eexists (λ symbol last_refreshed, _).
Qed.

(** X14. With a dated table whose window builds, the orchestrator still
    fails when the metadata is missing: it raises [KeyError] if the input
    has no ["Meta Data"] entry, or if that entry lacks ["2. Symbol"] or
    ["3. Last Refreshed"], and [TypeError] if the entry is a string. *)
Theorem missing_metadata_raises
    (py_float_str : string → option Q) (py_int_str : string → option Z)
    (np_sqrt : Q → Q) (data : gmap string pyval) (time_series : pyval)
    (w : window)
    (Htable : data !! "Time Series (Daily)"%string = Some time_series)
    (Hwindow : build_window py_float_str py_int_str time_series = Ok w) :
  (data !! "Meta Data"%string = None →
   process_stock_data py_float_str py_int_str np_sqrt data = Raise KeyError)
  ∧ (∀ s, data !! "Meta Data"%string = Some (PStr s) →
          process_stock_data py_float_str py_int_str np_sqrt data
          = Raise TypeError)
  ∧ (∀ meta, data !! "Meta Data"%string = Some (PDict meta) →
             meta !! "2. Symbol"%string = None
             ∨ meta !! "3. Last Refreshed"%string = None →
             process_stock_data py_float_str py_int_str np_sqrt data
             = Raise KeyError).
Proof.
  destruct (process_stock_data_reaches_meta py_float_str py_int_str np_sqrt
              data time_series w Htable Hwindow) as (bundle & ->).
  unfold py_getitem. split; [by intros ->|]. split; [by intros s ->|].
  intros meta -> Hmissing. cbn [mbind result_bind].
  destruct (meta !! "2. Symbol"%string) eqn:Hsym; cbn [mbind result_bind];
    [|done].
  destruct Hmissing as [|Hlr]; [done|]. by rewrite Hlr.
Qed.

Lemma missing_metadata_raises_witness :
  table_only_data !! "Time Series (Daily)"%string = Some (PDict example_table)
  ∧ build_window decimal_float decimal_int (PDict example_table)
    = Ok example_window
  ∧ process_stock_data decimal_float decimal_int floor_sqrt table_only_data
    = Raise KeyError.
Proof.
  split; [vm_compute; reflexivity|]. split; [vm_compute; reflexivity|].
  apply (missing_metadata_raises decimal_float decimal_int floor_sqrt
           table_only_data (PDict example_table) example_window);
    vm_compute; reflexivity.
Defined.

(** X15. In the bundle that the orchestrator returns for a window of
    length [L], with [start = L - min 30 L] entries trimmed, the displayed
    series are undefined exactly below these indices: [19 - start] for
    [sma_20] and the three Bollinger bands, [49 - start] for [sma_50],
    [11 - start] for [ema_12], [25 - start] for [ema_26] and the MACD
    line, [15 - start] for the RSI, [33 - start] for the signal line and
    the histogram. With a window of 60 dates ([start = 30]) only [sma_50]
    (19 entries) and the signal line and histogram (3 entries) have
    undefined displayed entries. *)
Theorem displayed_series_defined_from
    (py_float_str : string → option Q) (py_int_str : string → option Z)
    (np_sqrt : Q → Q) (data : gmap string pyval)
    (time_series meta sym refreshed : pyval) (w : window)
    (Htable : data !! "Time Series (Daily)"%string = Some time_series)
    (Hwindow : build_window py_float_str py_int_str time_series = Ok w)
    (Hmeta : data !! "Meta Data"%string = Some meta)
    (Hsym : py_getitem meta "2. Symbol" = Ok sym)
    (Hrefreshed : py_getitem meta "3. Last Refreshed" = Ok refreshed) :
  ∃ b,
    process_stock_data py_float_str py_int_str np_sqrt data = Ok (Some b)
    ∧ ∀ start : Z,
        start = Z.of_nat (length (w_dates w) - Nat.min 30 (length (w_dates w))) →
        defined_from (19 - start) (sma_20 (indicators b))
        ∧ defined_from (49 - start) (sma_50 (indicators b))
        ∧ defined_from (11 - start) (ema_12 (indicators b))
        ∧ defined_from (25 - start) (ema_26 (indicators b))
        ∧ defined_from (15 - start) (rsi (indicators b))
        ∧ defined_from (19 - start) (bollinger_upper (indicators b))
        ∧ defined_from (19 - start) (bollinger_middle (indicators b))
        ∧ defined_from (19 - start) (bollinger_lower (indicators b))
        ∧ defined_from (25 - start) (macd_line (indicators b))
        ∧ defined_from (33 - start) (macd_signal (indicators b))
        ∧ defined_from (33 - start) (macd_histogram (indicators b)).
Proof.
  destruct (process_stock_data_window py_float_str py_int_str np_sqrt data
              time_series meta sym refreshed w)
    as (s20 & s50 & e12 & e26 & r & bu & bm & bl & ml & ms & mh
        & H1 & H2 & H3 & H4 & H5 & H6 & H7 & _ & _ & Hret); [done..|].
  eexists. split; [exact Hret|]. intros start ->.
  destruct (calculate_bollinger_bands_defined_from np_sqrt (w_prices w) 20 2
              bu bm bl ltac:(lia) H6) as (_ & Du & Dm & Dl).
  destruct (calculate_macd_defined_from (w_prices w) 12 26 9 ml ms mh
              ltac:(lia) ltac:(lia) ltac:(lia) H7) as (Dml & Dms & Dmh).
  unfold drop_bundle. cbn [indicators sma_20 sma_50 ema_12 ema_26 rsi
    bollinger_upper bollinger_middle bollinger_lower macd_line macd_signal
    macd_histogram].
  repeat split; apply defined_from_drop.
  - by apply (calculate_sma_defined_from (w_prices w) 20).
  - by apply (calculate_sma_defined_from (w_prices w) 50).
  - by apply (calculate_ema_defined_from (w_prices w) 12).
  - by apply (calculate_ema_defined_from (w_prices w) 26).
  - by apply (calculate_rsi_defined_from (w_prices w) 14).
  - exact Du.
  - exact Dm.
  - exact Dl.
  - exact Dml.
  - exact Dms.
  - exact Dmh.
Qed.

Lemma displayed_series_defined_from_witness :
  example_data !! "Time Series (Daily)"%string = Some (PDict example_table)
  ∧ build_window decimal_float decimal_int (PDict example_table)
    = Ok example_window
  ∧ example_data !! "Meta Data"%string = Some example_meta
  ∧ py_getitem example_meta "2. Symbol" = Ok (PStr "IBM")
  ∧ py_getitem example_meta "3. Last Refreshed" = Ok (PStr "2024-01-03")
  ∧ ∃ b,
      process_stock_data decimal_float decimal_int floor_sqrt example_data
      = Ok (Some b)
      ∧ defined_from (15 - 0) (rsi (indicators b)).
Proof.
  do 5 (split; [vm_compute; reflexivity|]).
  destruct (displayed_series_defined_from decimal_float decimal_int
              floor_sqrt example_data (PDict example_table) example_meta
              (PStr "IBM") (PStr "2024-01-03") example_window)
    as (b & Hb & Hdef); [vm_compute; reflexivity..|].
  exists b. split; [done|].
  by destruct (Hdef 0 eq_refl) as (_ & _ & _ & _ & H & _).
Defined.

(** ** The fetch layer and the route *)

Section RouteProperties.

Variable API_KEY : string.
Variable http_get : string → list (string * string) → fetched.
Variable py_upper : string → string.
Variable py_float_str : string → option Q.
Variable py_int_str : string → option Z.
Variable np_sqrt : Q → Q.

(** [get_stock_data] on a document without the two error keys. *)
Lemma get_stock_data_clean (symbol function : string)
    (data : gmap string pyval) :
  http_get BASE_URL
    [("function", function); ("symbol", symbol); ("apikey", API_KEY);
     ("outputsize", "compact")]%string = Fetched data →
  data !! "Error Message"%string = None → data !! "Note"%string = None →
  get_stock_data API_KEY http_get symbol function
  = ((Some data, None),
     [Request BASE_URL
        [("function", function); ("symbol", symbol); ("apikey", API_KEY);
         ("outputsize", "compact")]%string]).
Proof.
  intros Hget Herr Hnote. unfold get_stock_data. rewrite Hget.
  destruct (decide (is_Some (data !! "Error Message"%string))) as [[x Hx]|_];
    [congruence|].
  destruct (decide (is_Some (data !! "Note"%string))) as [[x Hx]|_];
    [congruence|done].
Qed.

(** [get_stock_data] when the request does not give a usable document:
    the message it returns. *)
Lemma get_stock_data_refused (symbol function : string) :
  (∃ data, get_stock_data API_KEY http_get symbol function
           = ((Some data, None),
              [Request BASE_URL
                 [("function", function); ("symbol", symbol);
                  ("apikey", API_KEY); ("outputsize", "compact")]%string])
           ∧ http_get BASE_URL
               [("function", function); ("symbol", symbol);
                ("apikey", API_KEY); ("outputsize", "compact")]%string
             = Fetched data
           ∧ data !! "Error Message"%string = None
           ∧ data !! "Note"%string = None)
  ∨ (∃ message, get_stock_data API_KEY http_get symbol function
                = ((None, Some message),
                   [Request BASE_URL
                      [("function", function); ("symbol", symbol);
                       ("apikey", API_KEY); ("outputsize", "compact")]%string])
                ∧ truthy (Some message) = true).
Proof.
  unfold get_stock_data.
  destruct (http_get BASE_URL _) as [data|message] eqn:Hget.
  - destruct (decide (is_Some (data !! "Error Message"%string))) as [|Herr];
      [right; by eexists|].
    destruct (decide (is_Some (data !! "Note"%string))) as [|Hnote];
      [right; by eexists|].
    left. exists data. split; [done|]. split; [done|].
    by split; apply eq_None_not_Some.
  - right. by eexists.
Qed.

(** The route on a document without the two error keys. *)
Lemma get_stock_clean (symbol : string) (data : gmap string pyval) :
  http_get BASE_URL
    [("function", "TIME_SERIES_DAILY"); ("symbol", py_upper symbol);
     ("apikey", API_KEY); ("outputsize", "compact")]%string = Fetched data →
  data !! "Error Message"%string = None → data !! "Note"%string = None →
  get_stock API_KEY http_get py_upper py_float_str py_int_str np_sqrt symbol
  = match process_stock_data py_float_str py_int_str np_sqrt data with
    | Raise e => (Raise e, [daily_request API_KEY (py_upper symbol)])
    | Ok None =>
        (Ok {| status := 400;
               payload := ErrorBody "Failed to process stock data" |},
         [daily_request API_KEY (py_upper symbol)])
    | Ok (Some b) =>
        (Ok {| status := 200;
               payload := StockBody b
                 (get_company_info API_KEY http_get (py_upper symbol)).1 |},
         daily_request API_KEY (py_upper symbol)
         :: (get_company_info API_KEY http_get (py_upper symbol)).2)
    end.
Proof.
  intros Hget Herr Hnote. unfold get_stock.
  rewrite (get_stock_data_clean _ _ data Hget Herr Hnote).
  cbn [truthy process_fetched].
  destruct (process_stock_data _ _ _ data) as [[b|]|e]; [|done..].
  by destruct (get_company_info API_KEY http_get (py_upper symbol)).
Qed.

(** The route when [get_stock_data] returns a message. *)
Lemma get_stock_message (symbol message : string) (log : list event) :
  get_stock_data API_KEY http_get (py_upper symbol) "TIME_SERIES_DAILY"
  = ((None, Some message), log) →
  truthy (Some message) = true →
  get_stock API_KEY http_get py_upper py_float_str py_int_str np_sqrt symbol
  = (Ok {| status := 400; payload := ErrorBody message |}, log).
Proof. intros Hdata Htruthy. unfold get_stock. by rewrite Hdata, Htruthy. Qed.

(** [get_company_info] makes its one request first. *)
Lemma get_company_info_log (symbol : string) :
  ∃ rest, (get_company_info API_KEY http_get symbol).2
          = overview_request API_KEY symbol :: rest
          ∧ (rest = [] ∨ ∃ line, rest = [Print line]).
Proof.
  unfold get_company_info.
  destruct (http_get BASE_URL _) as [data|message].
  - destruct (decide (is_Some (data !! "Symbol"%string)));
      exists []; by split; [|left].
  - eexists. split; [done|]. right. by eexists.
Qed.

End RouteProperties.

(** X16. [get_stock_data] makes exactly one request and returns either
    the fetched document with no message, or no document with a non-empty
    message, never both and never neither; a document it returns has
    neither an ["Error Message"] nor a ["Note"] entry. *)
Theorem get_stock_data_returns_data_or_message (API_KEY : string)
    (http_get : string → list (string * string) → fetched)
    (symbol function : string) :
  ∃ data error,
    get_stock_data API_KEY http_get symbol function
    = ((data, error),
       [Request BASE_URL
          [("function", function); ("symbol", symbol); ("apikey", API_KEY);
           ("outputsize", "compact")]%string])
    ∧ ((∃ d, data = Some d ∧ error = None
             ∧ http_get BASE_URL
                 [("function", function); ("symbol", symbol);
                  ("apikey", API_KEY); ("outputsize", "compact")]%string
               = Fetched d
             ∧ d !! "Error Message"%string = None
             ∧ d !! "Note"%string = None)
       ∨ (data = None ∧ ∃ message, error = Some message ∧ message ≠ ""%string)).
Proof.
  destruct (get_stock_data_refused API_KEY http_get symbol function)
    as [(d & -> & Hget & Herr & Hnote)|(m & -> & Hm)].
  - eexists _, _. split; [done|]. left. by exists d.
  - eexists _, _. split; [done|]. right. split; [done|]. exists m.
    split; [done|]. intros ->. done.
Qed.

(** X17. When the time-series request fails, or its document has an
    ["Error Message"] entry, or (without one) a ["Note"] entry, the route
    answers with status 400 and the message
    ["Error fetching data: " ++ str(e)], ["Invalid stock symbol"] or the
    rate-limit message, in this order of precedence, after that single
    request: it neither processes anything nor asks for the company. *)
Theorem get_stock_refuses_with_400 (API_KEY : string)
    (http_get : string → list (string * string) → fetched)
    (py_upper : string → string)
    (py_float_str : string → option Q) (py_int_str : string → option Z)
    (np_sqrt : Q → Q) (symbol : string) :
  (∀ message,
     http_get BASE_URL
       [("function", "TIME_SERIES_DAILY"); ("symbol", py_upper symbol);
        ("apikey", API_KEY); ("outputsize", "compact")]%string
     = FetchFailed message →
     get_stock API_KEY http_get py_upper py_float_str py_int_str np_sqrt symbol
     = (Ok {| status := 400;
              payload := ErrorBody ("Error fetching data: " ++ message) |},
        [daily_request API_KEY (py_upper symbol)]))
  ∧ (∀ data,
       http_get BASE_URL
         [("function", "TIME_SERIES_DAILY"); ("symbol", py_upper symbol);
          ("apikey", API_KEY); ("outputsize", "compact")]%string
       = Fetched data →
       (is_Some (data !! "Error Message"%string) →
        get_stock API_KEY http_get py_upper py_float_str py_int_str np_sqrt
          symbol
        = (Ok {| status := 400; payload := ErrorBody "Invalid stock symbol" |},
           [daily_request API_KEY (py_upper symbol)]))
       ∧ (data !! "Error Message"%string = None →
          is_Some (data !! "Note"%string) →
          get_stock API_KEY http_get py_upper py_float_str py_int_str np_sqrt
            symbol
          = (Ok {| status := 400;
                   payload := ErrorBody
                     "API call frequency limit reached. Please try again later." |},
             [daily_request API_KEY (py_upper symbol)]))).
Proof.
  split.
  - intros message Hget. unfold get_stock, get_stock_data. by rewrite Hget.
  - intros data Hget. split.
    + intros Herr. unfold get_stock, get_stock_data. rewrite Hget.
      by destruct (decide (is_Some (data !! "Error Message"%string))).
    + intros Herr Hnote. unfold get_stock, get_stock_data. rewrite Hget.
      destruct (decide (is_Some (data !! "Error Message"%string)))
        as [[x Hx]|_]; [congruence|].
      by destruct (decide (is_Some (data !! "Note"%string))).
Qed.

(** X18. When the fetched document has none of the entries
    ["Error Message"], ["Note"] and ["Time Series (Daily)"] (a notice from
    the service, say), the route answers with status 400 and
    ["Failed to process stock data"] after its single request. *)
Theorem get_stock_without_time_series_is_400 (API_KEY : string)
    (http_get : string → list (string * string) → fetched)
    (py_upper : string → string)
    (py_float_str : string → option Q) (py_int_str : string → option Z)
    (np_sqrt : Q → Q) (symbol : string) (data : gmap string pyval)
    (Hfetched : http_get BASE_URL
       [("function", "TIME_SERIES_DAILY"); ("symbol", py_upper symbol);
        ("apikey", API_KEY); ("outputsize", "compact")]%string = Fetched data)
    (Hno_error : data !! "Error Message"%string = None)
    (Hno_note : data !! "Note"%string = None)
    (Hno_series : data !! "Time Series (Daily)"%string = None) :
  get_stock API_KEY http_get py_upper py_float_str py_int_str np_sqrt symbol
  = (Ok {| status := 400; payload := ErrorBody "Failed to process stock data" |},
     [daily_request API_KEY (py_upper symbol)]).
Proof.
  rewrite (get_stock_clean _ _ _ _ _ _ _ data) by done.
  unfold process_stock_data.
  destruct (decide (is_Some (data !! "Time Series (Daily)"%string)))
    as [[x Hx]|_]; [congruence|done].
Qed.

Lemma get_stock_without_time_series_is_400_witness :
  example_service BASE_URL
    [("function", "TIME_SERIES_DAILY"); ("symbol", ascii_upper "busy");
     ("apikey", "KEY"); ("outputsize", "compact")]%string = Fetched notice_data
  ∧ notice_data !! "Error Message"%string = None
  ∧ notice_data !! "Note"%string = None
  ∧ notice_data !! "Time Series (Daily)"%string = None
  ∧ get_stock "KEY" example_service ascii_upper decimal_float decimal_int
      floor_sqrt "busy"
    = (Ok {| status := 400;
             payload := ErrorBody "Failed to process stock data" |},
       [daily_request "KEY" (ascii_upper "busy")]).
Proof.
  do 4 (split; [vm_compute; reflexivity|]).
  apply (get_stock_without_time_series_is_400 "KEY" example_service
           ascii_upper decimal_float decimal_int floor_sqrt "busy" notice_data);
    vm_compute; reflexivity.
Defined.

Lemma process_stock_data_empty_table
    (py_float_str : string → option Q) (py_int_str : string → option Z)
    (np_sqrt : Q → Q) (data : gmap string pyval) (meta sym refreshed : pyval) :
  data !! "Time Series (Daily)"%string = Some (PDict ∅) →
  data !! "Meta Data"%string = Some meta →
  py_getitem meta "2. Symbol" = Ok sym →
  py_getitem meta "3. Last Refreshed" = Ok refreshed →
  process_stock_data py_float_str py_int_str np_sqrt data
  = Ok (Some (empty_bundle sym refreshed)).
Proof.
  intros Htable Hmeta Hsym Href.
  destruct (process_stock_data_window py_float_str py_int_str np_sqrt data
              (PDict ∅) meta sym refreshed empty_window)
    as (s20 & s50 & e12 & e26 & r & bu & bm & bl & ml & ms & mh
        & _ & _ & _ & _ & _ & _ & _ & Hlen & _ & ->);
    [done|apply build_window_empty|done..|].
  rewrite !Forall_cons in Hlen.
  destruct Hlen as (L1 & L2 & L3 & L4 & L5 & L6 & L7 & L8 & L9 & L10 & L11 & _).
  apply nil_length_inv in L1, L2, L3, L4, L5, L6, L7, L8, L9, L10, L11.
  by subst.
Qed.

(** A selected record that does not read makes the builder raise. *)
Lemma build_window_malformed
    (py_float_str : string → option Q) (py_int_str : string → option Z)
    (table record : gmap string pyval) (selected : list string) (date : string) :
  select_dates (PDict table) = Ok selected → date ∈ selected →
  table !! date = Some (PDict record) →
  missing_field record ∨ non_numeric_field py_float_str py_int_str record →
  ∃ e, MalformedRecord e
       ∧ build_window py_float_str py_int_str (PDict table) = Raise e.
Proof.
  intros Hselected Hdate Hrecord Hbad.
  destruct (build_window py_float_str py_int_str (PDict table))
    as [w|e] eqn:Hbw.
  - exfalso. unfold build_window in Hbw. rewrite Hselected in Hbw.
    cbn [mbind result_bind] in Hbw.
    apply window_loop_Ok in Hbw as (_ & _ & Hsteps).
    destruct (Hsteps date Hdate) as (w1 & w2 & Hstep).
    apply window_step_Ok in Hstep
      as (r & c & v & h & l & o & Hr & Hc & Hv & Hh & Hl & Ho & _).
    unfold py_getitem in Hr at 1. rewrite Hrecord in Hr. injection Hr as <-.
    destruct (record_reads_well_formed py_float_str py_int_str record
                c h l o v Hc Hv Hh Hl Ho) as [Hmiss Hnum].
    by destruct Hbad.
  - exists e. split; [by eapply build_window_Raise|done].
Qed.

(** X19. When the fetched document has an empty dated table (and its
    metadata, and no error entry), the route answers with status 200 and a
    bundle of empty series, and goes on to ask for the company: an empty
    history is not reported as an error. *)
Theorem get_stock_empty_table_is_200 (API_KEY : string)
    (http_get : string → list (string * string) → fetched)
    (py_upper : string → string)
    (py_float_str : string → option Q) (py_int_str : string → option Z)
    (np_sqrt : Q → Q) (symbol : string) (data : gmap string pyval)
    (meta sym refreshed : pyval)
    (Hfetched : http_get BASE_URL
       [("function", "TIME_SERIES_DAILY"); ("symbol", py_upper symbol);
        ("apikey", API_KEY); ("outputsize", "compact")]%string = Fetched data)
    (Hno_error : data !! "Error Message"%string = None)
    (Hno_note : data !! "Note"%string = None)
    (Htable : data !! "Time Series (Daily)"%string = Some (PDict ∅))
    (Hmeta : data !! "Meta Data"%string = Some meta)
    (Hsym : py_getitem meta "2. Symbol" = Ok sym)
    (Hrefreshed : py_getitem meta "3. Last Refreshed" = Ok refreshed) :
  ∃ company log,
    get_stock API_KEY http_get py_upper py_float_str py_int_str np_sqrt symbol
    = (Ok {| status := 200;
             payload := StockBody (empty_bundle sym refreshed) company |},
       daily_request API_KEY (py_upper symbol)
       :: overview_request API_KEY (py_upper symbol) :: log).
Proof.
  rewrite (get_stock_clean _ _ _ _ _ _ _ data) by done.
  rewrite (process_stock_data_empty_table _ _ _ data meta sym refreshed)
    by done.
  destruct (get_company_info_log API_KEY http_get (py_upper symbol))
    as (rest & -> & _).
  by eexists _, _.
Qed.

Lemma get_stock_empty_table_is_200_witness :
  example_service BASE_URL
    [("function", "TIME_SERIES_DAILY"); ("symbol", ascii_upper "none");
     ("apikey", "KEY"); ("outputsize", "compact")]%string
  = Fetched empty_table_data
  ∧ empty_table_data !! "Error Message"%string = None
  ∧ empty_table_data !! "Note"%string = None
  ∧ empty_table_data !! "Time Series (Daily)"%string = Some (PDict ∅)
  ∧ empty_table_data !! "Meta Data"%string = Some example_meta
  ∧ py_getitem example_meta "2. Symbol" = Ok (PStr "IBM")
  ∧ py_getitem example_meta "3. Last Refreshed" = Ok (PStr "2024-01-03")
  ∧ ∃ company log,
      get_stock "KEY" example_service ascii_upper decimal_float decimal_int
        floor_sqrt "none"
      = (Ok {| status := 200;
               payload := StockBody
                 (empty_bundle (PStr "IBM") (PStr "2024-01-03")) company |},
         daily_request "KEY" (ascii_upper "none")
         :: overview_request "KEY" (ascii_upper "none") :: log).
Proof.
  do 7 (split; [vm_compute; reflexivity|]).
  apply (get_stock_empty_table_is_200 "KEY" example_service ascii_upper
           decimal_float decimal_int floor_sqrt "none" empty_table_data
           example_meta);
    vm_compute; reflexivity.
Defined.

(** X20. When the fetched document has, at a selected date, a record that
    lacks a required field or holds a field that does not parse, the route
    returns no response at all: the [KeyError], [ValueError] or
    [TypeError] of the builder leaves [get_stock] uncaught, after the
    single time-series request. *)
Theorem get_stock_propagates_malformed_record (API_KEY : string)
    (http_get : string → list (string * string) → fetched)
    (py_upper : string → string)
    (py_float_str : string → option Q) (py_int_str : string → option Z)
    (np_sqrt : Q → Q) (symbol : string) (data table record : gmap string pyval)
    (selected : list string) (date : string)
    (Hfetched : http_get BASE_URL
       [("function", "TIME_SERIES_DAILY"); ("symbol", py_upper symbol);
        ("apikey", API_KEY); ("outputsize", "compact")]%string = Fetched data)
    (Hno_error : data !! "Error Message"%string = None)
    (Hno_note : data !! "Note"%string = None)
    (Htable : data !! "Time Series (Daily)"%string = Some (PDict table))
    (Hselected : select_dates (PDict table) = Ok selected)
    (Hdate : date ∈ selected)
    (Hrecord : table !! date = Some (PDict record))
    (Hbad : missing_field record
            ∨ non_numeric_field py_float_str py_int_str record) :
  ∃ e, MalformedRecord e
       ∧ get_stock API_KEY http_get py_upper py_float_str py_int_str np_sqrt
           symbol
         = (Raise e, [daily_request API_KEY (py_upper symbol)]).
Proof.
  destruct (build_window_malformed py_float_str py_int_str table record
              selected date Hselected Hdate Hrecord Hbad) as (e & He & Hbw).
  exists e. split; [done|].
  rewrite (get_stock_clean _ _ _ _ _ _ _ data) by done.
  by rewrite (process_stock_data_Raise _ _ _ _ _ e Htable Hbw).
Qed.

Lemma get_stock_propagates_malformed_record_witness :
  example_service BASE_URL
    [("function", "TIME_SERIES_DAILY"); ("symbol", ascii_upper "bad");
     ("apikey", "KEY"); ("outputsize", "compact")]%string = Fetched broken_data
  ∧ broken_data !! "Time Series (Daily)"%string = Some (PDict broken_table)
  ∧ select_dates (PDict broken_table) = Ok ["2024-01-02"; "2024-01-03"]%string
  ∧ broken_table !! "2024-01-03"%string = Some (PDict broken_record)
  ∧ missing_field broken_record
  ∧ ∃ e, MalformedRecord e
         ∧ get_stock "KEY" example_service ascii_upper decimal_float
             decimal_int floor_sqrt "bad"
           = (Raise e, [daily_request "KEY" (ascii_upper "bad")]).
Proof.
  assert (missing_field broken_record) as Hmissing.
  { exists "5. volume"%string. split; [left|vm_compute; reflexivity]. }
  do 4 (split; [vm_compute; reflexivity|]). split; [done|].
  apply (get_stock_propagates_malformed_record "KEY" example_service
           ascii_upper decimal_float decimal_int floor_sqrt "bad" broken_data
           broken_table broken_record ["2024-01-02"; "2024-01-03"]%string
           "2024-01-03"%string);
    try (vm_compute; reflexivity).
  - right; left.
  - by left.
Defined.

(** X21. When the time-series document processes into a bundle, the route
    answers with status 200 whatever the company request gives: a failed
    request (it prints one line) or a document without ["Symbol"] gives a
    null company, and a document with ["Symbol"] gives the six company
    fields, each the document's value or ["N/A"] when it is absent. The
    company request follows the time-series request with the same
    upper-cased symbol. *)
Theorem get_stock_success_is_200 (API_KEY : string)
    (http_get : string → list (string * string) → fetched)
    (py_upper : string → string)
    (py_float_str : string → option Q) (py_int_str : string → option Z)
    (np_sqrt : Q → Q) (symbol : string) (data : gmap string pyval)
    (b : stock_bundle)
    (Hfetched : http_get BASE_URL
       [("function", "TIME_SERIES_DAILY"); ("symbol", py_upper symbol);
        ("apikey", API_KEY); ("outputsize", "compact")]%string = Fetched data)
    (Hno_error : data !! "Error Message"%string = None)
    (Hno_note : data !! "Note"%string = None)
    (Hprocessed : process_stock_data py_float_str py_int_str np_sqrt data
                  = Ok (Some b)) :
  (∀ message,
     http_get BASE_URL
       [("function", "OVERVIEW"); ("symbol", py_upper symbol);
        ("apikey", API_KEY)]%string = FetchFailed message →
     get_stock API_KEY http_get py_upper py_float_str py_int_str np_sqrt symbol
     = (Ok {| status := 200; payload := StockBody b None |},
        [daily_request API_KEY (py_upper symbol);
         overview_request API_KEY (py_upper symbol);
         Print ("Error fetching company info: " ++ message)]))
  ∧ (∀ overview,
       http_get BASE_URL
         [("function", "OVERVIEW"); ("symbol", py_upper symbol);
          ("apikey", API_KEY)]%string = Fetched overview →
       (overview !! "Symbol"%string = None →
        get_stock API_KEY http_get py_upper py_float_str py_int_str np_sqrt
          symbol
        = (Ok {| status := 200; payload := StockBody b None |},
           [daily_request API_KEY (py_upper symbol);
            overview_request API_KEY (py_upper symbol)]))
       ∧ (is_Some (overview !! "Symbol"%string) →
          ∃ info,
            get_stock API_KEY http_get py_upper py_float_str py_int_str np_sqrt
              symbol
            = (Ok {| status := 200; payload := StockBody b (Some info) |},
               [daily_request API_KEY (py_upper symbol);
                overview_request API_KEY (py_upper symbol)])
            ∧ name info = default (PStr "N/A") (overview !! "Name"%string)
            ∧ sector info = default (PStr "N/A") (overview !! "Sector"%string)
            ∧ industry info
              = default (PStr "N/A") (overview !! "Industry"%string)
            ∧ market_cap info
              = default (PStr "N/A") (overview !! "MarketCapitalization"%string)
            ∧ pe_ratio info
              = default (PStr "N/A") (overview !! "PERatio"%string)
            ∧ dividend_yield info
              = default (PStr "N/A") (overview !! "DividendYield"%string))).
Proof.
  rewrite (get_stock_clean _ _ _ _ _ _ _ data) by done. rewrite Hprocessed.
  unfold get_company_info. split.
  - intros message ->. done.
  - intros overview ->. split.
    + intros Hsym.
      destruct (decide (is_Some (overview !! "Symbol"%string))) as [[x Hx]|_];
        [congruence|done].
    + intros Hsym.
      destruct (decide (is_Some (overview !! "Symbol"%string))); [|done].
      eexists. split; [done|]. unfold py_get. cbn [name sector industry
        market_cap pe_ratio dividend_yield].
      repeat split;
        match goal with |- context [overview !! ?k] =>
          by destruct (overview !! k) end.
Qed.

Lemma get_stock_success_is_200_witness :
  example_service BASE_URL
    [("function", "TIME_SERIES_DAILY"); ("symbol", ascii_upper "none");
     ("apikey", "KEY"); ("outputsize", "compact")]%string
  = Fetched empty_table_data
  ∧ empty_table_data !! "Error Message"%string = None
  ∧ empty_table_data !! "Note"%string = None
  ∧ process_stock_data decimal_float decimal_int floor_sqrt empty_table_data
    = Ok (Some (empty_bundle (PStr "IBM") (PStr "2024-01-03")))
  ∧ example_service BASE_URL
      [("function", "OVERVIEW"); ("symbol", ascii_upper "none");
       ("apikey", "KEY")]%string = FetchFailed "connection reset"
  ∧ get_stock "KEY" example_service ascii_upper decimal_float decimal_int
      floor_sqrt "none"
    = (Ok {| status := 200;
             payload := StockBody
               (empty_bundle (PStr "IBM") (PStr "2024-01-03")) None |},
       [daily_request "KEY" (ascii_upper "none");
        overview_request "KEY" (ascii_upper "none");
        Print ("Error fetching company info: " ++ "connection reset")]).
Proof.
  do 5 (split; [vm_compute; reflexivity|]).
  destruct (get_stock_success_is_200 "KEY" example_service ascii_upper
              decimal_float decimal_int floor_sqrt "none" empty_table_data
              (empty_bundle (PStr "IBM") (PStr "2024-01-03")))
    as [Hfailed _]; [vm_compute; reflexivity..|].
  apply Hfailed. vm_compute; reflexivity.
Defined.

(** X22. Whatever the service answers, [get_stock] ends in one of three
    ways: status 200 with the bundle of a document it fetched, after the
    time-series request, the company request and at most one printed line;
    status 400 with a non-empty message, after the time-series request
    alone; or an exception, after the time-series request alone, and then
    it is the exception that [process_stock_data] raised on the fetched
    document. It makes no request before the time-series one, no third
    request, no company request unless it answers 200, and it never calls
    [process_stock_data] without a document. *)
Theorem get_stock_outcomes (API_KEY : string)
    (http_get : string → list (string * string) → fetched)
    (py_upper : string → string)
    (py_float_str : string → option Q) (py_int_str : string → option Z)
    (np_sqrt : Q → Q) (symbol : string) :
  (∃ data b company rest,
     get_stock API_KEY http_get py_upper py_float_str py_int_str np_sqrt symbol
     = (Ok {| status := 200; payload := StockBody b company |},
        daily_request API_KEY (py_upper symbol)
        :: overview_request API_KEY (py_upper symbol) :: rest)
     ∧ (rest = [] ∨ ∃ line, rest = [Print line])
     ∧ http_get BASE_URL
         [("function", "TIME_SERIES_DAILY"); ("symbol", py_upper symbol);
          ("apikey", API_KEY); ("outputsize", "compact")]%string
       = Fetched data
     ∧ process_stock_data py_float_str py_int_str np_sqrt data = Ok (Some b))
  ∨ (∃ message,
       get_stock API_KEY http_get py_upper py_float_str py_int_str np_sqrt
         symbol
       = (Ok {| status := 400; payload := ErrorBody message |},
          [daily_request API_KEY (py_upper symbol)])
       ∧ message ≠ ""%string)
  ∨ (∃ data e,
       get_stock API_KEY http_get py_upper py_float_str py_int_str np_sqrt
         symbol
       = (Raise e, [daily_request API_KEY (py_upper symbol)])
       ∧ http_get BASE_URL
           [("function", "TIME_SERIES_DAILY"); ("symbol", py_upper symbol);
            ("apikey", API_KEY); ("outputsize", "compact")]%string
         = Fetched data
       ∧ process_stock_data py_float_str py_int_str np_sqrt data = Raise e).
Proof.
  destruct (get_stock_data_refused API_KEY http_get (py_upper symbol)
              "TIME_SERIES_DAILY")
    as [(d & _ & Hget & Herr & Hnote)|(m & Hdata & Hm)].
  - rewrite (get_stock_clean _ _ _ _ _ _ _ d) by done.
    destruct (process_stock_data py_float_str py_int_str np_sqrt d)
      as [[b|]|e] eqn:Hp.
    + left.
      destruct (get_company_info_log API_KEY http_get (py_upper symbol))
        as (rest & -> & Hrest).
      by eexists d, b, _, rest.
    + right; left. by eexists.
    + right; right. by exists d, e.
  - right; left. exists m. split.
    + by apply get_stock_message.
    + intros ->. done.
Qed.
